(** * eas-cli: archive source resolution, build requests and build tracking

    A shallow embedding of four files of [packages/eas-cli/src]:

    - [submit/ArchiveSource.ts]: [getArchiveAsync] and its six handlers, the
      build-details-page detector and the prompt validators;
    - [build/build.ts]: [prepareBuildRequestForPlatformAsync] and the sender
      it returns, [uploadProjectAsync], [sendBuildRequestAsync] and
      [waitForBuildEndAsync];
    - [build/android/build.ts]: [createAndroidContextAsync] and
      [ensureAndroidCredentialsAsync];
    - [build/android/configure.ts]: [configureAndroidAsync] and
      [validateAndSyncProjectConfigurationAsync].

    Asynchronous functions become functions in a state-and-exception monad
    over an explicit world (the answers the user will give, a journal of the
    effects performed, a clock, the local disk).  Collaborators that live
    outside these files (the GraphQL catalog, the prompt library, the URL
    parser, the uploader, the credentials provider) are fields of a record of
    services.  Strings are sequences of 8-bit characters; numbers of seconds
    and milliseconds are integers. *)

From Stdlib Require Import ZArith String Ascii List Bool Lia.
From stdpp Require Import base option list gmap sets strings pretty.

Open Scope string_scope.
Open Scope Z_scope.

(** ** Exceptions and the effect monad *)

(** A JavaScript [Error] value, identified by its message. *)
Inductive Error := JsError (message : string).

(** How a call of an async function ends.  [OutOfFuel] is not a JavaScript
    outcome: it marks a run of the model that was cut short. *)
Inductive Outcome (A : Type) :=
| Returned (a : A)
| Thrown (e : Error)
| OutOfFuel.
Arguments Returned {A} a.
Arguments Thrown {A} e.
Arguments OutOfFuel {A}.

Definition M (W A : Type) : Type := W -> Outcome A * W.

Definition ret {W A} (a : A) : M W A := fun w => (Returned a, w).

Definition throw {W A} (e : Error) : M W A := fun w => (Thrown e, w).

Definition bind {W A B} (m : M W A) (k : A -> M W B) : M W B :=
  fun w =>
    match m w with
    | (Returned a, w') => k a w'
    | (Thrown e, w') => (Thrown e, w')
    | (OutOfFuel, w') => (OutOfFuel, w')
    end.

(** [try { m } catch (err) { handler err }] *)
Definition tryCatch {W A} (m : M W A) (handler : Error -> M W A) : M W A :=
  fun w =>
    match m w with
    | (Thrown e, w') => handler e w'
    | r => r
    end.

(** [try { m } finally { fin }], for a [fin] that may throw itself. *)
Definition tryFinally {W A} (m : M W A) (fin : M W unit) : M W A :=
  fun w =>
    match m w with
    | (OutOfFuel, w') => (OutOfFuel, w')
    | (r, w') =>
        match fin w' with
        | (Returned _, w'') => (r, w'')
        | (Thrown e, w'') => (Thrown e, w'')
        | (OutOfFuel, w'') => (OutOfFuel, w'')
        end
    end.

Declare Scope js_scope.
Delimit Scope js_scope with js.
Notation "x <~ m ;; k" := (bind m (fun x => k))
  (at level 100, m at next level, right associativity) : js_scope.
Notation "m ;;; k" := (bind m (fun _ => k))
  (at level 100, right associativity) : js_scope.
Open Scope js_scope.

(** ** Data shared by both files *)

(** [Platform] of [@expo/eas-build-job]. *)
Inductive Platform := ANDROID | IOS.

(** The generated GraphQL types ([graphql/generated]). *)
Module Graphql.

(** [AppPlatform] of the generated GraphQL types. *)
Inductive AppPlatform := Android | Ios.

Definition AppPlatform_eqb (a b : AppPlatform) : bool :=
  match a, b with
  | Android, Android | Ios, Ios => true
  | _, _ => false
  end.

(** [BuildStatus] of the generated GraphQL types: six enumerators.  A value
    that arrives over the wire and is none of them is kept as [OtherStatus]
    with its raw text; the [default:] arm of the switch in
    [waitForBuildEndAsync] is written for it. *)
Inductive BuildStatus :=
| New | InQueue | InProgress | Finished | Errored | Canceled
| OtherStatus (raw : string).

Definition BuildStatus_eqb (a b : BuildStatus) : bool :=
  match a, b with
  | New, New | InQueue, InQueue | InProgress, InProgress
  | Finished, Finished | Errored, Errored | Canceled, Canceled => true
  | OtherStatus x, OtherStatus y => String.eqb x y
  | _, _ => false
  end.

(** The [error] object of a build ([errorCode], [message]). *)
Record BuildError := { errorCode : string; errorMessage : string }.

(** [BuildFragment], with the fields the two files read.  Dates are kept as
    epoch milliseconds ([new Date(updatedAt).getTime()]). *)
Record BuildFragment := {
  id : string;
  platform : AppPlatform;
  status : BuildStatus;
  error : option BuildError;
  updatedAt : Z;
  appVersion : option string;
  sdkVersion : option string;
  runtimeVersion : option string;
  buildProfile : option string;
  appBuildVersion : option string;
  releaseChannel : option string;
  initiatingActorName : option string
}.

End Graphql.
Import Graphql.

(** JavaScript truthiness of an optional string: [undefined], [null] and the
    empty string are falsy. *)
Definition truthy (s : option string) : bool :=
  match s with
  | Some s => negb (String.eqb s "")
  | None => false
  end.

(** * submit/ArchiveSource.ts *)

Module ArchiveSource.

Definition BUILD_LIST_ITEM_COUNT : nat := 4.

Inductive ArchiveSourceType := url_ | latest | path_ | buildId | buildList | prompt.

Record ArchiveSourceBase := {
  platform : Platform;
  projectId : string;
  nonInteractive : bool
}.

(** The tagged union [ArchiveSource].  A spread such as
    [{...source, sourceType: ArchiveSourceType.prompt}] yields the variant of
    the new tag over the same base fields; a property of the old variant that
    the spread carries along ([url], [path], [id]) is not part of the new
    variant's type and is never read through it. *)
Inductive ArchiveSource :=
| ArchiveUrlSource (base : ArchiveSourceBase) (url : string)
| ArchiveLatestSource (base : ArchiveSourceBase)
| ArchivePathSource (base : ArchiveSourceBase) (path : string)
| ArchiveBuildIdSource (base : ArchiveSourceBase) (id : string)
| ArchiveBuildListSource (base : ArchiveSourceBase)
| ArchivePromptSource (base : ArchiveSourceBase).

Definition base (source : ArchiveSource) : ArchiveSourceBase :=
  match source with
  | ArchiveUrlSource b _ | ArchiveLatestSource b | ArchivePathSource b _
  | ArchiveBuildIdSource b _ | ArchiveBuildListSource b | ArchivePromptSource b => b
  end.

Definition sourceType (source : ArchiveSource) : ArchiveSourceType :=
  match source with
  | ArchiveUrlSource _ _ => url_
  | ArchiveLatestSource _ => latest
  | ArchivePathSource _ _ => path_
  | ArchiveBuildIdSource _ _ => buildId
  | ArchiveBuildListSource _ => buildList
  | ArchivePromptSource _ => prompt
  end.

(** [interface Archive { build?: BuildFragment; source: ArchiveSource; url?: string }] *)
Record Archive := {
  build : option BuildFragment;
  source : ArchiveSource;
  url : option string
}.

(** *** Strings: the UUID check and the build-details-page pattern *)

Definition inRange (lo hi c : ascii) : bool :=
  (nat_of_ascii lo <=? nat_of_ascii c)%nat && (nat_of_ascii c <=? nat_of_ascii hi)%nat.

Definition isHexDigit (c : ascii) : bool :=
  inRange "0" "9" c || inRange "a" "f" c || inRange "A" "F" c.

Definition isDash (c : ascii) : bool := Ascii.eqb c "-".

(** [[1-5]] *)
Definition isVersionDigit (c : ascii) : bool := inRange "1" "5" c.

(** [[89ab]] under the [i] flag *)
Definition isVariantDigit (c : ascii) : bool :=
  existsb (Ascii.eqb c) ["8"; "9"; "a"; "b"; "A"; "B"]%char.

(** The character classes of
    [[0-9a-f]{8}-[0-9a-f]{4}-[1-5][0-9a-f]{3}-[89ab][0-9a-f]{3}-[0-9a-f]{12}],
    one per position. *)
Definition uuidPattern : list (ascii -> bool) :=
  repeat isHexDigit 8 ++ [isDash] ++ repeat isHexDigit 4 ++ [isDash]
  ++ [isVersionDigit] ++ repeat isHexDigit 3 ++ [isDash]
  ++ [isVariantDigit] ++ repeat isHexDigit 3 ++ [isDash] ++ repeat isHexDigit 12.

Fixpoint matchesClasses (classes : list (ascii -> bool)) (s : string) : bool :=
  match classes, s with
  | [], EmptyString => true
  | p :: classes', String c s' => p c && matchesClasses classes' s'
  | _, _ => false
  end.

(** [uuid.validate] of the npm package uuid 8.3.2: the anchored,
    case-insensitive pattern above, or the nil UUID. *)
Definition uuid_validate (s : string) : bool :=
  matchesClasses uuidPattern s
  || String.eqb s "00000000-0000-0000-0000-000000000000".

Definition hexValue (c : ascii) : nat :=
  if inRange "0" "9" c then nat_of_ascii c - 48
  else if inRange "a" "f" c then nat_of_ascii c - 87
  else nat_of_ascii c - 55.

(** [uuid.version]: [parseInt(uuid.substr(14, 1), 16)]; throws a [TypeError]
    on a string that does not validate ([None]). *)
Definition uuid_version (s : string) : option nat :=
  if uuid_validate s then
    match String.get 14 s with
    | Some c => Some (hexValue c)
    | None => None
    end
  else None.

Definition isUuidV4 (s : string) : bool :=
  uuid_validate s &&
  match uuid_version s with
  | Some v => (v =? 4)%nat
  | None => false
  end.

(** [.] of a JavaScript regular expression without the [s] flag matches any
    character but a line terminator. *)
Definition isLineTerminator (c : ascii) : bool :=
  Ascii.eqb c "010" || Ascii.eqb c "013".

Fixpoint stripPrefix (p s : string) : option string :=
  match p, s with
  | EmptyString, _ => Some s
  | String a p', String b s' => if Ascii.eqb a b then stripPrefix p' s' else None
  | String _ _, EmptyString => None
  end.

(** [(.{n})] at the head of [s]: the [n] characters captured. *)
Fixpoint takeDots (n : nat) (s : string) : option string :=
  match n, s with
  | O, _ => Some EmptyString
  | S n', String c s' =>
      if isLineTerminator c then None
      else match takeDots n' s' with
           | Some g => Some (String c g)
           | None => None
           end
  | S _, EmptyString => None
  end.

(** [\/builds\/(.{36}).*] at the head of [s]; the trailing [.*] matches the
    empty string at least, so it never fails. *)
Definition buildsSegment (s : string) : option string :=
  match stripPrefix "/builds/" s with
  | Some r => takeDots 36 r
  | None => None
  end.

(** [.*\/builds\/(.{36}).*] at the head of [s].  The star is greedy: the
    longest run of characters is tried first and given back one at a time. *)
Fixpoint dotStarBuilds (s : string) : option string :=
  match s with
  | EmptyString => buildsSegment s
  | String c s' =>
      if isLineTerminator c then buildsSegment s
      else match dotStarBuilds s' with
           | Some g => Some g
           | None => buildsSegment s
           end
  end.

(** [expo\.(dev|io).*\/builds\/(.{36}).*] at the head of [s]; the second group. *)
Definition matchHere (s : string) : option string :=
  match stripPrefix "expo." s with
  | Some r =>
      match
        match stripPrefix "dev" r with
        | Some r' => dotStarBuilds r'
        | None => None
        end
      with
      | Some g => Some g
      | None =>
          match stripPrefix "io" r with
          | Some r' => dotStarBuilds r'
          | None => None
          end
      end
  | None => None
  end.

(** [url.match(/expo\.(dev|io).*\/builds\/(.{36}).*/)[2]]: the leftmost
    position at which the pattern matches wins. *)
Fixpoint matchBuildsUrl (s : string) : option string :=
  match matchHere s with
  | Some g => Some g
  | None =>
      match s with
      | EmptyString => None
      | String _ s' => matchBuildsUrl s'
      end
  end.

(** [isBuildDetailsPage]: the id, or [false] ([None]). *)
Definition isBuildDetailsPage (url : string) : option string :=
  match matchBuildsUrl url with
  | Some maybeBuildId => if isUuidV4 maybeBuildId then Some maybeBuildId else None
  | None => None
  end.

Definition lowerChar (c : ascii) : ascii :=
  if inRange "A" "Z" c then ascii_of_nat (nat_of_ascii c + 32) else c.

Fixpoint toLowerCase (s : string) : string :=
  match s with
  | EmptyString => EmptyString
  | String c s' => String (lowerChar c) (toLowerCase s')
  end.


(** *** The world of the resolver *)

(** What the person at the terminal does at the next prompt. *)
Inductive Answer :=
| Pick (n : nat)          (* a select prompt: the n-th entry, counted from 0 *)
| Typed (text : string)   (* a text prompt *)
| Confirm (yes : bool)    (* a yes/no prompt *)
| Broken (e : Error).     (* the prompt rejects with [e] *)

Inductive LogLevel := LogError | LogWarn | LogLog | LogDebug.

Inductive Event :=
| Logged (level : LogLevel) (text : string)
| LoggedErr (level : LogLevel) (text : string) (err : Error)
| Prompted (name message : string) (entries : list (string * bool))
| QueriedRecent (appPlatform : AppPlatform) (projectId : string) (limit : option nat)
| QueriedById (id : string)
| Uploaded (path : string).

Record World := { script : list Answer; journal : list Event }.

(** The collaborators of [ArchiveSource.ts].  The remote ones answer as a
    function of logical time (the number of journal entries so far), so the
    catalog, the disk and the clock may change while the resolver runs. *)
Record Services := {
  toAppPlatform : Platform -> AppPlatform;
  appPlatformDisplayNames : AppPlatform -> string;
  (* getRecentBuildsForSubmissionAsync(appPlatform, projectId, { limit }) *)
  getRecentBuildsForSubmissionAsync :
    nat -> AppPlatform -> string -> option nat -> Error + list BuildFragment;
  (* BuildQuery.byIdAsync(id) *)
  byIdAsync : nat -> string -> Error + BuildFragment;
  isExistingFileAsync : nat -> string -> bool;
  uploadAppArchiveAsync : nat -> string -> Error + string;
  (* new URL(url).protocol; None when the constructor throws *)
  URL_protocol : string -> option string;
  (* new Date().getTime() *)
  Date_now : nat -> Z;
  (* buildDate.toLocaleString() *)
  toLocaleString : Z -> string;
  (* chalk.bold, chalk.dim, learnMore *)
  bold : string -> string;
  dim : string -> string;
  learnMore : string -> string
}.

(** The failure of the prompt layer when there is nobody to answer (a
    session without a terminal is a script without answers). *)
Definition promptFailure : Error :=
  JsError "Input is required, but stdin is not readable.".

Definition emit (e : Event) : M World unit :=
  fun w => (Returned tt, {| script := script w; journal := journal w ++ [e] |}).

Definition logicalTime : M World nat :=
  fun w => (Returned (length (journal w)), w).

Definition Log_error (text : string) := emit (Logged LogError text).
Definition Log_warn (text : string) := emit (Logged LogWarn text).
Definition Log_log (text : string) := emit (Logged LogLog text).

(** [prompts.Choice] *)
Record Choice (A : Type) := { title : string; value : A; disabled : bool }.
Arguments title {A} c.
Arguments value {A} c.
Arguments disabled {A} c.

(** Modelled from the spec: [promptAsync] of [prompts.ts], which is not among
    the sources, called with [type: 'select'] (the [selectOne] of the
    InteractivePrompter, spec section 6: it hands back the value of the entry
    chosen and fails fast when the session cannot answer).  It is not passed
    the [nonInteractive] flag of the source.  A pick beyond the list yields
    no value ([undefined]).  The picked entry is returned whether or not it
    is marked [disabled]: what the prompt library does with that mark is its
    own business. *)
Definition promptSelect {A} (name message : string) (choices : list (Choice A))
  : M World (option A) :=
  emit (Prompted name message (map (fun c => (title c, disabled c)) choices));;;
  fun w =>
    match script w with
    | Pick n :: rest =>
        (Returned (value <$> choices !! n), {| script := rest; journal := journal w |})
    | Broken e :: rest => (Thrown e, {| script := rest; journal := journal w |})
    | _ :: rest => (Thrown promptFailure, {| script := rest; journal := journal w |})
    | [] => (Thrown promptFailure, w)
    end.

(** [string | boolean] as returned by a [validate] callback: [true], or the
    text shown to the user before asking again. *)
Inductive Validation := Accepted | Rejected (why : string).

(** The validated-input contract of the prompt layer (spec section 4.1): the
    answers are read until one passes [validate]. *)
Fixpoint readValidated (validate : string -> Validation) (answers : list Answer)
  : Outcome string * list Answer :=
  match answers with
  | Typed text :: rest =>
      match validate text with
      | Accepted => (Returned text, rest)
      | Rejected _ => readValidated validate rest
      end
  | Broken e :: rest => (Thrown e, rest)
  | _ :: rest => (Thrown promptFailure, rest)
  | [] => (Thrown promptFailure, [])
  end.

(** Modelled from the spec: [promptAsync] of [prompts.ts] called with
    [type: 'text'] and a [validate] callback (the [inputText] of the
    InteractivePrompter). *)
Definition promptText (name message : string) (validate : string -> Validation)
  : M World string :=
  emit (Prompted name message []);;;
  fun w =>
    let (r, rest) := readValidated validate (script w) in
    (r, {| script := rest; journal := journal w |}).

(** Modelled from the spec: [confirmAsync] of [prompts.ts] (the [confirm] of
    the InteractivePrompter). *)
Definition confirmAsync (message : string) : M World bool :=
  emit (Prompted "value" message []);;;
  fun w =>
    match script w with
    | Confirm yes :: rest => (Returned yes, {| script := rest; journal := journal w |})
    | Broken e :: rest => (Thrown e, {| script := rest; journal := journal w |})
    | _ :: rest => (Thrown promptFailure, {| script := rest; journal := journal w |})
    | [] => (Thrown promptFailure, w)
    end.

(** Lifting a collaborator's answer into the monad. *)
Definition await {A} (r : Error + A) : M World A :=
  match r with
  | inl e => throw e
  | inr a => ret a
  end.

Section Resolver.

Variable sv : Services.

(** [validateUrl].  The array [protocols] is a constant and truthy, so of
    [protocols ? (parsed.protocol ? ... : false) : true] the first arm is
    the one taken. *)
Definition validateUrl (url : string) : bool :=
  let protocols := ["http"; "https"] in
  match URL_protocol sv url with
  | Some protocol =>
      if negb (String.eqb protocol "")
      then existsb (String.eqb protocol) (map (fun x => toLowerCase x +:+ ":") protocols)
      else false
  | None => false
  end.

Definition defaultArchiveUrl : string := "https://url.to/your/archive.aab".

Definition askForArchiveUrlAsync : M World string :=
  promptText "url" "URL:"
    (fun url =>
       if String.eqb url defaultArchiveUrl then
         Rejected "That was just an example URL, meant to show you the format that we expect for the response."
       else if negb (validateUrl url) then
         Rejected (url +:+ " does not conform to HTTP format")
       else Accepted).

Definition askForArchivePathAsync (platform : Platform) : M World string :=
  let isIos := match platform with IOS => true | ANDROID => false end in
  let defaultArchivePath :=
    "/path/to/your/archive." +:+ (if isIos then "ipa" else "aab") in
  now <~ logicalTime ;;
  promptText "path"
    ("Path to the app archive file (" +:+ (if isIos then "ipa" else "aab or apk") +:+ "):")
    (fun path =>
       if String.eqb path defaultArchivePath then
         Rejected "That was just an example path, meant to show you the format that we expect for the response."
       else if negb (isExistingFileAsync sv now path) then
         Rejected ("File " +:+ path +:+ " doesn't exist.")
       else Accepted).

Definition askForBuildIdAsync : M World string :=
  promptText "id" "Build ID:"
    (fun val =>
       if negb (isUuidV4 val) then Rejected (val +:+ " is not a valid ID") else Accepted).

Definition askIfUseBuildIdFromUrlAsync (base : ArchiveSourceBase) (url buildId : string)
  : M World bool :=
  Log_warn ("It seems that you provided a build details page URL: " +:+ url);;;
  Log_warn "We expected to see the build artifact URL.";;;
  if negb (nonInteractive base) then
    useAsBuildId <~ confirmAsync ("Do you want to submit build " +:+ buildId +:+ " instead?") ;;
    if useAsBuildId then ret true
    else (Log_warn "The submission will most probably fail.";;; ret false)
  else
    (Log_warn "Proceeding because you've run this command in non-interactive mode.";;;
     ret false).

(** [formatBuildChoice] *)
Definition formatBuildChoice (build : BuildFragment) (expiryDate : Z)
  : Choice (option BuildFragment) :=
  let formatValue (field : option string) : string :=
    match field with
    | Some f => if truthy field then bold sv f else dim sv "Unknown"
    | None => dim sv "Unknown"
    end in
  let buildDate := updatedAt build in
  let maybeRuntimeVersion :=
    if truthy (runtimeVersion build)
    then Some ("Runtime: " +:+ formatValue (runtimeVersion build)) else None in
  let maybeSdkVersion :=
    if truthy (sdkVersion build)
    then Some ("SDK: " +:+ formatValue (sdkVersion build)) else None in
  let appBuildVersionString :=
    (if AppPlatform_eqb (Graphql.platform build) Android then "Version code" else "Build number")
    +:+ ": " +:+ formatValue (appBuildVersion build) in
  let tab := String "009" EmptyString in
  let title :=
    String.concat (String "010" EmptyString)
      [ "ID: " +:+ dim sv (id build) +:+ ", Finished at: "
          +:+ bold sv (toLocaleString sv buildDate);
        String.concat ", "
          (omap (fun it => it)
             [ Some (tab +:+ "App version: " +:+ formatValue (appVersion build)
                     +:+ ", " +:+ appBuildVersionString);
               maybeRuntimeVersion;
               maybeSdkVersion ]);
        tab +:+ "Profile: " +:+ formatValue (buildProfile build)
          +:+ ", Release channel: " +:+ formatValue (releaseChannel build);
        tab +:+ "Authored by: " +:+ formatValue (initiatingActorName build) ] in
  {| title := title; value := Some build; disabled := buildDate <? expiryDate |}.

(** What a handler does once its [try] block is left: hand back the archive,
    or call [getArchiveAsync] again.  The handlers write
    [return getArchiveAsync(...)] without [await], so a rejection of that call
    is not seen by the [catch] around it. *)
Inductive Step :=
| Done (archive : Archive)
| Recurse (next : ArchiveSource).

Definition asPrompt (source : ArchiveSource) : ArchiveSource :=
  ArchivePromptSource (base source).

Section Handlers.

(** The recursive call of [getArchiveAsync]. *)
Variable getArchive : ArchiveSource -> M World Archive.

Definition continue (step : Step) : M World Archive :=
  match step with
  | Done archive => ret archive
  | Recurse next => getArchive next
  end.

Definition handleUrlSourceAsync (b : ArchiveSourceBase) (url : string) : M World Archive :=
  let source := ArchiveUrlSource b url in
  if negb (validateUrl url) then
    Log_error (bold sv ("The URL you provided is invalid: " +:+ url));;;
    getArchive (asPrompt source)
  else
    match isBuildDetailsPage url with
    | Some maybeBuildId =>
        use <~ askIfUseBuildIdFromUrlAsync b url maybeBuildId ;;
        if use then getArchive (ArchiveBuildIdSource b maybeBuildId)
        else ret {| build := None; source := source; url := Some url |}
    | None => ret {| build := None; source := source; url := Some url |}
    end.

Definition handleLatestSourceAsync (b : ArchiveSourceBase) : M World Archive :=
  let source := ArchiveLatestSource b in
  step <~ tryCatch
    (now <~ logicalTime ;;
     emit (QueriedRecent (toAppPlatform sv (platform b)) (projectId b) None);;;
     recent <~ await (getRecentBuildsForSubmissionAsync sv now
                        (toAppPlatform sv (platform b)) (projectId b) None) ;;
     match head recent with
     | None =>
         Log_error (bold sv "Couldn't find any builds for this project on EAS servers. It looks like you haven't run 'eas build' yet.");;;
         ret (Recurse (asPrompt source))
     | Some latestBuild =>
         ret (Done {| build := Some latestBuild; source := source; url := None |})
     end)
    (fun err => emit (LoggedErr LogError "" err);;; throw err) ;;
  continue step.

Definition handlePathSourceAsync (b : ArchiveSourceBase) (path : string) : M World Archive :=
  let source := ArchivePathSource b path in
  now <~ logicalTime ;;
  if negb (isExistingFileAsync sv now path) then
    Log_error (bold sv (path +:+ " doesn't exist"));;;
    getArchive (asPrompt source)
  else
    Log_log "Uploading your app archive to the Expo Submission Service";;;
    now' <~ logicalTime ;;
    emit (Uploaded path);;;
    uploadUrl <~ await (uploadAppArchiveAsync sv now' path) ;;
    ret {| build := None; source := source; url := Some uploadUrl |}.

Definition handleBuildIdSourceAsync (b : ArchiveSourceBase) (id : string) : M World Archive :=
  let source := ArchiveBuildIdSource b id in
  step <~ tryCatch
    (now <~ logicalTime ;;
     emit (QueriedById id);;;
     build <~ await (byIdAsync sv now id) ;;
     if negb (AppPlatform_eqb (Graphql.platform build) (toAppPlatform sv (platform b))) then
       let expectedPlatformName := appPlatformDisplayNames sv (toAppPlatform sv (platform b)) in
       let receivedPlatformName := appPlatformDisplayNames sv (Graphql.platform build) in
       Log_error (bold sv ("Build platform doesn't match! Expected " +:+ expectedPlatformName
                           +:+ " build but got " +:+ receivedPlatformName +:+ "."));;;
       ret (Recurse (asPrompt source))
     else ret (Done {| build := Some build; source := source; url := None |}))
    (fun err =>
       Log_error (bold sv ("Could not find build with ID " +:+ id));;;
       Log_warn "Are you sure that the given ID corresponds to a build from EAS Build?";;;
       Log_warn ("Build IDs from the classic build service (expo build:[android|ios]) are not supported. "
                 +:+ learnMore sv "https://docs.expo.dev/submit/classic-builds/");;;
       emit (LoggedErr LogDebug "Original error:" err);;;
       ret (Recurse (asPrompt source))) ;;
  continue step.

(** The entries of the build list: one per build, then the way out. *)
Definition buildChoices (recentBuilds : list BuildFragment) (expiryDate : Z)
  : list (Choice (option BuildFragment)) :=
  map (fun build => formatBuildChoice build expiryDate) recentBuilds
  ++ [ {| title := "None of the above (select another option)";
          value := None; disabled := false |} ].

Definition thirtyDays : Z := 30 * 24 * 60 * 60 * 1000.

Definition handleBuildListSourceAsync (b : ArchiveSourceBase) : M World Archive :=
  let source := ArchiveBuildListSource b in
  step <~ tryCatch
    (let appPlatform := toAppPlatform sv (platform b) in
     now <~ logicalTime ;;
     (* expiryDate.setDate(expiryDate.getDate() - 30): thirty calendar days
        back, which is thirty times 24 hours under a constant UTC offset *)
     let expiryDate := Date_now sv now - thirtyDays in
     emit (QueriedRecent appPlatform (projectId b) (Some BUILD_LIST_ITEM_COUNT));;;
     recentBuilds <~ await (getRecentBuildsForSubmissionAsync sv now appPlatform
                              (projectId b) (Some BUILD_LIST_ITEM_COUNT)) ;;
     if (length recentBuilds <? 1)%nat then
       Log_error (bold sv ("Couldn't find any " +:+ appPlatformDisplayNames sv appPlatform
                           +:+ " builds for this project on EAS servers. "
                           +:+ "It looks like you haven't run 'eas build' yet."));;;
       ret (Recurse (asPrompt source))
     else if forallb (fun it => updatedAt it <? expiryDate) recentBuilds then
       Log_error (bold sv ("It looks like all of your build artifacts have expired. "
                           +:+ "EAS keeps your build artifacts only for 30 days."));;;
       ret (Recurse (asPrompt source))
     else
       let choices := buildChoices recentBuilds expiryDate in
       picked <~ promptSelect "selectedBuild" "Which build would you like to submit?"
                   (map (fun choice =>
                           {| title := "- " +:+ title choice;
                              value := value choice;
                              disabled := disabled choice |}) choices) ;;
       match mjoin picked with
       | None => ret (Recurse (asPrompt source))
       | Some selectedBuild =>
           ret (Done {| build := Some selectedBuild; source := source; url := None |})
       end)
    (fun err => emit (LoggedErr LogError "" err);;; throw err) ;;
  continue step.

Definition sourceTypeChoices : list (Choice ArchiveSourceType) :=
  [ {| title := "Select a build from EAS"; value := buildList; disabled := false |};
    {| title := "Provide a URL to the app archive"; value := url_; disabled := false |};
    {| title := "Provide a path to a local app binary file"; value := path_; disabled := false |};
    {| title := "Provide a build ID to identify a build on EAS"; value := buildId;
       disabled := false |} ].

Definition handlePromptSourceAsync (b : ArchiveSourceBase) : M World Archive :=
  sourceTypeRaw <~ promptSelect "sourceType" "What would you like to submit?"
                     sourceTypeChoices ;;
  match sourceTypeRaw with
  | Some url_ =>
      url <~ askForArchiveUrlAsync ;;
      getArchive (ArchiveUrlSource b url)
  | Some path_ =>
      path <~ askForArchivePathAsync (platform b) ;;
      getArchive (ArchivePathSource b path)
  | Some buildList => getArchive (ArchiveBuildListSource b)
  | Some buildId =>
      id <~ askForBuildIdAsync ;;
      getArchive (ArchiveBuildIdSource b id)
  | _ => throw (JsError "This should never happen")
  end.

Definition dispatch (source : ArchiveSource) : M World Archive :=
  match source with
  | ArchivePromptSource b => handlePromptSourceAsync b
  | ArchiveUrlSource b url => handleUrlSourceAsync b url
  | ArchiveLatestSource b => handleLatestSourceAsync b
  | ArchivePathSource b path => handlePathSourceAsync b path
  | ArchiveBuildIdSource b id => handleBuildIdSourceAsync b id
  | ArchiveBuildListSource b => handleBuildListSourceAsync b
  end.

End Handlers.

(** [getArchiveAsync].  The recursion of the source is not structural (a
    handler may call back with any variant), so it is unrolled [fuel] times. *)
Fixpoint getArchiveAsync (fuel : nat) (source : ArchiveSource) : M World Archive :=
  match fuel with
  | O => fun w => (OutOfFuel, w)
  | S fuel' => dispatch (getArchiveAsync fuel') source
  end.

End Resolver.

(** *** Vocabulary of the specification *)

(** The world after some more journal entries. *)
Definition logged (w : World) (events : list Event) : World :=
  {| script := script w; journal := journal w ++ events |}.

(** The world after some more journal entries and one answer consumed. *)
Definition answered (w : World) (rest : list Answer) (events : list Event) : World :=
  {| script := rest; journal := journal w ++ events |}.


(** No line terminator occurs in [s]. *)
Fixpoint noLineBreak (s : string) : bool :=
  match s with
  | EmptyString => true
  | String c s' => negb (isLineTerminator c) && noLineBreak s'
  end.


(** How many calls a variant may make before an answer must be consumed. *)
Definition rank (source : ArchiveSource) : nat :=
  match source with
  | ArchivePromptSource _ => 0
  | _ => 1
  end.

(** Journal entries that are neither a prompt nor an upload. *)
Definition quiet (e : Event) : bool :=
  match e with
  | Prompted _ _ _ | Uploaded _ => false
  | _ => true
  end.

(** "Exactly one of url / jobRef is set", by the variant that produced the
    archive. *)
Definition oneReference (archive : Archive) : Prop :=
  match sourceType (source archive) with
  | url_ | path_ => is_Some (url archive) /\ build archive = None
  | latest | buildId | buildList => is_Some (build archive) /\ url archive = None
  | prompt => False
  end.

(** *** Scenarios *)

Definition day : Z := 24 * 60 * 60 * 1000.

Definition today : Z := 1700000000000.

Definition iosBuild (buildId : string) (at_ : Z) : BuildFragment :=
  {| id := buildId; Graphql.platform := Ios; status := Finished; error := None;
     updatedAt := at_;
     appVersion := Some "1.0.0"; sdkVersion := None; runtimeVersion := None;
     buildProfile := Some "production"; appBuildVersion := Some "7";
     releaseChannel := None; initiatingActorName := None |}.

Definition freshBuild : BuildFragment :=
  iosBuild "3fa85f64-5717-4562-b3fc-2c963f66afa6" (today - 2 * day).
Definition staleBuild : BuildFragment :=
  iosBuild "0b0f7a9e-7a3c-4d1e-9f57-0e7a5b5f6c11" (today - 40 * day).
Definition olderBuild : BuildFragment :=
  iosBuild "5c1d9d8a-2f64-4c0b-8a51-6d2f1d0e9b22" (today - 45 * day).

(** A project with one fresh build and two expired ones.  The URL parser is
    stood in for by a check of the two scheme prefixes. *)
Definition project : Services :=
  {| toAppPlatform := fun p => match p with ANDROID => Android | IOS => Ios end;
     appPlatformDisplayNames := fun p => match p with Android => "Android" | Ios => "iOS" end;
     getRecentBuildsForSubmissionAsync := fun _ _ _ limit =>
       inr (firstn (default 1%nat limit) [freshBuild; staleBuild; olderBuild]);
     byIdAsync := fun _ buildId =>
       if String.eqb buildId (id freshBuild) then inr freshBuild
       else inl (JsError "[GraphQL] Entity not found");
     isExistingFileAsync := fun _ p => String.eqb p "/home/me/app.ipa";
     uploadAppArchiveAsync := fun _ _ => inr "https://submission-service-archives.s3/app.ipa";
     URL_protocol := fun u =>
       if String.prefix "https://" u then Some "https:"
       else if String.prefix "http://" u then Some "http:"
       else None;
     Date_now := fun _ => today;
     toLocaleString := fun _ => "a date";
     bold := fun text => text;
     dim := fun text => text;
     learnMore := fun u => "Learn more: " +:+ u |}.


Definition onIos (nonInteractive : bool) : ArchiveSourceBase :=
  {| platform := IOS; projectId := "p1"; nonInteractive := nonInteractive |}.

Definition detailsPage : string :=
  "https://expo.dev/accounts/x/projects/y/builds/3fa85f64-5717-4562-b3fc-2c963f66afa6".

Definition user (answers : list Answer) : World :=
  {| script := answers; journal := [] |}.

End ArchiveSource.

(** * build/build.ts *)

Module Build.

(** *** uploadProjectAsync *)

(** What [makeProjectTarballAsync] resolves to. *)
Record Tarball := { path : string; size : Z }.

Inductive BuildEvent :=
| PROJECT_UPLOAD_ATTEMPT | PROJECT_UPLOAD_SUCCESS | PROJECT_UPLOAD_FAIL.

(** The local disk (the set of paths that exist) and the analytics sent. *)
Record Disk := { files : gset string; analytics : list BuildEvent }.

(** The activation of [uploadProjectAsync]: the disk and the local variable
    [projectTarballPath], which the callback assigns and [finally] reads. *)
Record Frame := { disk : Disk; projectTarballPath : option string }.

Record UploadServices := {
  (* makeProjectTarballAsync(): the tarball it would write on this disk, or
     the error it rejects with, in which case it leaves no file behind *)
  makeProjectTarballAsync : gset string -> Error + Tarball;
  (* uploadAsync(UploadSessionType.EasBuildProjectSources, path, tracker) *)
  uploadAsync : string -> Error + string
}.

Definition logEvent (e : BuildEvent) : M Frame unit :=
  fun f =>
    (Returned tt,
     {| disk := {| files := files (disk f); analytics := analytics (disk f) ++ [e] |};
        projectTarballPath := projectTarballPath f |}).

(** Modelled from the spec: [withAnalyticsAsync] ([analytics/common] is not
    among the sources).  Analytics emission is an external concern (spec,
    section 1); the wrapper runs its callback once and passes its result or
    its exception through unchanged, recording the attempt and the outcome. *)
Definition withAnalyticsAsync {A} (fn : M Frame A) (attemptEvent successEvent failureEvent : BuildEvent)
  : M Frame A :=
  tryCatch
    (logEvent attemptEvent;;;
     result <~ fn ;;
     logEvent successEvent;;;
     ret result)
    (fun error => logEvent failureEvent;;; throw error).

(** [fs.remove(path)] of fs-extra: afterwards the path does not exist. *)
Definition fs_remove (p : string) : M Frame unit :=
  fun f =>
    (Returned tt,
     {| disk := {| files := files (disk f) ∖ {[p]}; analytics := analytics (disk f) |};
        projectTarballPath := projectTarballPath f |}).

Section Upload.

Variable sv : UploadServices.

Definition makeProjectTarball : M Frame Tarball :=
  fun f =>
    match makeProjectTarballAsync sv (files (disk f)) with
    | inl e => (Thrown e, f)
    | inr tarball =>
        (Returned tarball,
         {| disk := {| files := {[path tarball]} ∪ files (disk f);
                       analytics := analytics (disk f) |};
            projectTarballPath := projectTarballPath f |})
    end.

Definition setProjectTarballPath (p : string) : M Frame unit :=
  fun f => (Returned tt, {| disk := disk f; projectTarballPath := Some p |}).

Definition getProjectTarballPath : M Frame (option string) :=
  fun f => (Returned (projectTarballPath f), f).

Definition upload (p : string) : M Frame string :=
  match uploadAsync sv p with
  | inl e => throw e
  | inr bucketKey => ret bucketKey
  end.

Definition uploadProjectBody : M Frame string :=
  tryFinally
    (withAnalyticsAsync
       (projectTarball <~ makeProjectTarball ;;
        setProjectTarballPath (path projectTarball);;;
        bucketKey <~ upload (path projectTarball) ;;
        ret bucketKey)
       PROJECT_UPLOAD_ATTEMPT PROJECT_UPLOAD_SUCCESS PROJECT_UPLOAD_FAIL)
    (p <~ getProjectTarballPath ;;
     if truthy p then
       match p with
       | Some p => fs_remove p
       | None => ret tt
       end
     else ret tt).

(** [uploadProjectAsync]: a fresh activation, [projectTarballPath] undefined. *)
Definition uploadProjectAsync : M Disk string :=
  fun d =>
    let (r, f) := uploadProjectBody {| disk := d; projectTarballPath := None |} in
    (r, disk f).

End Upload.

(** *** waitForBuildEndAsync *)

Inductive Event :=
| Log_log (text : string)
| Log_debug (text : string) (err : Error)
| SpinnerStart
| SpinnerSucceed (text : string)
| SpinnerFail (text : string)
| SpinnerWarn (text : string)
| SpinnerStopAndPersist.

(** The wall clock in milliseconds, the number of polling rounds made, the
    text of the spinner, and what was printed. *)
Record World := {
  clock : Z;
  round : nat;
  spinnerText : string;
  journal : list Event
}.

Record TrackerServices := {
  (* BuildQuery.byIdAsync(buildId, { useCache: false }) during the n-th round *)
  byIdAsync : nat -> string -> Error + BuildFragment;
  (* how long the n-th round of fetches takes, in milliseconds *)
  fetchMillis : nat -> N;
  (* by how much the sleep after the n-th round overshoots its delay *)
  sleepLag : nat -> N;
  (* chalk.red, chalk.green *)
  red : string -> string;
  green : string -> string
}.

(** [{ timeoutSec = 3600, intervalSec = 30 } = {}] *)
Record Options := { timeoutSec : option Z; intervalSec : option Z }.

Definition emit (e : Event) : M World unit :=
  fun w =>
    (Returned tt,
     {| clock := clock w; round := round w; spinnerText := spinnerText w;
        journal := journal w ++ [e] |}).

Definition setSpinnerText (text : string) : M World unit :=
  fun w =>
    (Returned tt,
     {| clock := clock w; round := round w; spinnerText := text; journal := journal w |}).

Definition getSpinnerText : M World string := fun w => (Returned (spinnerText w), w).

(** [new Date().getTime()] *)
Definition getTime : M World Z := fun w => (Returned (clock w), w).

Definition BuildList : Type := list (option BuildFragment).

Section Tracker.

Variable sv : TrackerServices.

(** Modelled from the spec: [sleepAsync] of [utils/promise], which is not
    among the sources (the inter-tick sleep of spec section 4.3).  The timer
    fires no earlier than after [ms]. *)
Definition sleepAsync (ms : Z) : M World unit :=
  fun w =>
    (Returned tt,
     {| clock := clock w + Z.max 0 ms + Z.of_N (sleepLag sv (round w));
        round := round w; spinnerText := spinnerText w; journal := journal w |}).

(** One fetch of the [Promise.all]: a rejection is logged and becomes [null]. *)
Definition fetchOne (n : nat) (buildId : string) : option BuildFragment * list Event :=
  match byIdAsync sv n buildId with
  | inr build => (Some build, [])
  | inl err => (None, [Log_debug "Failed to fetch the build status" err])
  end.

(** [await Promise.all(buildIds.map(...))]: every id is fetched in every
    round, and the results come back in the order of [buildIds]. *)
Definition fetchBuilds (buildIds : list string) : M World BuildList :=
  fun w =>
    let results := map (fetchOne (round w)) buildIds in
    (Returned (map fst results),
     {| clock := clock w + Z.of_N (fetchMillis sv (round w));
        round := S (round w);
        spinnerText := spinnerText w;
        journal := journal w ++ concat (map snd results) |}).

(** The [builds.length === 1] arm.  [Some builds] stands for [return builds],
    [None] for falling out of the [if] into the rest of the loop body. *)
Definition trackSingle (builds : BuildList) (build : option BuildFragment)
  : M World (option BuildList) :=
  match build with
  | Some build =>
      match status build with
      | Finished => emit (SpinnerSucceed "Build finished");;; ret (Some builds)
      | New => setSpinnerText "Build created";;; ret None
      | InQueue => setSpinnerText "Build queued...";;; ret None
      | Canceled =>
          setSpinnerText "Build canceled";;;
          emit SpinnerStopAndPersist;;;
          ret (Some builds)
      | InProgress => setSpinnerText "Build in progress...";;; ret None
      | Errored =>
          emit (SpinnerFail "Build failed");;;
          match error build with
          | Some _ => ret (Some builds)
          | None => throw (JsError "Standalone build failed!")
          end
      | OtherStatus raw =>
          emit (SpinnerWarn "Unknown status");;;
          throw (JsError ("Unknown build status: " +:+ raw +:+ " - aborting!"))
      end
  | None =>
      text <~ getSpinnerText ;;
      if String.eqb text "" then
        setSpinnerText "Could not fetch the build status. Check your network connection.";;;
        ret None
      else ret None
  end.

(** [build?.status === s] *)
Definition hasStatus (s : BuildStatus) (build : option BuildFragment) : bool :=
  match build with
  | Some build => BuildStatus_eqb (status build) s
  | None => false
  end.

(** [builds.filter(build => build?.status === s).length] *)
Definition countStatus (s : BuildStatus) (builds : BuildList) : Z :=
  Z.of_nat (length (List.filter (hasStatus s) builds)).

(** Truthiness of a status: the enumerators are non-empty strings. *)
Definition statusTruthy (s : BuildStatus) : bool :=
  match s with
  | OtherStatus raw => negb (String.eqb raw "")
  | _ => true
  end.

(** [build?.status ? [Finished, Errored, Canceled].includes(build.status) : false] *)
Definition isEnded (build : option BuildFragment) : bool :=
  match build with
  | Some build =>
      if statusTruthy (status build)
      then existsb (BuildStatus_eqb (status build)) [Finished; Errored; Canceled]
      else false
  | None => false
  end.

(** [n && text]: the text when the count is not 0. *)
Definition andText (n : Z) (text : string) : option string :=
  if n =? 0 then None else Some text.

Definition summaryText (builds : BuildList) : string :=
  let newBuilds := countStatus New builds in
  let inQueue := countStatus InQueue builds in
  let inProgress := countStatus InProgress builds in
  let errored := countStatus Errored builds in
  let finished := countStatus Finished builds in
  let canceled := countStatus Canceled builds in
  let unknown :=
    Z.of_nat (length builds) - newBuilds - inQueue - inProgress - errored - finished in
  String.concat (String "009" EmptyString)
    (omap (fun i => i)
       [ andText newBuilds ("Builds created: " +:+ pretty newBuilds);
         andText inQueue ("Builds in queue: " +:+ pretty inQueue);
         andText inProgress ("Builds in progress: " +:+ pretty inProgress);
         andText canceled ("Builds canceled: " +:+ pretty canceled);
         andText errored (red sv ("Builds failed: " +:+ pretty errored));
         andText finished (green sv ("Builds finished: " +:+ pretty finished));
         andText unknown (red sv ("Builds with unknown status: " +:+ pretty unknown)) ]).

(** The [else] arm: no job, or more than one. *)
Definition trackMany (builds : BuildList) : M World (option BuildList) :=
  if (length (List.filter (hasStatus Finished) builds)
      =? length builds)%nat then
    emit (SpinnerSucceed "All builds have finished");;; ret (Some builds)
  else if (length (List.filter isEnded builds)
           =? length builds)%nat then
    emit (SpinnerFail "Some of the builds were canceled or failed.");;; ret (Some builds)
  else
    setSpinnerText (summaryText builds);;; ret None.

(** What one round does with the snapshots it fetched. *)
Definition track (builds : BuildList) : M World (option BuildList) :=
  match builds with
  | [build] => trackSingle builds build
  | _ => trackMany builds
  end.

Definition timeoutError : Error :=
  JsError "Timeout reached! It is taking longer than expected to finish the build, aborting...".

(** The [while (time <= endTime)] loop and what follows it.  One unit of
    [fuel] pays for one evaluation of the loop condition. *)
Fixpoint pollLoop (fuel : nat) (buildIds : list string) (intervalSec endTime time : Z)
  : M World BuildList :=
  match fuel with
  | O => fun w => (OutOfFuel, w)
  | S fuel' =>
      if time <=? endTime then
        builds <~ fetchBuilds buildIds ;;
        verdict <~ track builds ;;
        match verdict with
        | Some result => ret result
        | None =>
            time' <~ getTime ;;
            sleepAsync (intervalSec * 1000);;;
            pollLoop fuel' buildIds intervalSec endTime time'
        end
      else
        emit (SpinnerWarn "Timed out");;;
        throw timeoutError
  end.

Definition waitForBuildEndAsync (fuel : nat) (buildIds : list string) (options : Options)
  : M World BuildList :=
  let timeoutSec := default 3600 (timeoutSec options) in
  let intervalSec := default 30 (intervalSec options) in
  emit (Log_log ("Waiting for build" +:+ (if (1 <? length buildIds)%nat then "s" else "")
                 +:+ " to complete. You can press Ctrl+C to exit."));;;
  emit SpinnerStart;;;
  setSpinnerText "";;;
  time <~ getTime ;;
  let endTime := time + timeoutSec * 1000 in
  pollLoop fuel buildIds intervalSec endTime time.

End Tracker.

(** *** Vocabulary of the specification *)

(** "Finished, Errored, Canceled are terminal; all others are non-terminal." *)
Definition isTerminal (s : BuildStatus) : bool :=
  match s with
  | Finished | Errored | Canceled => true
  | _ => false
  end.

(** A slot is terminal when it holds a snapshot with a terminal status; a
    failed fetch ([null]) is not. *)
Definition slotTerminal (slot : option BuildFragment) : bool :=
  match slot with
  | Some build => isTerminal (status build)
  | None => false
  end.

Definition allTerminal (builds : BuildList) : bool := forallb slotTerminal builds.

(** A snapshot the remote service may send under its contract: one of the six
    statuses, and an error payload whenever the status is [Errored]. *)
Definition wellReported (slot : option BuildFragment) : bool :=
  match slot with
  | Some build =>
      match status build with
      | OtherStatus _ => false
      | Errored => match error build with Some _ => true | None => false end
      | _ => true
      end
  | None => true
  end.

(** A fetch that leaves its job in flight: it failed, or the status is one of
    [New], [InQueue], [InProgress]. *)
Definition pending (r : Error + BuildFragment) : bool :=
  match r with
  | inl _ => true
  | inr build =>
      match status build with
      | New | InQueue | InProgress => true
      | _ => false
      end
  end.

(** The snapshots of round [n], in the order of [buildIds]. *)
Definition snapshots (sv : TrackerServices) (n : nat) (buildIds : list string) : BuildList :=
  map (fun buildId => fst (fetchOne sv n buildId)) buildIds.

(** The world with one more line printed. *)
Definition printed (w : World) (e : Event) : World :=
  {| clock := clock w; round := round w; spinnerText := spinnerText w;
     journal := journal w ++ [e] |}.

Section Schedule.

Variable sv : TrackerServices.
Variable intervalSec : Z.
Variable w : World.

(** The clock at the start of the [k]-th round counted from [w], as long as
    no round before it ended the loop: each earlier round took its fetches,
    then slept for the interval and the lag of the timer. *)
Fixpoint roundStart (k : nat) : Z :=
  match k with
  | O => clock w
  | S k' =>
      roundStart k' + Z.of_N (fetchMillis sv (round w + k'))
      + Z.max 0 (intervalSec * 1000) + Z.of_N (sleepLag sv (round w + S k'))
  end.

(** The value [time = new Date().getTime()] takes at the end of that round. *)
Definition readingAfter (k : nat) : Z :=
  roundStart k + Z.of_N (fetchMillis sv (round w + k)).

End Schedule.

(** *** Scenarios *)

Definition snapshot (buildId : string) (s : BuildStatus) (e : option BuildError)
  : BuildFragment :=
  {| id := buildId; platform := Ios; status := s; error := e; updatedAt := 0;
     appVersion := None; sdkVersion := None; runtimeVersion := None;
     buildProfile := None; appBuildVersion := None; releaseChannel := None;
     initiatingActorName := None |}.

(** An [Errored] snapshot without an error payload, one with, a finished
    one, and one with a status this client does not know. *)
Definition bare : BuildFragment := snapshot "a" Errored None.
Definition failed : BuildFragment :=
  snapshot "a" Errored (Some {| errorCode := "UNKNOWN_ERROR"; errorMessage := "gradle" |}).
Definition finished : BuildFragment := snapshot "b" Finished None.
Definition odd : BuildFragment := snapshot "c" (OtherStatus "PENDING_CANCEL") None.

(** A service whose every job reports [InProgress] for ever, with fetches
    that take no time and timers that fire on the dot. *)
Definition stuckService : TrackerServices :=
  {| byIdAsync := fun _ buildId => inr (snapshot buildId InProgress None);
     fetchMillis := fun _ => 0%N;
     sleepLag := fun _ => 0%N;
     red := fun text => text;
     green := fun text => text |}.


(** A service whose jobs are in progress during round 0 and finished from
    round 1 on. *)
Definition finishingService : TrackerServices :=
  {| byIdAsync := fun n buildId =>
       inr (snapshot buildId (match n with O => InProgress | _ => Finished end) None);
     fetchMillis := fun _ => 250%N;
     sleepLag := fun _ => 3%N;
     red := fun text => text;
     green := fun text => text |}.

Definition freshWorld : World :=
  {| clock := 0; round := 0; spinnerText := ""; journal := [] |}.

Definition oneMinuteEveryHalf : Options :=
  {| timeoutSec := Some 60; intervalSec := Some 30 |}.


Definition someDisk : Disk := {| files := {["/home/me/app.json"]}; analytics := [] |}.

End Build.

(** * build/build.ts: preparing and sending a build request *)

Module BuildRequest.

Import Build.

(** [CredentialsSource.LOCAL | CredentialsSource.REMOTE] of [@expo/eas-json]. *)
Inductive CredentialsSource := LOCAL | REMOTE.

(** [ArchiveSource] of [@expo/eas-build-job], as far as it is built here:
    [{ type: PATH, path }] and [{ type: S3, bucketKey }]. *)
Inductive ProjectArchive :=
| PATH (path : string)
| S3 (bucketKey : string).

(** The members of [BuildEvent] that [prepareBuildRequestForPlatformAsync] and
    [sendBuildRequestAsync] name (those of the upload are in [Build]). *)
Inductive AnalyticsEvent :=
| GATHER_CREDENTIALS_ATTEMPT | GATHER_CREDENTIALS_SUCCESS | GATHER_CREDENTIALS_FAIL
| CONFIGURE_PROJECT_ATTEMPT | CONFIGURE_PROJECT_SUCCESS | CONFIGURE_PROJECT_FAIL
| BUILD_REQUEST_ATTEMPT | BUILD_REQUEST_SUCCESS | BUILD_REQUEST_FAIL.

(** One entry of [error.graphQLErrors], read through
    [?.extensions?.errorCode]. *)
Record GraphQLError := { errorCode : option string }.

(** The fields of [BuildContext] that are read; [localBuildEnabled] is
    [ctx.localBuildOptions.enable]. *)
Record BuildContext := {
  platform : Platform;
  projectId : string;
  nonInteractive : bool;
  skipProjectConfiguration : bool;
  localBuildEnabled : bool
}.

Section Generic.

(** The type parameters [Credentials], [TJob] and the type [Metadata]. *)
Context {Credentials Job Metadata : Type}.

(** [CredentialsResult<Credentials>] *)
Record CredentialsResult := { source : CredentialsSource; credentials : Credentials }.

(** [JobData<Credentials>] *)
Record JobData := { jobCredentials : option Credentials; projectArchive : ProjectArchive }.

(** [BuildResult]: [{ build, deprecationInfo }] *)
Record BuildResult := { build : BuildFragment; deprecationInfo : option string }.

(** What is called, asked and printed, in the order in which it happens. *)
Inductive Event :=
| Tracked (e : AnalyticsEvent)
| EnsureCredentials
| EnsureProjectConfigured
| IsCommitRequired
| ReviewAndCommit (message : string) (nonInteractive : bool)
| CollectMetadata
| PrepareJob (jobData : JobData)
| RunLocalBuild (job : Job)
| SendBuildRequest (appId : string) (job : Job) (metadata : Metadata)
| PrintDeprecationWarnings (info : option string)
| Log_addNewLineIfNone
| Log_log (text : string)
| Log_error (text : string).

Record World := { disk : Disk; journal : list Event }.

(** [interface Builder]: the context and what each method settles with. *)
Record Builder := {
  ctx : BuildContext;
  ensureCredentialsAsync : Error + option CredentialsResult;
  ensureProjectConfiguredAsync : Error + unit;
  prepareJobAsync : JobData -> Error + Job;
  sendBuildRequestAsync : string -> Job -> Metadata -> Error + BuildResult
}.

(** The other collaborators of the two functions. *)
Record Services := {
  (* makeProjectTarballAsync, uploadAsync *)
  uploads : UploadServices;
  (* getVcsClient().isCommitRequiredAsync() *)
  isCommitRequiredAsync : Error + bool;
  (* reviewAndCommitChangesAsync(message, { nonInteractive }) *)
  reviewAndCommitChangesAsync : string -> bool -> Error + unit;
  collectMetadataAsync : Error + Metadata;
  runLocalBuildAsync : Job -> Error + unit;
  requestedPlatformDisplayNames : Platform -> string;
  (* job.platform *)
  jobPlatform : Job -> Platform;
  (* Log.isDebug *)
  isDebug : bool;
  (* error.graphQLErrors of an error object; None when the property is absent *)
  graphQLErrors : Error -> option (list GraphQLError)
}.

Definition emit (e : Event) : M World unit :=
  fun w => (Returned tt, {| disk := disk w; journal := journal w ++ [e] |}).

Definition settle {A} (r : Error + A) : M World A :=
  match r with
  | inl e => throw e
  | inr a => ret a
  end.

(** Modelled from the spec: [withAnalyticsAsync] ([analytics/common] is not
    among the sources), as in [Build]: the callback runs once, its result or
    its exception passes through, and the attempt and the outcome are
    recorded. *)
Definition withAnalyticsAsync {A} (fn : M World A)
    (attemptEvent successEvent failureEvent : AnalyticsEvent) : M World A :=
  tryCatch
    (emit (Tracked attemptEvent);;;
     result <~ fn ;;
     emit (Tracked successEvent);;;
     ret result)
    (fun error => emit (Tracked failureEvent);;; throw error).

Variable sv : Services.

(** [makeProjectTarballAsync()] on the disk of this world. *)
Definition makeProjectTarball : M World Tarball :=
  fun w =>
    match makeProjectTarballAsync (uploads sv) (files (disk w)) with
    | inl e => (Thrown e, w)
    | inr tarball =>
        (Returned tarball,
         {| disk := {| files := {[path tarball]} ∪ files (disk w);
                       analytics := analytics (disk w) |};
            journal := journal w |})
    end.

(** [uploadProjectAsync(ctx)] on the disk of this world. *)
Definition uploadProject : M World string :=
  fun w =>
    let (r, d) := uploadProjectAsync (uploads sv) (disk w) in
    (r, {| disk := d; journal := journal w |}).

(** [sendBuildRequestAsync], the function of the module (it calls the method
    of the same name of the builder). *)
Definition sendBuildRequest (builder : Builder) (job : Job) (metadata : Metadata)
  : M World BuildFragment :=
  withAnalyticsAsync
    ((if isDebug sv
      then emit (Log_log ("Starting " +:+ requestedPlatformDisplayNames sv (jobPlatform sv job)
                          +:+ " build"))
      else ret tt);;;
     emit (SendBuildRequest (projectId (ctx builder)) job metadata);;;
     result <~ settle (sendBuildRequestAsync builder (projectId (ctx builder)) job metadata) ;;
     emit (PrintDeprecationWarnings (deprecationInfo result));;;
     ret (build result))
    BUILD_REQUEST_ATTEMPT BUILD_REQUEST_SUCCESS BUILD_REQUEST_FAIL.

(** [error?.graphQLErrors?.[0]?.extensions?.errorCode === code] *)
Definition firstErrorCodeIs (error : Error) (code : string) : bool :=
  match graphQLErrors sv error with
  | Some (first :: _) =>
      match errorCode first with
      | Some c => String.eqb c code
      | None => false
      end
  | _ => false
  end.

Definition requestFailed : Error := JsError "Build request failed.".

(** The [catch] of the request sender. *)
Definition classify (job : Job) (error : Error) : M World (option BuildFragment) :=
  if firstErrorCodeIs error "TURTLE_DEPRECATED_JOB_FORMAT" then
    emit (Log_error "EAS Build API has changed, please upgrade to the latest eas-cli version.");;;
    throw requestFailed
  else if firstErrorCodeIs error "EAS_BUILD_DOWN_FOR_MAINTENANCE" then
    emit (Log_error "EAS Build is down for maintenance, please try again later. Check https://status.expo.dev/ for updates.");;;
    throw requestFailed
  else if firstErrorCodeIs error "EAS_BUILD_FREE_TIER_DISABLED" then
    emit (Log_error "EAS Build free tier is temporarily disabled, please try again later. Check https://status.expo.dev/ for updates.");;;
    throw requestFailed
  else if firstErrorCodeIs error "EAS_BUILD_TOO_MANY_PENDING_BUILDS" then
    emit (Log_error ("You have already reached the maximum number of pending "
                     +:+ requestedPlatformDisplayNames sv (jobPlatform sv job)
                     +:+ " builds for your account. Try again later."));;;
    throw requestFailed
  else
    match graphQLErrors sv error with
    | Some _ =>
        emit (Log_error "Build request failed. Make sure you are using the latest eas-cli version. If the problem persists, please report the issue.");;;
        throw error
    | None => throw error
    end.

(** The function that [prepareBuildRequestForPlatformAsync] returns
    ([BuildRequestSender]); [None] is [undefined]. *)
Definition sender (builder : Builder) (job : Job) (metadata : Metadata)
  : M World (option BuildFragment) :=
  if localBuildEnabled (ctx builder) then
    emit (RunLocalBuild job);;;
    settle (runLocalBuildAsync sv job);;;
    ret None
  else
    tryCatch
      (sent <~ sendBuildRequest builder job metadata ;; ret (Some sent))
      (classify job).

Definition commitMessage (builder : Builder) : string :=
  "[EAS Build] Run EAS Build for "
  +:+ requestedPlatformDisplayNames sv (platform (ctx builder)).

Definition prepareBuildRequestForPlatformAsync (builder : Builder)
  : M World (M World (option BuildFragment)) :=
  credentialsResult <~
    withAnalyticsAsync
      (emit EnsureCredentials;;; settle (ensureCredentialsAsync builder))
      GATHER_CREDENTIALS_ATTEMPT GATHER_CREDENTIALS_SUCCESS GATHER_CREDENTIALS_FAIL ;;
  (if negb (skipProjectConfiguration (ctx builder)) then
     withAnalyticsAsync
       (emit EnsureProjectConfigured;;; settle (ensureProjectConfiguredAsync builder))
       CONFIGURE_PROJECT_ATTEMPT CONFIGURE_PROJECT_SUCCESS CONFIGURE_PROJECT_FAIL
   else ret tt);;;
  commitRequired <~ (emit IsCommitRequired;;; settle (isCommitRequiredAsync sv)) ;;
  (if commitRequired : bool then
     emit Log_addNewLineIfNone;;;
     emit (ReviewAndCommit (commitMessage builder) (nonInteractive (ctx builder)));;;
     settle (reviewAndCommitChangesAsync sv (commitMessage builder)
               (nonInteractive (ctx builder)))
   else ret tt);;;
  archive <~
    (if localBuildEnabled (ctx builder) then
       tarball <~ makeProjectTarball ;; ret (PATH (path tarball))
     else
       bucketKey <~ uploadProject ;; ret (S3 bucketKey)) ;;
  metadata <~ (emit CollectMetadata;;; settle (collectMetadataAsync sv)) ;;
  let jobData :=
    {| projectArchive := archive;
       jobCredentials := credentials <$> credentialsResult |} in
  job <~ (emit (PrepareJob jobData);;; settle (prepareJobAsync builder jobData)) ;;
  ret (sender builder job metadata).

End Generic.

(** Journal entries that dispatch a job: a local run, or a request to the
    remote service. *)
Definition dispatches {Credentials Job Metadata : Type}
    (e : @Event Credentials Job Metadata) : bool :=
  match e with
  | RunLocalBuild _ | SendBuildRequest _ _ _ => true
  | _ => false
  end.

(** *** Scenarios *)

Definition androidRemote : BuildContext :=
  {| platform := ANDROID; projectId := "p1"; nonInteractive := false;
     skipProjectConfiguration := false; localBuildEnabled := false |}.

Definition androidLocal : BuildContext :=
  {| platform := ANDROID; projectId := "p1"; nonInteractive := true;
     skipProjectConfiguration := true; localBuildEnabled := true |}.

(** Credentials are strings, jobs are job data, metadata is a string. *)
Definition scriptedBuilder (context : BuildContext) (answer : Error + @BuildResult)
  : @Builder string (@JobData string) string :=
  {| ctx := context;
     ensureCredentialsAsync := inr (Some {| source := REMOTE; credentials := "keystore" |});
     ensureProjectConfiguredAsync := inr tt;
     prepareJobAsync := fun jobData => inr jobData;
     sendBuildRequestAsync := fun _ _ _ => answer |}.

Definition tooManyPending : Error := JsError "[GraphQL] too many pending builds".

Definition refused := scriptedBuilder androidRemote (inl tooManyPending).

Definition accepted :=
  scriptedBuilder androidRemote (inr {| build := finished; deprecationInfo := None |}).

Definition localBuilder := scriptedBuilder androidLocal (inl tooManyPending).

Definition projectTarball : Tarball := {| path := "/tmp/eas/project.tar.gz"; size := 1024 |}.

Definition preparedJob : @JobData string :=
  {| jobCredentials := Some "keystore"; projectArchive := S3 "production/abc" |}.

Definition buildServices : @Services (@JobData string) string :=
  {| uploads :=
       {| makeProjectTarballAsync :=
            fun _ => inr {| path := "/tmp/eas/project.tar.gz"; size := 1024 |};
          uploadAsync := fun _ => inr "production/abc" |};
     isCommitRequiredAsync := inr true;
     reviewAndCommitChangesAsync := fun _ _ => inr tt;
     collectMetadataAsync := inr "metadata";
     runLocalBuildAsync := fun _ => inr tt;
     requestedPlatformDisplayNames :=
       fun p => match p with ANDROID => "Android" | IOS => "iOS" end;
     jobPlatform := fun _ => ANDROID;
     isDebug := false;
     graphQLErrors := fun e =>
       match e with
       | JsError "[GraphQL] too many pending builds" =>
           Some [ {| errorCode := Some "EAS_BUILD_TOO_MANY_PENDING_BUILDS" |} ]
       | _ => None
       end |}.

Definition cleanWorld : @World string (@JobData string) string :=
  {| disk := someDisk; journal := [] |}.

End BuildRequest.

(** * build/android: the Android build context, credentials and configuration *)

Module Android.

Import BuildRequest.

(** [Workflow] of [@expo/eas-build-job]. *)
Inductive Workflow := GENERIC | MANAGED.

(** [AndroidVersionAutoIncrement] of [@expo/eas-json]:
    [boolean | 'version' | 'versionCode']. *)
Inductive AndroidVersionAutoIncrement :=
| Flag (b : bool)
| Version
| VersionCode.

(** [BumpStrategy] of [build/android/version]. *)
Inductive BumpStrategy := APP_VERSION | VERSION_CODE | NOOP.

(** The fields of [BuildProfile<Platform.ANDROID>] that are read; the optional
    ones are options. *)
Record BuildProfile := {
  distribution : string;
  gradleCommand : option string;
  withoutCredentials : option bool;
  credentialsSource : CredentialsSource;
  autoIncrement : option AndroidVersionAutoIncrement
}.

(** How a call ends that may leave through [process.exit(code)]: the process
    stops there, and nothing after the call runs. *)
Inductive Ending (A : Type) :=
| Completed (a : A)
| Exited (code : Z).
Arguments Completed {A} a.
Arguments Exited {A} code.

(** [text.match(/bundle/)] is truthy when [needle] occurs in [text]. *)
Fixpoint includes (needle text : string) : bool :=
  String.prefix needle text ||
  match text with
  | EmptyString => false
  | String _ rest => includes needle rest
  end.

(** The character [0x22], which the message of the unconfigured project
    quotes the command with. *)
Definition doubleQuote : string := String (Ascii.ascii_of_nat 34) EmptyString.

Section Generic.

(** [GradleBuildContext], [Account] and [AndroidCredentials] are passed
    through. *)
Context {GradleContext Account AndroidCredentials : Type}.

(** [CommonContext<Platform.ANDROID>], as far as it is read. *)
Record CommonContext := {
  buildProfile : BuildProfile;
  workflow : Workflow
}.

(** [AndroidBuildContext]: [{ applicationId, gradleContext }] *)
Record AndroidBuildContext := {
  applicationId : string;
  gradleContext : option GradleContext
}.

(** [BuildContext<Platform.ANDROID>], as far as
    [ensureAndroidCredentialsAsync] reads it. *)
Record AndroidContext := {
  profile : BuildProfile;
  accountName : string;
  projectName : string;
  accounts : list Account;                (* ctx.user.accounts *)
  android : AndroidBuildContext
}.

(** [ConfigureContext], as far as it is read. *)
Record ConfigureContext := { hasAndroidNativeProject : bool }.

(** The [app] option of [AndroidCredentialsProvider]. *)
Record AppLookupParams := {
  account : Account;
  appProjectName : string;
  androidApplicationIdentifier : string
}.

Inductive Event :=
| Log_addNewLineIfNone
| Log_warn (text : string)
| Log_newLine
| Log_error (text : string)
| Log_withTick (text : string)
| ToggleConfirm (message : string)
| CheckNodeEnvVariable
| CheckGoogleServicesFile
| ResolveGradleBuildContext
| EnsureApplicationIdIsDefined
| GetApplicationId (gradle : option GradleContext)
| LogCredentialsSource (source : CredentialsSource)
| GetCredentials (app : AppLookupParams) (source : CredentialsSource)
| ResolveWorkflow
| IsEasBuildGradleConfigured
| SyncUpdatesConfiguration
| BumpVersion (bumpStrategy : BumpStrategy)
| BumpVersionInAppJson (bumpStrategy : BumpStrategy)
| WarnIfAndroidPackageDefined
| ConfigureEasBuild
| TrackFile (path : string)
| ConfigureUpdates.

(** The journal of what was called and printed. *)
Definition World := list Event.

(** The collaborators, for the project at [ctx.projectDir] with the config
    [ctx.exp]. *)
Record Services := {
  toggleConfirmAsync : string -> Error + bool;
  checkGoogleServicesFileAsync : Error + unit;
  resolveGradleBuildContextAsync : Error + option GradleContext;
  ensureApplicationIdIsDefinedForManagedProjectAsync : Error + unit;
  getApplicationIdAsync : option GradleContext -> Error + string;
  (* chalk.underline *)
  underline : string -> string;
  findAccountByName : list Account -> string -> option Account;
  (* provider.getCredentialsAsync(source), for the provider of this app *)
  getCredentialsAsync : AppLookupParams -> CredentialsSource -> Error + AndroidCredentials;
  resolveWorkflowAsync : Error + Workflow;
  isEasBuildGradleConfiguredAsync : Error + bool;
  isExpoUpdatesInstalled : bool;
  syncUpdatesConfigurationAsync : Error + unit;
  bumpVersionAsync : BumpStrategy -> Error + unit;
  bumpVersionInAppJsonAsync : BumpStrategy -> Error + unit;
  configureEasBuildAsync : Error + unit;
  getEasBuildGradlePath : string;
  trackFileAsync : string -> Error + unit;
  configureUpdatesAsync : Error + unit
}.

Definition emit (e : Event) : M World unit :=
  fun w => (Returned tt, (w ++ [e])%list).

(** A call of a collaborator: it is recorded, then it settles. *)
Definition call {A} (e : Event) (r : Error + A) : M World A :=
  emit e;;;
  match r with
  | inl error => throw error
  | inr a => ret a
  end.

Variable sv : Services.

(** *** build/android/build.ts *)

Definition bundleWarning (command : string) : string :=
  "You're building your Android app for internal distribution. However, we've detected that the Gradle command you defined ("
  +:+ underline sv command +:+ ") includes string 'bundle'.
This means that it will most likely produce an AAB and you will not be able to install it on your Android devices straight from the Expo website.".

(** The rest of [createAndroidContextAsync], from [checkNodeEnvVariable]
    on. *)
Definition checkAndResolve (ctx : CommonContext) : M World (Ending AndroidBuildContext) :=
  emit CheckNodeEnvVariable;;;
  call CheckGoogleServicesFile (checkGoogleServicesFileAsync sv);;;
  gradle <~ call ResolveGradleBuildContext (resolveGradleBuildContextAsync sv) ;;
  (match workflow ctx with
   | MANAGED =>
       call EnsureApplicationIdIsDefined
         (ensureApplicationIdIsDefinedForManagedProjectAsync sv)
   | GENERIC => ret tt
   end);;;
  id <~ call (GetApplicationId gradle) (getApplicationIdAsync sv gradle) ;;
  ret (Completed {| applicationId := id; gradleContext := gradle |}).

Definition createAndroidContextAsync (ctx : CommonContext)
  : M World (Ending AndroidBuildContext) :=
  match gradleCommand (buildProfile ctx) with
  | Some command =>
      if String.eqb (distribution (buildProfile ctx)) "internal" && includes "bundle" command
      then
        emit Log_addNewLineIfNone;;;
        emit (Log_warn (bundleWarning command));;;
        emit Log_newLine;;;
        confirmed <~ call (ToggleConfirm "Would you like to proceed?")
                          (toggleConfirmAsync sv "Would you like to proceed?") ;;
        if negb confirmed then
          emit (Log_error "Please update eas.json and come back again.");;;
          ret (Exited 1)
        else checkAndResolve ctx
      else checkAndResolve ctx
  | None => checkAndResolve ctx
  end.

(** [!ctx.buildProfile.withoutCredentials] *)
Definition shouldProvideCredentials (ctx : AndroidContext) : bool :=
  negb (default false (withoutCredentials (profile ctx))).

Definition noAccess (name : string) : Error :=
  JsError ("You do not have access to account: " +:+ name).

(** [None] is [undefined]. *)
Definition ensureAndroidCredentialsAsync (ctx : AndroidContext)
  : M World (option (@CredentialsResult AndroidCredentials)) :=
  if negb (shouldProvideCredentials ctx) then ret None
  else
    identifier <~ call (GetApplicationId (gradleContext (android ctx)))
                       (getApplicationIdAsync sv (gradleContext (android ctx))) ;;
    (* nullthrows(findAccountByName(accounts, accountName), message) *)
    found <~ match findAccountByName sv (accounts ctx) (accountName ctx) with
             | Some found => ret found
             | None => throw (noAccess (accountName ctx))
             end ;;
    let app := {| account := found; appProjectName := projectName ctx;
                  androidApplicationIdentifier := identifier |} in
    let source := credentialsSource (profile ctx) in
    emit (LogCredentialsSource source);;;
    provided <~ call (GetCredentials app source) (getCredentialsAsync sv app source) ;;
    ret (Some {| credentials := provided; source := source |}).

(** *** build/android/configure.ts *)

Definition resolveVersionBumpStrategy (autoIncrement : AndroidVersionAutoIncrement)
  : BumpStrategy :=
  match autoIncrement with
  | Flag true => VERSION_CODE
  | Flag false => NOOP
  | VersionCode => VERSION_CODE
  | Version => APP_VERSION
  end.

Definition notConfigured : Error :=
  JsError ("Project is not configured. Please run " +:+ doubleQuote +:+ "eas build:configure"
           +:+ doubleQuote +:+ " to configure the project.").

Definition validateAndSyncProjectConfigurationAsync (buildProfile : BuildProfile)
  : M World unit :=
  workflow <~ call ResolveWorkflow (resolveWorkflowAsync sv) ;;
  let versionBumpStrategy :=
    resolveVersionBumpStrategy (default (Flag false) (autoIncrement buildProfile)) in
  match workflow with
  | GENERIC =>
      configured <~ call IsEasBuildGradleConfigured (isEasBuildGradleConfiguredAsync sv) ;;
      (if negb configured then throw notConfigured else ret tt);;;
      (if isExpoUpdatesInstalled sv
       then call SyncUpdatesConfiguration (syncUpdatesConfigurationAsync sv)
       else ret tt);;;
      call (BumpVersion versionBumpStrategy) (bumpVersionAsync sv versionBumpStrategy)
  | MANAGED =>
      call (BumpVersionInAppJson versionBumpStrategy)
           (bumpVersionInAppJsonAsync sv versionBumpStrategy)
  end.

Definition configureAndroidAsync (ctx : ConfigureContext) : M World unit :=
  if negb (hasAndroidNativeProject ctx) then
    call EnsureApplicationIdIsDefined
      (ensureApplicationIdIsDefinedForManagedProjectAsync sv)
  else
    emit WarnIfAndroidPackageDefined;;;
    call ConfigureEasBuild (configureEasBuildAsync sv);;;
    let easGradlePath := getEasBuildGradlePath sv in
    call (TrackFile easGradlePath) (trackFileAsync sv easGradlePath);;;
    (if isExpoUpdatesInstalled sv
     then call ConfigureUpdates (configureUpdatesAsync sv)
     else ret tt);;;
    emit (Log_withTick "Android project configured").

End Generic.

(** *** Scenarios *)

(** Gradle contexts, accounts and credentials are strings. *)
Definition androidServices (proceed : bool) (configured : bool)
  : @Services string string string :=
  {| toggleConfirmAsync := fun _ => inr proceed;
     checkGoogleServicesFileAsync := inr tt;
     resolveGradleBuildContextAsync := inr (Some "app");
     ensureApplicationIdIsDefinedForManagedProjectAsync := inr tt;
     getApplicationIdAsync := fun _ => inr "com.example.app";
     underline := fun text => text;
     findAccountByName :=
       fun accounts name => List.find (String.eqb name) accounts;
     getCredentialsAsync := fun _ _ => inr "keystore";
     resolveWorkflowAsync := inr GENERIC;
     isEasBuildGradleConfiguredAsync := inr configured;
     isExpoUpdatesInstalled := true;
     syncUpdatesConfigurationAsync := inr tt;
     bumpVersionAsync := fun _ => inr tt;
     bumpVersionInAppJsonAsync := fun _ => inr tt;
     configureEasBuildAsync := inr tt;
     getEasBuildGradlePath := "android/app/eas-build.gradle";
     trackFileAsync := fun _ => inr tt;
     configureUpdatesAsync := inr tt |}.

Definition internalBundle : BuildProfile :=
  {| distribution := "internal";
     gradleCommand := Some ":app:bundleRelease";
     withoutCredentials := None;
     credentialsSource := REMOTE;
     autoIncrement := Some VersionCode |}.

Definition managedInternal : CommonContext :=
  {| buildProfile := internalBundle; workflow := MANAGED |}.

Definition resolved : @AndroidBuildContext string :=
  {| applicationId := "com.example.app"; gradleContext := Some "app" |}.

Definition ofAccount (name : string) : @AndroidContext string string :=
  {| profile := internalBundle; accountName := name; projectName := "example";
     accounts := ["me"; "team"]; android := resolved |}.

End Android.

(** * Vocabulary for the further properties *)

Module ResolverTrace.

Import ArchiveSource.

Definition isUpload (e : Event) : bool :=
  match e with
  | Uploaded _ => true
  | _ => false
  end.

(** No upload among these journal entries. *)
Definition noUpload (events : list Event) : bool :=
  forallb (fun e => negb (isUpload e)) events.

(** What a run of the resolver from a journal [before] leaves in the journal:
    entries without an upload, followed by one upload exactly when the run
    returns the archive of a path (after a thrown error, by at most one). *)
Definition uploadsLast (before : list Event) (run : Outcome Archive * World) : Prop :=
  exists front,
    noUpload front = true /\
    match fst run with
    | Returned archive =>
        match source archive with
        | ArchivePathSource _ path =>
            journal (snd run) = (before ++ front ++ [Uploaded path])%list
        | _ => journal (snd run) = (before ++ front)%list
        end
    | Thrown _ =>
        journal (snd run) = (before ++ front)%list \/
        exists path, journal (snd run) = (before ++ front ++ [Uploaded path])%list
    | OutOfFuel => journal (snd run) = (before ++ front)%list
    end.

End ResolverTrace.

Module BuildRequestTrace.

Import Build BuildRequest.

Section Generic.

Context {Credentials Job Metadata : Type}.

#[local] Abbreviation Event := (@Event Credentials Job Metadata).
#[local] Abbreviation World := (@World Credentials Job Metadata).

(** Every run of [m], however it ends, takes a world to one related to it
    by [R]. *)
Definition steps (R : World -> World -> Prop) {A} (m : M World A) : Prop :=
  forall w, R w (snd (m w)).

(** The journal of [w'] is that of [w] followed by entries that satisfy [P]. *)
Definition grown (P : Event -> bool) (w w' : World) : Prop :=
  exists events,
    journal w' = (journal w ++ events)%list /\ forallb P events = true.

(** The disk of [w'] satisfies [Q] if that of [w] does. *)
Definition kept (Q : Disk -> Prop) (w w' : World) : Prop :=
  Q (disk w) -> Q (disk w').

(** On this disk the tarball of the project would be [tarball], and its path
    is free. *)
Definition awaits (sv : @Services Job Metadata) (tarball : Tarball) (d : Disk) : Prop :=
  makeProjectTarballAsync (uploads sv) (files d) = inr tarball /\
  path tarball ∉ files d.

(** The disk holds every file of [d], and no analytics beyond those of [d]. *)
Definition extends (d d' : Disk) : Prop :=
  files d ⊆ files d' /\ analytics d' = analytics d.

(** The error codes that the request sender answers with its own error. *)
Definition knownCodes : list string :=
  [ "TURTLE_DEPRECATED_JOB_FORMAT"; "EAS_BUILD_DOWN_FOR_MAINTENANCE";
    "EAS_BUILD_FREE_TIER_DISABLED"; "EAS_BUILD_TOO_MANY_PENDING_BUILDS" ].

Definition isKnown (sv : @Services Job Metadata) (error : Error) : bool :=
  existsb (firstErrorCodeIs sv error) knownCodes.

Definition isLogError (e : Event) : bool :=
  match e with
  | Log_error _ => true
  | _ => false
  end.

(** Entries that belong to the configuration of the project. *)
Definition configures (e : Event) : bool :=
  match e with
  | EnsureProjectConfigured
  | Tracked CONFIGURE_PROJECT_ATTEMPT
  | Tracked CONFIGURE_PROJECT_SUCCESS
  | Tracked CONFIGURE_PROJECT_FAIL => true
  | _ => false
  end.

(** The journal entry of the debug log of [sendBuildRequestAsync]. *)
Definition debugLog (sv : @Services Job Metadata) (job : Job) : list Event :=
  if isDebug sv
  then [Log_log ("Starting " +:+ requestedPlatformDisplayNames sv (jobPlatform sv job)
                 +:+ " build")]
  else [].

(** The one entry with which the sender dispatches this job. *)
Definition dispatch (builder : @Builder Credentials Job Metadata) (job : Job)
    (metadata : Metadata) : Event :=
  if localBuildEnabled (ctx builder) then RunLocalBuild job
  else SendBuildRequest (projectId (ctx builder)) job metadata.

End Generic.

End BuildRequestTrace.

Module AndroidTrace.

Import BuildRequest Android.

Section Generic.

Context {GradleContext Account AndroidCredentials : Type}.

#[local] Abbreviation Event := (@Event GradleContext Account).

(** Entries of the checks of the project that follow the question of
    [createAndroidContextAsync]. *)
Definition checks (e : Event) : bool :=
  match e with
  | CheckNodeEnvVariable | CheckGoogleServicesFile | ResolveGradleBuildContext
  | EnsureApplicationIdIsDefined | GetApplicationId _ => true
  | _ => false
  end.

(** The question of [createAndroidContextAsync]. *)
Definition asks (e : Event) : bool :=
  match e with
  | ToggleConfirm _ => true
  | _ => false
  end.

(** The steps of the native configuration of [configureAndroidAsync]. *)
Definition configuresNative (e : Event) : bool :=
  match e with
  | WarnIfAndroidPackageDefined | ConfigureEasBuild | TrackFile _ | ConfigureUpdates
  | Log_withTick _ => true
  | _ => false
  end.

(** Entries that change the version of the app. *)
Definition bumps (e : Event) : bool :=
  match e with
  | BumpVersion _ | BumpVersionInAppJson _ => true
  | _ => false
  end.

(** Entries that write to the project. *)
Definition writes (e : Event) : bool :=
  match e with
  | SyncUpdatesConfiguration | BumpVersion _ | BumpVersionInAppJson _ => true
  | _ => false
  end.

(** The entry with which [validateAndSyncProjectConfigurationAsync] bumps the
    version under this workflow. *)
Definition bump (workflow : Workflow) (profile : BuildProfile) : Event :=
  let bumpStrategy :=
    resolveVersionBumpStrategy (default (Flag false) (autoIncrement profile)) in
  match workflow with
  | GENERIC => BumpVersion bumpStrategy
  | MANAGED => BumpVersionInAppJson bumpStrategy
  end.

(** A request for credentials made for this account and this source. *)
Definition requestedFor (found : option Account) (source : CredentialsSource)
    (e : Event) : Prop :=
  match e with
  | GetCredentials app requested => found = Some (account app) /\ requested = source
  | _ => True
  end.

End Generic.

End AndroidTrace.

Module TrackerText.

Import Build.

(** The [unknown] of the many-jobs arm of [waitForBuildEndAsync]:
    [builds.length - newBuilds - inQueue - inProgress - errored - finished]. *)
Definition unknownCount (builds : BuildList) : Z :=
  Z.of_nat (length builds) - countStatus New builds - countStatus InQueue builds
  - countStatus InProgress builds - countStatus Errored builds
  - countStatus Finished builds.

(** A slot without a recognised status: a failed fetch, or a status that is
    none of the six. *)
Definition unrecognised (slot : option BuildFragment) : bool :=
  match slot with
  | None => true
  | Some build =>
      match status build with
      | OtherStatus _ => true
      | _ => false
      end
  end.

(** The world in which the loop starts: the announcement is printed and a new
    spinner is started. *)
Definition started (buildIds : list string) (w : World) : World :=
  {| clock := clock w; round := round w; spinnerText := "";
     journal := (journal w ++ [Log_log ("Waiting for build"
                  +:+ (if (1 <? length buildIds)%nat then "s" else "")
                  +:+ " to complete. You can press Ctrl+C to exit.")]) ++ [SpinnerStart] |}.

End TrackerText.

(** * The build-details-page detector *)

Section DetectorProperties.

Import ArchiveSource.

(** Within this section string concatenation unfolds under [simpl]. *)
#[local] Arguments String.append : simpl nomatch.







Lemma isUuidV4_pattern u : isUuidV4 u = true -> matchesClasses uuidPattern u = true.
Proof.
  unfold isUuidV4, uuid_version, uuid_validate. intros H.
  destruct (matchesClasses uuidPattern u); [reflexivity|]. simpl in H.
  destruct (String.eqb u "00000000-0000-0000-0000-000000000000") eqn:E;
    [|discriminate H].
  apply String.eqb_eq in E. subst u. vm_compute in H. discriminate H.
Qed.

Section Tail.

Variable uuid rest : string.
Hypothesis uuid_v4 : isUuidV4 uuid = true.
Hypothesis rest_short : (String.length rest < 44)%nat.



















End Tail.

End DetectorProperties.

(** * Properties of submit/ArchiveSource.ts *)

Section ResolverProperties.

Import ArchiveSource.

Variable sv : Services.


Ltac run :=
  unfold bind, ret, throw, tryCatch, continue, await, emit, logicalTime,
    Log_error, Log_warn, Log_log, logged, answered; simpl.

Ltac tidy := rewrite <- ?app_assoc; simpl; try reflexivity.

(** *** Each handler, unfolded once *)

Lemma latest_unfold fuel b w :
  let appPlatform := toAppPlatform sv (platform b) in
  let asked := QueriedRecent appPlatform (projectId b) None in
  getArchiveAsync sv (S fuel) (ArchiveLatestSource b) w =
  match getRecentBuildsForSubmissionAsync sv (length (journal w)) appPlatform
          (projectId b) None with
  | inl err => (Thrown err, logged w [asked; LoggedErr LogError "" err])
  | inr [] =>
      getArchiveAsync sv fuel (ArchivePromptSource b)
        (logged w [asked; Logged LogError (bold sv "Couldn't find any builds for this project on EAS servers. It looks like you haven't run 'eas build' yet.")])
  | inr (latestBuild :: _) =>
      (Returned {| build := Some latestBuild; source := ArchiveLatestSource b; url := None |},
       logged w [asked])
  end.
Proof.
  intros appPlatform asked. cbn [getArchiveAsync dispatch].
  unfold handleLatestSourceAsync. run. fold appPlatform.
  destruct (getRecentBuildsForSubmissionAsync sv (length (journal w)) appPlatform
              (projectId b) None) as [err|[|latestBuild rest]]; simpl; tidy.
Qed.

Lemma path_unfold fuel b path w :
  getArchiveAsync sv (S fuel) (ArchivePathSource b path) w =
  if negb (isExistingFileAsync sv (length (journal w)) path) then
    getArchiveAsync sv fuel (ArchivePromptSource b)
      (logged w [Logged LogError (bold sv (path +:+ " doesn't exist"))])
  else
    let events := [Logged LogLog "Uploading your app archive to the Expo Submission Service";
                   Uploaded path] in
    match uploadAppArchiveAsync sv (S (length (journal w))) path with
    | inl err => (Thrown err, logged w events)
    | inr uploadUrl =>
        (Returned {| build := None; source := ArchivePathSource b path; url := Some uploadUrl |},
         logged w events)
    end.
Proof.
  cbn [getArchiveAsync dispatch]. unfold handlePathSourceAsync. run.
  destruct (isExistingFileAsync sv (length (journal w)) path); simpl; [|reflexivity].
  rewrite length_app, Nat.add_1_r.
  destruct (uploadAppArchiveAsync sv (S (length (journal w))) path); simpl; tidy.
Qed.

Lemma buildId_unfold fuel b id w :
  let asked := QueriedById id in
  getArchiveAsync sv (S fuel) (ArchiveBuildIdSource b id) w =
  match byIdAsync sv (length (journal w)) id with
  | inl err =>
      getArchiveAsync sv fuel (ArchivePromptSource b)
        (logged w
           [asked;
            Logged LogError (bold sv ("Could not find build with ID " +:+ id));
            Logged LogWarn "Are you sure that the given ID corresponds to a build from EAS Build?";
            Logged LogWarn ("Build IDs from the classic build service (expo build:[android|ios]) are not supported. "
                            +:+ learnMore sv "https://docs.expo.dev/submit/classic-builds/");
            LoggedErr LogDebug "Original error:" err])
  | inr build =>
      if AppPlatform_eqb (Graphql.platform build) (toAppPlatform sv (platform b)) then
        (Returned {| build := Some build; source := ArchiveBuildIdSource b id; url := None |},
         logged w [asked])
      else
        getArchiveAsync sv fuel (ArchivePromptSource b)
          (logged w
             [asked;
              Logged LogError
                (bold sv ("Build platform doesn't match! Expected "
                          +:+ appPlatformDisplayNames sv (toAppPlatform sv (platform b))
                          +:+ " build but got "
                          +:+ appPlatformDisplayNames sv (Graphql.platform build) +:+ "."))])
  end.
Proof.
  intros asked. cbn [getArchiveAsync dispatch]. unfold handleBuildIdSourceAsync. run.
  destruct (byIdAsync sv (length (journal w)) id) as [err|build]; simpl; tidy.
  destruct (AppPlatform_eqb (Graphql.platform build) (toAppPlatform sv (platform b)));
    simpl; tidy.
Qed.

Lemma url_unfold fuel b url w :
  let source := ArchiveUrlSource b url in
  let asIs := {| build := None; source := source; url := Some url |} in
  getArchiveAsync sv (S fuel) source w =
  if negb (validateUrl sv url) then
    getArchiveAsync sv fuel (ArchivePromptSource b)
      (logged w [Logged LogError (bold sv ("The URL you provided is invalid: " +:+ url))])
  else
    match isBuildDetailsPage url with
    | None => (Returned asIs, w)
    | Some maybeBuildId =>
        let warned :=
          [Logged LogWarn ("It seems that you provided a build details page URL: " +:+ url);
           Logged LogWarn "We expected to see the build artifact URL."] in
        let question :=
          Prompted "value" ("Do you want to submit build " +:+ maybeBuildId +:+ " instead?") [] in
        if nonInteractive b then
          (Returned asIs,
           logged w (warned ++ [Logged LogWarn "Proceeding because you've run this command in non-interactive mode."]))
        else
          match script w with
          | Confirm true :: rest =>
              getArchiveAsync sv fuel (ArchiveBuildIdSource b maybeBuildId)
                (answered w rest (warned ++ [question]))
          | Confirm false :: rest =>
              (Returned asIs,
               answered w rest
                 (warned ++ [question; Logged LogWarn "The submission will most probably fail."]))
          | Broken e :: rest => (Thrown e, answered w rest (warned ++ [question]))
          | _ :: rest => (Thrown promptFailure, answered w rest (warned ++ [question]))
          | [] => (Thrown promptFailure, logged w (warned ++ [question]))
          end
    end.
Proof.
  intros source asIs. subst asIs source.
  cbn [getArchiveAsync dispatch]. unfold handleUrlSourceAsync.
  destruct (validateUrl sv url); simpl; [|run; reflexivity].
  destruct (isBuildDetailsPage url) as [maybeBuildId|]; [|destruct w; reflexivity].
  unfold askIfUseBuildIdFromUrlAsync, confirmAsync. run.
  destruct (nonInteractive b); simpl; [tidy|].
  destruct (script w) as [|[n|text|[|]|e] rest]; simpl; tidy.
Qed.

Lemma buildList_unfold fuel b w :
  let source := ArchiveBuildListSource b in
  let appPlatform := toAppPlatform sv (platform b) in
  let expiryDate := Date_now sv (length (journal w)) - thirtyDays in
  let asked := QueriedRecent appPlatform (projectId b) (Some BUILD_LIST_ITEM_COUNT) in
  getArchiveAsync sv (S fuel) source w =
  match getRecentBuildsForSubmissionAsync sv (length (journal w)) appPlatform
          (projectId b) (Some BUILD_LIST_ITEM_COUNT) with
  | inl err => (Thrown err, logged w [asked; LoggedErr LogError "" err])
  | inr recentBuilds =>
      if (length recentBuilds <? 1)%nat then
        getArchiveAsync sv fuel (ArchivePromptSource b)
          (logged w
             [asked;
              Logged LogError
                (bold sv ("Couldn't find any " +:+ appPlatformDisplayNames sv appPlatform
                          +:+ " builds for this project on EAS servers. "
                          +:+ "It looks like you haven't run 'eas build' yet."))])
      else if forallb (fun it => updatedAt it <? expiryDate) recentBuilds then
        getArchiveAsync sv fuel (ArchivePromptSource b)
          (logged w
             [asked;
              Logged LogError
                (bold sv ("It looks like all of your build artifacts have expired. "
                          +:+ "EAS keeps your build artifacts only for 30 days."))])
      else
        let shown :=
          Prompted "selectedBuild" "Which build would you like to submit?"
            (map (fun choice => ("- " +:+ title choice, disabled choice))
               (buildChoices sv recentBuilds expiryDate)) in
        match script w with
        | Pick n :: rest =>
            match mjoin (value <$> buildChoices sv recentBuilds expiryDate !! n) with
            | Some selectedBuild =>
                (Returned {| build := Some selectedBuild; source := source; url := None |},
                 answered w rest [asked; shown])
            | None =>
                getArchiveAsync sv fuel (ArchivePromptSource b) (answered w rest [asked; shown])
            end
        | Broken e :: rest =>
            (Thrown e, answered w rest [asked; shown; LoggedErr LogError "" e])
        | _ :: rest =>
            (Thrown promptFailure,
             answered w rest [asked; shown; LoggedErr LogError "" promptFailure])
        | [] =>
            (Thrown promptFailure, logged w [asked; shown; LoggedErr LogError "" promptFailure])
        end
  end.
Proof.
  intros source appPlatform expiryDate asked. subst source.
  cbn [getArchiveAsync dispatch]. unfold handleBuildListSourceAsync, promptSelect. run.
  fold appPlatform expiryDate.
  destruct (getRecentBuildsForSubmissionAsync sv (length (journal w)) appPlatform
              (projectId b) (Some BUILD_LIST_ITEM_COUNT)) as [err|recentBuilds]; simpl; tidy.
  destruct (length recentBuilds <? 1)%nat; simpl; tidy.
  destruct (forallb (fun it => updatedAt it <? expiryDate) recentBuilds); simpl; tidy.
  rewrite List.map_map. simpl.
  destruct (script w) as [|[n|text|yes|e] rest]; simpl; tidy.
  rewrite list_lookup_fmap.
  destruct (buildChoices sv recentBuilds expiryDate !! n) as [[t [selectedBuild|] d]|];
    simpl; tidy.
Qed.

(** What the prompt variant returns, it returns from a recursive call. *)
Lemma prompt_returned fuel b w archive w' :
  getArchiveAsync sv (S fuel) (ArchivePromptSource b) w = (Returned archive, w') ->
  exists next w1, getArchiveAsync sv fuel next w1 = (Returned archive, w').
Proof.
  cbn [getArchiveAsync dispatch].
  unfold handlePromptSourceAsync, promptSelect, askForArchiveUrlAsync,
    askForArchivePathAsync, askForBuildIdAsync, promptText. run.
  destruct (script w) as [|[n|text|yes|e] rest]; simpl; try discriminate.
  destruct (sourceTypeChoices !! n) as [[t [| | | | |] d]|]; simpl; try discriminate.
  - destruct (readValidated _ rest) as [[u| |] rest']; simpl; try discriminate. eauto.
  - destruct (readValidated _ rest) as [[u| |] rest']; simpl; try discriminate. eauto.
  - destruct (readValidated _ rest) as [[u| |] rest']; simpl; try discriminate. eauto.
  - eauto.
Qed.

Lemma readValidated_shorter validate answers r rest :
  readValidated validate answers = (r, rest) -> (length rest <= length answers)%nat.
Proof.
  revert r rest. induction answers as [|a answers IH]; intros r rest H; simpl in H.
  - injection H as _ <-. reflexivity.
  - destruct a as [n|text|yes|e]; try (injection H as _ <-; simpl; lia).
    destruct (validate text); [injection H as _ <-; simpl; lia|].
    apply IH in H. simpl. lia.
Qed.

Lemma readValidated_settles validate answers :
  fst (readValidated validate answers) <> OutOfFuel.
Proof.
  induction answers as [|[n|text|yes|e] answers IH]; simpl; try discriminate.
  destruct (validate text); [discriminate | exact IH].
Qed.

(** The prompt variant either throws, or consumes at least one answer and
    calls [getArchiveAsync] on one of the other variants. *)
Lemma prompt_cases b w :
  (exists e w', forall fuel,
     getArchiveAsync sv (S fuel) (ArchivePromptSource b) w = (Thrown e, w')) \/
  (exists next w1,
     rank next = 1%nat /\
     (length (script w1) < length (script w))%nat /\
     forall fuel,
       getArchiveAsync sv (S fuel) (ArchivePromptSource b) w = getArchiveAsync sv fuel next w1).
Proof.
  cbn [getArchiveAsync dispatch].
  unfold handlePromptSourceAsync, promptSelect, askForArchiveUrlAsync,
    askForArchivePathAsync, askForBuildIdAsync, promptText. run.
  destruct (script w) as [|[n|text|yes|e] rest]; simpl; try (left; eauto; fail).
  destruct (sourceTypeChoices !! n) as [[t [| | | | |] d]|]; simpl;
    try (left; eauto; fail).
  1-3: match goal with
       | |- context [readValidated ?V ?R] =>
           pose proof (readValidated_settles V R) as Hsettles;
           destruct (readValidated V R) as [[u|e|] rest'] eqn:E; simpl;
           [ apply readValidated_shorter in E | left; eauto | contradiction ]
       end.
  - right. exists (ArchiveUrlSource b u). eexists.
    split; [reflexivity|]. split; [|intros; reflexivity]. simpl. lia.
  - right. exists (ArchivePathSource b u). eexists.
    split; [reflexivity|]. split; [|intros; reflexivity]. simpl. lia.
  - right. exists (ArchiveBuildIdSource b u). eexists.
    split; [reflexivity|]. split; [|intros; reflexivity]. simpl. lia.
  - right. exists (ArchiveBuildListSource b). eexists.
    split; [reflexivity|]. split; [|intros; reflexivity]. simpl. lia.
Qed.

(** X26.  Resolution settles: with more fuel than twice the number of answers
    left (and one unit more for a variant other than the prompt one) a run
    of [getArchiveAsync] ends by returning or by throwing. *)
Lemma getArchiveAsync_settles fuel : forall source w,
  (2 * length (script w) + rank source < fuel)%nat ->
  fst (getArchiveAsync sv fuel source w) <> OutOfFuel.
Proof.
  induction fuel as [|fuel IH]; intros source w Hfuel; [lia|].
  destruct source as [b url|b|b path|b id|b|b]; simpl rank in Hfuel.
  - rewrite url_unfold.
    destruct (negb (validateUrl sv url)); [apply IH; simpl; lia|].
    destruct (isBuildDetailsPage url) as [maybeBuildId|]; [|discriminate].
    destruct (nonInteractive b); [discriminate|].
    destruct (script w) as [|[n|text|[|]|e] rest] eqn:Hscript; try discriminate.
    apply IH. simpl in *. lia.
  - rewrite latest_unfold.
    destruct (getRecentBuildsForSubmissionAsync sv _ _ _ None) as [err|[|b0 rest]];
      try discriminate.
    apply IH. simpl. lia.
  - rewrite path_unfold.
    destruct (negb (isExistingFileAsync sv _ path)); [apply IH; simpl; lia|].
    destruct (uploadAppArchiveAsync sv _ path); discriminate.
  - rewrite buildId_unfold.
    destruct (byIdAsync sv _ id) as [err|build]; [apply IH; simpl; lia|].
    destruct (AppPlatform_eqb _ _); [discriminate | apply IH; simpl; lia].
  - rewrite buildList_unfold.
    destruct (getRecentBuildsForSubmissionAsync sv _ _ _ (Some _)) as [err|recentBuilds];
      [discriminate|].
    destruct (length recentBuilds <? 1)%nat; [apply IH; simpl; lia|].
    destruct (forallb _ recentBuilds); [apply IH; simpl; lia|].
    destruct (script w) as [|[n|text|yes|e] rest] eqn:Hscript; try discriminate.
    destruct (mjoin _) as [selectedBuild|]; [discriminate|].
    apply IH. simpl in *. lia.
  - destruct (prompt_cases b w) as [(e & w' & H) | (next & w1 & Hrank & Hlen & H)];
      rewrite H; [discriminate|].
    apply IH. lia.
Qed.


(** C6.  Every archive that [getArchiveAsync] returns has exactly one of
    [url] and [build] set: [url] alone when it comes from the url or the path
    variant, [build] alone when it comes from the latest, the build-id or the
    build-list variant; none comes from the prompt variant itself. *)
Theorem archive_has_one_reference fuel : forall source w archive w',
  getArchiveAsync sv fuel source w = (Returned archive, w') ->
  oneReference archive.
Proof.
  induction fuel as [|fuel IH]; intros source w archive w' H; [discriminate|].
  destruct source as [b url|b|b path|b id|b|b].
  - rewrite url_unfold in H.
    destruct (negb (validateUrl sv url)); [eauto|].
    destruct (isBuildDetailsPage url) as [maybeBuildId|].
    + destruct (nonInteractive b).
      * injection H as <- _. split; [eexists; reflexivity | reflexivity].
      * destruct (script w) as [|[n|text|[|]|e] rest]; try discriminate; [eauto|].
        injection H as <- _. split; [eexists; reflexivity | reflexivity].
    + injection H as <- _. split; [eexists; reflexivity | reflexivity].
  - rewrite latest_unfold in H.
    destruct (getRecentBuildsForSubmissionAsync sv _ _ _ None) as [err|[|b0 rest]];
      [discriminate | eauto |].
    injection H as <- _. split; [eexists; reflexivity | reflexivity].
  - rewrite path_unfold in H.
    destruct (negb (isExistingFileAsync sv _ path)); [eauto|].
    destruct (uploadAppArchiveAsync sv _ path); [discriminate|].
    injection H as <- _. split; [eexists; reflexivity | reflexivity].
  - rewrite buildId_unfold in H.
    destruct (byIdAsync sv _ id) as [err|build]; [eauto|].
    destruct (AppPlatform_eqb _ _); [|eauto].
    injection H as <- _. split; [eexists; reflexivity | reflexivity].
  - rewrite buildList_unfold in H.
    destruct (getRecentBuildsForSubmissionAsync sv _ _ _ (Some _)) as [err|recentBuilds];
      [discriminate|].
    destruct (length recentBuilds <? 1)%nat; [eauto|].
    destruct (forallb _ recentBuilds); [eauto|].
    destruct (script w) as [|[n|text|yes|e] rest]; try discriminate.
    destruct (mjoin _) as [selectedBuild|]; [|eauto].
    injection H as <- _. split; [eexists; reflexivity | reflexivity].
  - apply prompt_returned in H as (next & w1 & H). eauto.
Qed.






End ResolverProperties.

(** * Worked runs of submit/ArchiveSource.ts *)

Section ResolverRuns.

Import ArchiveSource.




Lemma archive_has_one_reference_witness :
  oneReference {| build := Some freshBuild;
                  source := ArchiveBuildIdSource (onIos false) (id freshBuild);
                  url := None |}.
Proof.
  eapply (archive_has_one_reference project 3
            (ArchiveUrlSource (onIos false) detailsPage) (user [Confirm true])).
  vm_compute. reflexivity.
Defined.




End ResolverRuns.

(** * Properties of build/build.ts *)

Section TrackerProperties.

Import Build.

Variable sv : TrackerServices.

Lemma filter_all_length {A} (f : A -> bool) (l : list A) :
  (length (List.filter f l) =? length l)%nat = forallb f l.
Proof.
  induction l as [|a l IH]; [reflexivity|].
  simpl. destruct (f a); simpl.
  - exact IH.
  - apply Nat.eqb_neq. pose proof (List.filter_length_le f l). lia.
Qed.

Lemma isEnded_slotTerminal slot : isEnded slot = slotTerminal slot.
Proof.
  destruct slot as [b|]; [|reflexivity]. simpl.
  destruct (status b) as [| | | | | |raw]; try reflexivity.
  simpl. destruct (negb (String.eqb raw "")); reflexivity.
Qed.

Lemma forallb_isEnded builds : forallb isEnded builds = allTerminal builds.
Proof.
  unfold allTerminal. induction builds as [|slot builds IH]; [reflexivity|].
  simpl. rewrite isEnded_slotTerminal, IH. reflexivity.
Qed.

Lemma all_finished_terminal builds :
  forallb (hasStatus Finished) builds = true -> allTerminal builds = true.
Proof.
  unfold allTerminal. rewrite !forallb_forall. intros H slot Hin.
  specialize (H slot Hin). destruct slot as [b|]; [|discriminate].
  simpl in *. destruct (status b); try discriminate; reflexivity.
Qed.

(** The many-jobs arm never throws: it returns the list when every slot is
    terminal and goes on polling otherwise. *)
Lemma trackMany_verdict builds w :
  fst (trackMany sv builds w) = Returned (if allTerminal builds then Some builds else None).
Proof.
  unfold trackMany. rewrite !filter_all_length, forallb_isEnded.
  destruct (forallb (hasStatus Finished) builds) eqn:Hfin.
  - rewrite (all_finished_terminal _ Hfin). reflexivity.
  - destruct (allTerminal builds); reflexivity.
Qed.

(** The single-job arm, snapshot by snapshot. *)
Lemma trackSingle_verdict (b : BuildFragment) w :
  fst (trackSingle [Some b] (Some b) w) =
  match status b with
  | Finished | Canceled => Returned (Some [Some b])
  | New | InQueue | InProgress => Returned None
  | Errored =>
      match error b with
      | Some _ => Returned (Some [Some b])
      | None => Thrown (JsError "Standalone build failed!")
      end
  | OtherStatus raw => Thrown (JsError ("Unknown build status: " +:+ raw +:+ " - aborting!"))
  end.
Proof.
  unfold trackSingle. destruct (status b); try reflexivity.
  destruct (error b); reflexivity.
Qed.

Lemma trackSingle_null w : fst (trackSingle [None] None w) = Returned None.
Proof.
  unfold trackSingle, bind, getSpinnerText. simpl.
  destruct (String.eqb (spinnerText w) ""); reflexivity.
Qed.

(** C2 (amended).  On snapshots the remote service sends under its contract
    (one of the six statuses, an error payload with every [Errored]), one
    tracked job and many are decided alike: the round returns the fetched
    list exactly when every slot holds a terminal snapshot, and otherwise the
    loop goes on; nothing is thrown. *)
Theorem track_shared_termination (builds : BuildList) (w : World) :
  forallb wellReported builds = true ->
  fst (track sv builds w) = Returned (if allTerminal builds then Some builds else None).
Proof.
  intros Hwell.
  destruct builds as [|slot [|slot' rest]].
  - apply trackMany_verdict.
  - simpl in Hwell. rewrite andb_true_r in Hwell.
    destruct slot as [b|].
    + unfold track. rewrite trackSingle_verdict.
      unfold allTerminal. simpl. rewrite andb_true_r.
      unfold wellReported in Hwell.
      destruct (status b); try reflexivity; try discriminate.
      destruct (error b); [reflexivity | discriminate].
    + unfold track. rewrite trackSingle_null. reflexivity.
  - apply trackMany_verdict.
Qed.

(** C3 (amended).  With exactly one tracked job, an [Errored] snapshot is
    reported as failed and then returned when it carries an error payload and
    raises when it carries none, and a status outside the six known values
    raises.  With no job or several, a round never raises: it returns the
    list when every slot is terminal ([Errored] counts as terminal with or
    without a payload) and keeps polling otherwise, an unknown status
    included. *)
Theorem track_errored_and_unknown (w : World) :
  (forall b, status b = Errored ->
     track sv [Some b] w =
     (match error b with
      | Some _ => Returned (Some [Some b])
      | None => Thrown (JsError "Standalone build failed!")
      end, printed w (SpinnerFail "Build failed"))) /\
  (forall b raw, status b = OtherStatus raw ->
     track sv [Some b] w =
     (Thrown (JsError ("Unknown build status: " +:+ raw +:+ " - aborting!")),
      printed w (SpinnerWarn "Unknown status"))) /\
  fst (track sv [] w) = Returned (Some []) /\
  (forall slot1 slot2 rest,
     let builds := slot1 :: slot2 :: rest in
     fst (track sv builds w) = Returned (if allTerminal builds then Some builds else None)) /\
  (forall b, status b = Errored -> slotTerminal (Some b) = true) /\
  (forall b raw, status b = OtherStatus raw -> slotTerminal (Some b) = false).
Proof.
  repeat split.
  - intros b Hb. unfold track, trackSingle. rewrite Hb.
    destruct (error b); reflexivity.
  - intros b raw Hb. unfold track, trackSingle. rewrite Hb. reflexivity.
  - intros slot1 slot2 rest builds. apply trackMany_verdict.
  - intros b Hb. simpl. rewrite Hb. reflexivity.
  - intros b raw Hb. simpl. rewrite Hb. reflexivity.
Qed.

(** *** The polling loop, one evaluation of its condition at a time *)

Lemma fetchBuilds_result buildIds w :
  fst (fetchBuilds sv buildIds w) = Returned (snapshots sv (round w) buildIds).
Proof. unfold fetchBuilds, snapshots. simpl. rewrite List.map_map. reflexivity. Qed.

Lemma fetchBuilds_world buildIds w :
  let w1 := snd (fetchBuilds sv buildIds w) in
  clock w1 = clock w + Z.of_N (fetchMillis sv (round w)) /\ round w1 = S (round w).
Proof. split; reflexivity. Qed.

Lemma pollLoop_step fuel buildIds I E time w :
  pollLoop sv (S fuel) buildIds I E time w =
  if time <=? E then
    match track sv (snapshots sv (round w) buildIds) (snd (fetchBuilds sv buildIds w)) with
    | (Returned (Some result), w2) => (Returned result, w2)
    | (Returned None, w2) =>
        pollLoop sv fuel buildIds I E (clock w2) (snd (sleepAsync sv (I * 1000) w2))
    | (Thrown e, w2) => (Thrown e, w2)
    | (OutOfFuel, w2) => (OutOfFuel, w2)
    end
  else (Thrown timeoutError, printed w (SpinnerWarn "Timed out")).
Proof.
  cbn [pollLoop]. destruct (time <=? E); [|reflexivity].
  unfold bind at 1.
  pose proof (fetchBuilds_result buildIds w) as Hr.
  destruct (fetchBuilds sv buildIds w) as [r w1]. simpl in Hr. subst r. simpl snd.
  unfold bind at 1.
  destruct (track sv (snapshots sv (round w) buildIds) w1) as [[[result|]|e|] w2];
    reflexivity.
Qed.

(** A round only prints: the clock and the round counter are left alone. *)
Lemma trackMany_frame builds w :
  let w' := snd (trackMany sv builds w) in clock w' = clock w /\ round w' = round w.
Proof.
  unfold trackMany.
  destruct (_ =? _)%nat; [split; reflexivity|].
  destruct (_ =? _)%nat; split; reflexivity.
Qed.

Lemma track_frame builds w :
  let w' := snd (track sv builds w) in clock w' = clock w /\ round w' = round w.
Proof.
  destruct builds as [|slot [|slot' rest]]; try apply trackMany_frame.
  destruct slot as [b|]; simpl.
  - destruct (status b); try (split; reflexivity).
    unfold bind; simpl. destruct (error b); split; reflexivity.
  - unfold bind, getSpinnerText; simpl.
    destruct (String.eqb (spinnerText w) ""); split; reflexivity.
Qed.

(** What a round hands back is the very list it was given, and it hands it
    back only when every slot is terminal. *)
Lemma track_returned builds w result w' :
  track sv builds w = (Returned (Some result), w') ->
  result = builds /\ allTerminal builds = true.
Proof.
  intros H. assert (Hf : fst (track sv builds w) = Returned (Some result)) by (rewrite H; reflexivity).
  clear H. destruct builds as [|slot [|slot' rest]].
  - unfold track in Hf. rewrite trackMany_verdict in Hf. simpl in Hf.
    split; [congruence | reflexivity].
  - destruct slot as [b|].
    + unfold track in Hf. rewrite trackSingle_verdict in Hf.
      unfold allTerminal. simpl. rewrite andb_true_r.
      destruct (status b); try discriminate; try (split; [congruence | reflexivity]).
      destruct (error b); [split; [congruence | reflexivity] | discriminate].
    + unfold track in Hf. rewrite trackSingle_null in Hf. discriminate.
  - unfold track in Hf. rewrite trackMany_verdict in Hf.
    destruct (allTerminal (slot :: slot' :: rest)); [|discriminate].
    split; [congruence | reflexivity].
Qed.

Lemma pollLoop_returned fuel buildIds I E : forall time w builds w',
  pollLoop sv fuel buildIds I E time w = (Returned builds, w') ->
  (round w < round w')%nat /\
  builds = snapshots sv (pred (round w')) buildIds /\
  allTerminal builds = true.
Proof.
  induction fuel as [|fuel IH]; intros time w builds w' H; [discriminate|].
  rewrite pollLoop_step in H.
  destruct (time <=? E); [|discriminate].
  pose proof (fetchBuilds_world buildIds w) as [_ Hround].
  remember (snd (fetchBuilds sv buildIds w)) as w1 eqn:Hw1.
  pose proof (track_frame (snapshots sv (round w) buildIds) w1) as [_ Hround'].
  destruct (track sv (snapshots sv (round w) buildIds) w1)
    as [[[result|]|e|] w2] eqn:Htrack; try discriminate.
  - injection H as -> ->.
    apply track_returned in Htrack as [-> Hall].
    simpl in Hround'. rewrite Hround', Hround. simpl.
    repeat split; [lia | exact Hall].
  - apply IH in H as (Hlt & Hb & Hall). simpl in Hlt, Hround'.
    rewrite Hround', Hround in Hlt. repeat split; [lia | exact Hb | exact Hall].
Qed.

Lemma snapshots_lookup n buildIds (i : nat) buildId :
  buildIds !! i = Some buildId ->
  snapshots sv n buildIds !! i = Some (fst (fetchOne sv n buildId)).
Proof.
  revert i. induction buildIds as [|b0 ids IH]; intros [|i] H; try discriminate.
  - injection H as ->. reflexivity.
  - simpl. apply IH. exact H.
Qed.

(** C4.  When [waitForBuildEndAsync] returns, it returns one slot per input
    id, in the order of the input, and slot [i] holds the snapshot that the
    last round fetched for the [i]-th id (no slot is [null] then: the loop
    returns only from a round in which every fetch produced a terminal
    snapshot). *)
Theorem waitForBuildEnd_slots fuel (buildIds : list string) options w builds w' :
  waitForBuildEndAsync sv fuel buildIds options w = (Returned builds, w') ->
  length builds = length buildIds /\
  (round w < round w')%nat /\
  builds = snapshots sv (pred (round w')) buildIds /\
  forall (i : nat) buildId, buildIds !! i = Some buildId ->
    exists build,
      builds !! i = Some (Some build) /\
      byIdAsync sv (pred (round w')) buildId = inr build.
Proof.
  unfold waitForBuildEndAsync. intros H.
  apply pollLoop_returned in H as (Hlt & -> & Hall). simpl in Hlt.
  repeat split.
  - unfold snapshots. apply length_map.
  - exact Hlt.
  - intros i buildId Hi.
    pose proof (snapshots_lookup (pred (round w')) _ _ _ Hi) as Hslot.
    unfold allTerminal in Hall. rewrite forallb_forall in Hall.
    specialize (Hall (fst (fetchOne sv (pred (round w')) buildId))).
    unfold fetchOne in *.
    destruct (byIdAsync sv (pred (round w')) buildId) as [e|build].
    + exfalso. assert (slotTerminal None = true); [|discriminate].
      apply Hall. apply list_elem_of_In. eapply list_elem_of_lookup_2. exact Hslot.
    + exists build. split; [exact Hslot | reflexivity].
Qed.

(** *** A job that stays in flight *)

Lemma pending_slot n buildId :
  pending (byIdAsync sv n buildId) = true ->
  match fst (fetchOne sv n buildId) with
  | None => True
  | Some b => status b = New \/ status b = InQueue \/ status b = InProgress
  end.
Proof.
  unfold fetchOne, pending. destruct (byIdAsync sv n buildId) as [e|b]; simpl; [trivial|].
  destruct (status b); try discriminate; auto.
Qed.

Lemma allTerminal_false builds slot :
  In slot builds -> slotTerminal slot = false -> allTerminal builds = false.
Proof.
  intros Hin Hslot. unfold allTerminal.
  destruct (forallb slotTerminal builds) eqn:Hall; [|reflexivity].
  rewrite forallb_forall in Hall. rewrite (Hall _ Hin) in Hslot. discriminate.
Qed.

(** As long as one job is in flight the round falls through to the sleep. *)
Lemma track_in_flight buildIds (i : nat) buildId n w :
  buildIds !! i = Some buildId ->
  pending (byIdAsync sv n buildId) = true ->
  fst (track sv (snapshots sv n buildIds) w) = Returned None.
Proof.
  intros Hi Hp.
  pose proof (snapshots_lookup n _ _ _ Hi) as Hslot.
  pose proof (pending_slot _ _ Hp) as Hst.
  assert (Hnt : slotTerminal (fst (fetchOne sv n buildId)) = false).
  { destruct (fst (fetchOne sv n buildId)) as [b|]; [|reflexivity].
    simpl. destruct Hst as [-> | [-> | ->]]; reflexivity. }
  assert (Hin : In (fst (fetchOne sv n buildId)) (snapshots sv n buildIds)).
  { apply list_elem_of_In. eapply list_elem_of_lookup_2. exact Hslot. }
  destruct (snapshots sv n buildIds) as [|slot [|slot' rest]] eqn:Hs.
  - destruct Hin.
  - destruct Hin as [-> | []]. unfold track.
    destruct (fst (fetchOne sv n buildId)) as [b|].
    + rewrite trackSingle_verdict. destruct Hst as [-> | [-> | ->]]; reflexivity.
    + apply trackSingle_null.
  - unfold track. rewrite trackMany_verdict, (allTerminal_false _ _ Hin Hnt). reflexivity.
Qed.

Lemma roundStart_ext I w1 w2 k :
  clock w1 = clock w2 -> round w1 = round w2 ->
  roundStart sv I w1 k = roundStart sv I w2 k.
Proof.
  intros Hc Hr. induction k as [|k IH]; simpl; [exact Hc|].
  rewrite IH, Hr. reflexivity.
Qed.

(** The schedule seen from the world in which the next round starts. *)
Lemma roundStart_shift I w w2 k :
  clock w2 = roundStart sv I w 1 -> round w2 = S (round w) ->
  roundStart sv I w2 k = roundStart sv I w (S k).
Proof.
  intros Hc Hr. induction k as [|k IH]; [exact Hc|].
  cbn [roundStart]. cbn [roundStart] in IH. rewrite IH, Hr.
  replace (S (round w) + k)%nat with (round w + S k)%nat by lia.
  replace (S (round w) + S k)%nat with (round w + S (S k))%nat by lia.
  reflexivity.
Qed.

Section InFlight.

Variable buildIds : list string.
Variable I E : Z.
Hypothesis interval_positive : 0 < I.
Hypothesis in_flight : forall n w, fst (track sv (snapshots sv n buildIds) w) = Returned None.


End InFlight.


End TrackerProperties.

Section UploadProperties.

Import Build.

Variable sv : UploadServices.


Lemma removed_after_added (p : string) (X : gset string) :
  ({[p]} ∪ X) ∖ {[p]} = X ∖ {[p]}.
Proof.
  apply set_eq. intros x.
  rewrite !elem_of_difference, elem_of_union, elem_of_singleton. tauto.
Qed.


End UploadProperties.

(** * Worked runs of build/build.ts *)

Section TrackerRuns.

Import Build.

(** C2, as stated, fails: the only tracked job is terminal ([Errored]), yet
    the single-job arm throws instead of returning, while the many-jobs arm
    returns on the same snapshot. *)
Lemma single_job_throws_where_many_return :
  allTerminal [Some bare] = true /\
  fst (track stuckService [Some bare] freshWorld) = Thrown (JsError "Standalone build failed!") /\
  fst (track stuckService [Some bare; Some bare] freshWorld)
  = Returned (Some [Some bare; Some bare]).
Proof. repeat split. Qed.

Lemma track_shared_termination_witness :
  fst (track stuckService [Some failed; Some finished] freshWorld)
  = Returned (Some [Some failed; Some finished]) /\
  fst (track stuckService [Some failed] freshWorld) = Returned (Some [Some failed]).
Proof.
  split.
  - apply (track_shared_termination stuckService [Some failed; Some finished] freshWorld).
    reflexivity.
  - apply (track_shared_termination stuckService [Some failed] freshWorld).
    reflexivity.
Defined.

(** C3, as stated, fails: with two tracked jobs an [Errored] snapshot without
    an error payload raises nothing (the round returns), and a status outside
    the six known values raises nothing either (the loop goes on). *)
Lemma many_jobs_never_raise :
  fst (track stuckService [Some bare; Some finished] freshWorld)
  = Returned (Some [Some bare; Some finished]) /\
  fst (track stuckService [Some odd; Some finished] freshWorld) = Returned None.
Proof. split; reflexivity. Qed.

Lemma track_errored_and_unknown_witness :
  track stuckService [Some bare] freshWorld
  = (Thrown (JsError "Standalone build failed!"),
     printed freshWorld (SpinnerFail "Build failed")) /\
  track stuckService [Some odd] freshWorld
  = (Thrown (JsError "Unknown build status: PENDING_CANCEL - aborting!"),
     printed freshWorld (SpinnerWarn "Unknown status")).
Proof.
  destruct (track_errored_and_unknown stuckService freshWorld) as (Herr & Hodd & _).
  split.
  - apply (Herr bare). reflexivity.
  - apply (Hodd odd "PENDING_CANCEL"). reflexivity.
Defined.

Lemma waitForBuildEnd_slots_witness :
  exists builds w',
    waitForBuildEndAsync finishingService 5 ["a"; "b"] oneMinuteEveryHalf freshWorld
    = (Returned builds, w') /\
    length builds = 2%nat /\
    builds = [Some (snapshot "a" Finished None); Some (snapshot "b" Finished None)].
Proof.
  eexists. eexists. split; [vm_compute; reflexivity|].
  edestruct (waitForBuildEnd_slots finishingService 5 ["a"; "b"] oneMinuteEveryHalf freshWorld)
    as (Hlen & _ & Hsnap & _); [vm_compute; reflexivity|].
  split; [exact Hlen | exact Hsnap].
Defined.




End TrackerRuns.

(** * More about submit/ArchiveSource.ts *)

Section IdentifierProperties.

Import ArchiveSource.

#[local] Arguments String.append : simpl nomatch.

(** A string that passes a list of character classes has, at each position,
    a character of the class of that position. *)
Lemma matchesClasses_get classes : forall s (i : nat) (p : ascii -> bool),
  matchesClasses classes s = true ->
  nth_error classes i = Some p ->
  exists c, String.get i s = Some c /\ p c = true.
Proof.
  induction classes as [|q classes IH]; intros [|c s] i p H Hi;
    simpl in H; try discriminate.
  - destruct i; discriminate.
  - apply andb_true_iff in H as [Hc Hs].
    destruct i as [|i]; simpl in Hi.
    + injection Hi as <-. exists c. split; [reflexivity | exact Hc].
    + simpl. apply (IH s i p Hs Hi).
Qed.

Lemma matchesClasses_length classes : forall s,
  matchesClasses classes s = true -> String.length s = length classes.
Proof.
  induction classes as [|q classes IH]; intros [|c s] H; simpl in H; try discriminate.
  - reflexivity.
  - apply andb_true_iff in H as [_ Hs]. simpl. f_equal. apply IH, Hs.
Qed.

Lemma dash_at s (i : nat) :
  matchesClasses uuidPattern s = true ->
  nth_error uuidPattern i = Some isDash ->
  String.get i s = Some "-"%char.
Proof.
  intros H Hi. destruct (matchesClasses_get _ _ _ _ H Hi) as (c & Hget & Hc).
  unfold isDash in Hc. apply Ascii.eqb_eq in Hc. subst c. exact Hget.
Qed.

Lemma version_digit_four c :
  isVersionDigit c = true -> (hexValue c =? 4)%nat = true -> c = "4"%char.
Proof.
  unfold isVersionDigit, hexValue, inRange.
  change (nat_of_ascii "1") with 49%nat. change (nat_of_ascii "5") with 53%nat.
  change (nat_of_ascii "0") with 48%nat. change (nat_of_ascii "9") with 57%nat.
  intros Hrange Hfour.
  apply andb_true_iff in Hrange as [Hlo Hhi].
  apply Nat.leb_le in Hlo, Hhi.
  assert (Hdigit : ((48 <=? nat_of_ascii c)%nat && (nat_of_ascii c <=? 57)%nat) = true).
  { apply andb_true_iff. split; apply Nat.leb_le; lia. }
  rewrite Hdigit in Hfour. apply Nat.eqb_eq in Hfour.
  rewrite <- (ascii_nat_embedding c).
  replace (nat_of_ascii c) with 52%nat by lia. reflexivity.
Qed.

(** X1.  Whatever [isUuidV4] accepts is 36 characters long, has its dashes
    at positions 8, 13, 18 and 23, and carries the version digit 4 at
    position 14. *)
Theorem isUuidV4_shape (s : string) :
  isUuidV4 s = true ->
  String.length s = 36%nat /\
  String.get 8 s = Some "-"%char /\
  String.get 13 s = Some "-"%char /\
  String.get 14 s = Some "4"%char /\
  String.get 18 s = Some "-"%char /\
  String.get 23 s = Some "-"%char.
Proof.
  intros H. pose proof (isUuidV4_pattern s H) as Hpat.
  split; [apply (matchesClasses_length uuidPattern), Hpat|].
  repeat split; try (apply dash_at; [exact Hpat | reflexivity]).
  destruct (matchesClasses_get uuidPattern s 14 isVersionDigit Hpat eq_refl)
    as (c & Hget & Hc).
  rewrite Hget. f_equal.
  unfold isUuidV4, uuid_version in H. rewrite Hget in H.
  apply andb_true_iff in H as [Hvalid H]. rewrite Hvalid in H.
  apply version_digit_four; assumption.
Qed.

Lemma isUuidV4_shape_witness :
  String.length "3fa85f64-5717-4562-b3fc-2c963f66afa6" = 36%nat /\
  String.get 8 "3fa85f64-5717-4562-b3fc-2c963f66afa6" = Some "-"%char /\
  String.get 13 "3fa85f64-5717-4562-b3fc-2c963f66afa6" = Some "-"%char /\
  String.get 14 "3fa85f64-5717-4562-b3fc-2c963f66afa6" = Some "4"%char /\
  String.get 18 "3fa85f64-5717-4562-b3fc-2c963f66afa6" = Some "-"%char /\
  String.get 23 "3fa85f64-5717-4562-b3fc-2c963f66afa6" = Some "-"%char.
Proof. apply (isUuidV4_shape "3fa85f64-5717-4562-b3fc-2c963f66afa6"). reflexivity. Defined.

(** *** What the detector returns is in the URL *)

Lemma stripPrefix_Some p : forall s r, stripPrefix p s = Some r -> s = p +:+ r.
Proof.
  induction p as [|a p IH]; intros [|b s] r H; simpl in H; try discriminate;
    try (injection H as <-; reflexivity).
  destruct (Ascii.eqb a b) eqn:E; [|discriminate].
  apply Ascii.eqb_eq in E. subst b. simpl. f_equal. apply IH, H.
Qed.

Lemma takeDots_Some n : forall s g,
  takeDots n s = Some g -> exists rest, s = g +:+ rest /\ noLineBreak g = true.
Proof.
  induction n as [|n IH]; intros s g H; simpl in H.
  - injection H as <-. exists s. split; reflexivity.
  - destruct s as [|c s]; [discriminate|].
    destruct (isLineTerminator c) eqn:Hc; [discriminate|].
    destruct (takeDots n s) as [g'|] eqn:E; [|discriminate].
    injection H as <-. destruct (IH s g' E) as (rest & -> & Hg).
    exists rest. split; [reflexivity|]. simpl. rewrite Hc, Hg. reflexivity.
Qed.

Lemma buildsSegment_Some s g :
  buildsSegment s = Some g -> exists rest, s = "/builds/" +:+ g +:+ rest.
Proof.
  unfold buildsSegment. intros H.
  destruct (stripPrefix "/builds/" s) as [r|] eqn:E; [|discriminate].
  apply stripPrefix_Some in E. apply takeDots_Some in H as (rest & -> & _).
  exists rest. exact E.
Qed.

Lemma dotStarBuilds_Some s : forall g,
  dotStarBuilds s = Some g ->
  exists b rest, noLineBreak b = true /\ s = b +:+ "/builds/" +:+ g +:+ rest.
Proof.
  induction s as [|c s IH]; intros g H.
  - cbn [dotStarBuilds] in H. apply buildsSegment_Some in H as (rest & H).
    exists "", rest. split; [reflexivity | exact H].
  - cbn [dotStarBuilds] in H.
    destruct (isLineTerminator c) eqn:Hc.
    + apply buildsSegment_Some in H as (rest & H).
      exists "", rest. split; [reflexivity | exact H].
    + destruct (dotStarBuilds s) as [g'|] eqn:E.
      * injection H as <-. destruct (IH g' eq_refl) as (b & rest & Hb & ->).
        exists (String c b), rest. split; [|reflexivity].
        simpl. rewrite Hc, Hb. reflexivity.
      * apply buildsSegment_Some in H as (rest & H).
        exists "", rest. split; [reflexivity | exact H].
Qed.

Lemma matchHere_Some s g :
  matchHere s = Some g ->
  exists tld b rest,
    (tld = "dev" \/ tld = "io") /\ noLineBreak b = true /\
    s = "expo." +:+ tld +:+ b +:+ "/builds/" +:+ g +:+ rest.
Proof.
  unfold matchHere. intros H.
  destruct (stripPrefix "expo." s) as [r|] eqn:E; [|discriminate].
  apply stripPrefix_Some in E. subst s.
  destruct (match stripPrefix "dev" r with Some r' => dotStarBuilds r' | None => None end)
    as [g'|] eqn:Edev.
  - injection H as <-.
    destruct (stripPrefix "dev" r) as [r'|] eqn:E'; [|discriminate].
    apply stripPrefix_Some in E'. subst r.
    apply dotStarBuilds_Some in Edev as (b & rest & Hb & ->).
    exists "dev", b, rest. auto.
  - destruct (stripPrefix "io" r) as [r'|] eqn:E'; [|discriminate].
    apply stripPrefix_Some in E'. subst r.
    apply dotStarBuilds_Some in H as (b & rest & Hb & ->).
    exists "io", b, rest. auto.
Qed.

(** X2.  When [isBuildDetailsPage] returns an id, that id is a version-4 UUID
    and it stands in the URL right after [/builds/], on the same line as an
    [expo.dev] or [expo.io] before it. *)
Theorem isBuildDetailsPage_sound (url id : string) :
  isBuildDetailsPage url = Some id ->
  isUuidV4 id = true /\
  exists a tld b rest,
    (tld = "dev" \/ tld = "io") /\ noLineBreak b = true /\
    url = a +:+ "expo." +:+ tld +:+ b +:+ "/builds/" +:+ id +:+ rest.
Proof.
  unfold isBuildDetailsPage. intros H.
  destruct (matchBuildsUrl url) as [g|] eqn:E; [|discriminate].
  destruct (isUuidV4 g) eqn:Hg; [|discriminate]. injection H as <-.
  split; [exact Hg|]. clear Hg.
  induction url as [|c url IH].
  - cbn [matchBuildsUrl] in E.
    destruct (matchHere "") as [g'|] eqn:Hhere; [|discriminate].
    injection E as <-. apply matchHere_Some in Hhere as (tld & b & rest & Ht & Hb & Hs).
    exists "", tld, b, rest. auto.
  - cbn [matchBuildsUrl] in E.
    destruct (matchHere (String c url)) as [g'|] eqn:Hhere.
    + injection E as <-. apply matchHere_Some in Hhere as (tld & b & rest & Ht & Hb & Hs).
      exists "", tld, b, rest. auto.
    + destruct (IH E) as (a & tld & b & rest & Ht & Hb & ->).
      exists (String c a), tld, b, rest. auto.
Qed.

Lemma isBuildDetailsPage_sound_witness :
  isUuidV4 "3fa85f64-5717-4562-b3fc-2c963f66afa6" = true /\
  exists a tld b rest,
    (tld = "dev" \/ tld = "io") /\ noLineBreak b = true /\
    detailsPage = a +:+ "expo." +:+ tld +:+ b +:+ "/builds/"
                  +:+ "3fa85f64-5717-4562-b3fc-2c963f66afa6" +:+ rest.
Proof. apply (isBuildDetailsPage_sound detailsPage). reflexivity. Defined.

End IdentifierProperties.

Section PromptProperties.

Import ArchiveSource ResolverTrace.

#[local] Open Scope list_scope.

Variable sv : Services.

Lemma readValidated_accepted validate answers text rest :
  readValidated validate answers = (Returned text, rest) -> validate text = Accepted.
Proof.
  revert text rest. induction answers as [|a answers IH]; intros text rest H; simpl in H;
    [discriminate|].
  destruct a as [n|typed|yes|e]; try discriminate.
  destruct (validate typed) eqn:E; [|eauto].
  injection H as <- _. exact E.
Qed.

Lemma promptText_accepted name message validate w text w' :
  promptText name message validate w = (Returned text, w') -> validate text = Accepted.
Proof.
  unfold promptText, bind, emit. simpl.
  destruct (readValidated validate (script w)) as [r rest] eqn:E. intros H.
  injection H as -> _. apply (readValidated_accepted _ _ _ _ E).
Qed.

(** X3.  What the three text prompts hand back has passed their checks: the
    URL validates as http(s) and is not the example URL, the path is that of
    an existing file, and the build id is a version-4 UUID. *)
Theorem prompts_collect_valid_input (w w' : World) :
  (forall url, askForArchiveUrlAsync sv w = (Returned url, w') ->
     validateUrl sv url = true /\ url <> defaultArchiveUrl) /\
  (forall platform path, askForArchivePathAsync sv platform w = (Returned path, w') ->
     isExistingFileAsync sv (length (journal w)) path = true) /\
  (forall id, askForBuildIdAsync w = (Returned id, w') -> isUuidV4 id = true).
Proof.
  split; [|split].
  - intros u H. unfold askForArchiveUrlAsync in H. apply promptText_accepted in H.
    destruct (String.eqb u defaultArchiveUrl) eqn:Hne; [discriminate|].
    apply String.eqb_neq in Hne. split; [|exact Hne].
    destruct (validateUrl sv u); [reflexivity | discriminate].
  - intros platform p H. unfold askForArchivePathAsync, bind, logicalTime in H.
    apply promptText_accepted in H.
    destruct (String.eqb p _); [discriminate|].
    destruct (isExistingFileAsync sv (length (journal w)) p); [reflexivity | discriminate].
  - intros i H. unfold askForBuildIdAsync in H. apply promptText_accepted in H.
    destruct (isUuidV4 i); [reflexivity | discriminate].
Qed.

(** *** Uploads *)

Lemma noUpload_app (a b : list Event) :
  noUpload (a ++ b) = noUpload a && noUpload b.
Proof. apply forallb_app. Qed.

Lemma uploadsLast_after before events run :
  noUpload events = true -> uploadsLast (before ++ events)%list run ->
  uploadsLast before run.
Proof.
  intros Hev (front & Hfront & H). exists (events ++ front). split.
  - rewrite noUpload_app, Hev, Hfront. reflexivity.
  - destruct (fst run) as [archive|e|].
    + destruct (source archive); rewrite H, <- ?app_assoc; reflexivity.
    + destruct H as [H | (path & H)]; [left | right; exists path];
        rewrite H, <- ?app_assoc; reflexivity.
    + rewrite H, <- ?app_assoc. reflexivity.
Qed.

Lemma uploadsLast_from (w1 : World) before events run :
  journal w1 = before ++ events -> noUpload events = true ->
  uploadsLast (journal w1) run -> uploadsLast before run.
Proof. intros ->. apply uploadsLast_after. Qed.

Lemma uploadsLast_quiet before events (r : Outcome Archive) script_ :
  noUpload events = true ->
  match r with
  | Returned archive =>
      match source archive with ArchivePathSource _ _ => False | _ => True end
  | _ => True
  end ->
  uploadsLast before (r, {| script := script_; journal := (before ++ events)%list |}).
Proof.
  intros Hev Hr. exists events. split; [exact Hev|]. simpl.
  destruct r as [archive|e|]; [|left|]; try reflexivity.
  destruct (source archive); try reflexivity. destruct Hr.
Qed.

Ltac traced :=
  eexists; eexists; eexists; (split; [|split]);
  [ | | intros; reflexivity ];
  [ simpl; rewrite <- ?app_assoc; reflexivity | reflexivity ].

(** The prompt variant, with the journal it leaves. *)
Lemma prompt_cases_trace b w :
  (exists e w' events,
     journal w' = (journal w ++ events)%list /\ noUpload events = true /\
     forall fuel,
       getArchiveAsync sv (S fuel) (ArchivePromptSource b) w = (Thrown e, w')) \/
  (exists next w1 events,
     journal w1 = (journal w ++ events)%list /\ noUpload events = true /\
     forall fuel,
       getArchiveAsync sv (S fuel) (ArchivePromptSource b) w = getArchiveAsync sv fuel next w1).
Proof.
  cbn [getArchiveAsync dispatch].
  unfold handlePromptSourceAsync, promptSelect, askForArchiveUrlAsync,
    askForArchivePathAsync, askForBuildIdAsync, promptText.
  unfold bind, ret, throw, emit, logicalTime. simpl.
  destruct (script w) as [|[n|text|yes|e] rest]; simpl; try (left; traced).
  destruct (sourceTypeChoices !! n) as [[t [| | | | |] d]|]; simpl; try (left; traced).
  1-3: match goal with
       | |- context [readValidated ?V ?R] =>
           pose proof (readValidated_settles V R) as Hsettles;
           destruct (readValidated V R) as [[u|e|] rest'] eqn:E; simpl;
           [ right; traced | left; traced | contradiction ]
       end.
  right; traced.
Qed.

(** X4.  A run of [getArchiveAsync] uploads at most once, and only as the
    last thing it does: the archive of a path is returned right after its
    upload, every other archive is returned without any upload, and after an
    upload nothing more is asked, fetched or logged. *)
Theorem resolver_uploads_last fuel : forall source w,
  uploadsLast (journal w) (getArchiveAsync sv fuel source w).
Proof.
  induction fuel as [|fuel IH]; intros source w.
  - exists []. split; [reflexivity|]. simpl. rewrite app_nil_r. reflexivity.
  - destruct source as [b url|b|b path|b id|b|b].
    + rewrite url_unfold.
      destruct (negb (validateUrl sv url));
        [eapply uploadsLast_from; [| |apply IH]; reflexivity|].
      destruct (isBuildDetailsPage url) as [maybeBuildId|].
      * destruct (nonInteractive b); [apply uploadsLast_quiet; [reflexivity | exact I]|].
        destruct (script w) as [|[n|text|[|]|e] rest];
          try (apply uploadsLast_quiet; [reflexivity | exact I]).
        eapply uploadsLast_from; [| |apply IH]; reflexivity.
      * exists []. split; [reflexivity|]. simpl. rewrite app_nil_r. reflexivity.
    + rewrite latest_unfold.
      destruct (getRecentBuildsForSubmissionAsync sv _ _ _ None) as [err|[|b0 rest]];
        try (apply uploadsLast_quiet; [reflexivity | exact I]).
      eapply uploadsLast_from; [| |apply IH]; reflexivity.
    + rewrite path_unfold.
      destruct (negb (isExistingFileAsync sv _ path));
        [eapply uploadsLast_from; [| |apply IH]; reflexivity|].
      exists [Logged LogLog "Uploading your app archive to the Expo Submission Service"].
      split; [reflexivity|].
      destruct (uploadAppArchiveAsync sv _ path); simpl;
        [right; exists path; reflexivity | reflexivity].
    + rewrite buildId_unfold.
      destruct (byIdAsync sv _ id) as [err|build];
        [eapply uploadsLast_from; [| |apply IH]; reflexivity|].
      destruct (AppPlatform_eqb _ _);
        [apply uploadsLast_quiet; [reflexivity | exact I]
        |eapply uploadsLast_from; [| |apply IH]; reflexivity].
    + rewrite buildList_unfold.
      destruct (getRecentBuildsForSubmissionAsync sv _ _ _ (Some _)) as [err|recentBuilds];
        [apply uploadsLast_quiet; [reflexivity | exact I]|].
      destruct (length recentBuilds <? 1)%nat;
        [eapply uploadsLast_from; [| |apply IH]; reflexivity|].
      destruct (forallb _ recentBuilds);
        [eapply uploadsLast_from; [| |apply IH]; reflexivity|].
      destruct (script w) as [|[n|text|yes|e] rest];
        try (apply uploadsLast_quiet; [reflexivity | exact I]).
      destruct (mjoin _) as [selectedBuild|];
        [apply uploadsLast_quiet; [reflexivity | exact I]
        |eapply uploadsLast_from; [| |apply IH]; reflexivity].
    + destruct (prompt_cases_trace b w)
        as [(e & w' & events & Hj & Hq & H) | (next & w1 & events & Hj & Hq & H)];
        rewrite H.
      * exists events. split; [exact Hq|]. left. exact Hj.
      * eapply uploadsLast_from; [exact Hj | exact Hq | apply IH].
Qed.

Lemma getArchiveAsync_settles_witness :
  fst (getArchiveAsync project 6 (ArchiveUrlSource (onIos true) "not a url")
         (user [Pick 1; Typed "https://example.com/app.ipa"])) <> OutOfFuel.
Proof.
  apply (getArchiveAsync_settles project 6). simpl. lia.
Defined.

End PromptProperties.

(** * Worked runs of the prompts *)

Section PromptRuns.

Import ArchiveSource.

Lemma prompts_collect_valid_input_witness :
  isUuidV4 "3fa85f64-5717-4562-b3fc-2c963f66afa6" = true.
Proof.
  destruct (prompts_collect_valid_input project
              (user [Typed "not an id"; Typed "3fa85f64-5717-4562-b3fc-2c963f66afa6"])
              {| script := []; journal := [Prompted "id" "Build ID:" []] |})
    as (_ & _ & Hid).
  apply Hid. reflexivity.
Defined.

End PromptRuns.

(** * More about build/build.ts: the polling loop *)

Section MoreTrackerProperties.

Import Build TrackerText.

Variable sv : TrackerServices.

Lemma waitForBuildEnd_unfold fuel buildIds options w :
  waitForBuildEndAsync sv fuel buildIds options w
  = pollLoop sv fuel buildIds (default 30 (intervalSec options))
      (clock w + default 3600 (timeoutSec options) * 1000) (clock w) (started buildIds w).
Proof. reflexivity. Qed.

(** X5.  With no job to track and a non-negative timeout,
    [waitForBuildEndAsync] returns the empty list from its first round,
    announcing that all builds have finished, without sleeping. *)
Theorem waitForBuildEnd_no_jobs fuel (options : Options) (w : World) :
  0 <= default 3600 (timeoutSec options) ->
  waitForBuildEndAsync sv (S fuel) [] options w
  = (Returned [],
     {| clock := clock w + Z.of_N (fetchMillis sv (round w));
        round := S (round w);
        spinnerText := "";
        journal := journal w
                   ++ [Log_log "Waiting for build to complete. You can press Ctrl+C to exit.";
                       SpinnerStart;
                       SpinnerSucceed "All builds have finished"] |}).
Proof.
  intros HT. rewrite waitForBuildEnd_unfold, pollLoop_step.
  assert (Hle : (clock w <=? clock w + default 3600 (timeoutSec options) * 1000) = true)
    by (apply Z.leb_le; lia).
  rewrite Hle. simpl. rewrite <- !app_assoc. reflexivity.
Qed.

(** X6.  With a negative timeout [waitForBuildEndAsync] throws the timeout
    error at once: no status is fetched and nothing is slept. *)
Theorem waitForBuildEnd_negative_timeout fuel (buildIds : list string) (options : Options)
    (w : World) :
  default 3600 (timeoutSec options) < 0 ->
  waitForBuildEndAsync sv (S fuel) buildIds options w
  = (Thrown timeoutError, printed (started buildIds w) (SpinnerWarn "Timed out")).
Proof.
  intros HT. rewrite waitForBuildEnd_unfold, pollLoop_step.
  assert (Hgt : (clock w <=? clock w + default 3600 (timeoutSec options) * 1000) = false)
    by (apply Z.leb_gt; lia).
  rewrite Hgt. reflexivity.
Qed.

(** A round on snapshots that are all terminal and all sent under the
    contract of the service returns them. *)
Lemma track_terminal (builds : BuildList) (w : World) :
  allTerminal builds = true -> forallb wellReported builds = true ->
  fst (track sv builds w) = Returned (Some builds).
Proof.
  intros Hall Hwell. destruct builds as [|slot [|slot' rest]].
  - unfold track. rewrite trackMany_verdict, Hall. reflexivity.
  - unfold allTerminal in Hall. simpl in Hall, Hwell. rewrite andb_true_r in Hall, Hwell.
    destruct slot as [b|]; [|discriminate].
    unfold track. rewrite trackSingle_verdict.
    unfold slotTerminal in Hall. unfold wellReported in Hwell.
    destruct (status b); try discriminate; try reflexivity.
    destruct (error b); [reflexivity | discriminate].
  - unfold track. rewrite trackMany_verdict, Hall. reflexivity.
Qed.

Section Completion.

Variable buildIds : list string.
Variable I E : Z.

Lemma pollLoop_completes (n : nat) : forall time w,
  time <= E ->
  (forall k, (k < n)%nat ->
     (forall w1, fst (track sv (snapshots sv (round w + k) buildIds) w1) = Returned None) /\
     readingAfter sv I w k <= E) ->
  (forall w1, fst (track sv (snapshots sv (round w + n) buildIds) w1)
              = Returned (Some (snapshots sv (round w + n) buildIds))) ->
  exists w',
    (forall fuel, (n < fuel)%nat ->
       pollLoop sv fuel buildIds I E time w
       = (Returned (snapshots sv (round w + n) buildIds), w')) /\
    round w' = (round w + S n)%nat /\
    clock w' = readingAfter sv I w n.
Proof.
  induction n as [|n IH]; intros time w Htime Hbefore Hlast.
  - set (w1 := snd (fetchBuilds sv buildIds w)).
    destruct (track sv (snapshots sv (round w) buildIds) w1) as [r w2] eqn:Htrack.
    pose proof (Hlast w1) as Hr. rewrite Nat.add_0_r, Htrack in Hr. simpl in Hr. subst r.
    pose proof (track_frame sv (snapshots sv (round w) buildIds) w1) as [Hc2 Hr2].
    rewrite Htrack in Hc2, Hr2. simpl in Hc2, Hr2.
    exists w2. repeat split.
    + intros fuel Hfuel. destruct fuel as [|fuel]; [lia|].
      rewrite pollLoop_step. apply Z.leb_le in Htime. rewrite Htime.
      fold w1. rewrite Htrack, Nat.add_0_r. reflexivity.
    + rewrite Hr2. unfold w1. simpl. lia.
    + rewrite Hc2. unfold readingAfter, w1. simpl. rewrite Nat.add_0_r. reflexivity.
  - set (w1 := snd (fetchBuilds sv buildIds w)).
    destruct (track sv (snapshots sv (round w) buildIds) w1) as [r w2] eqn:Htrack.
    destruct (Hbefore 0%nat ltac:(lia)) as [Hflight Hread0].
    pose proof (Hflight w1) as Hr. rewrite Nat.add_0_r, Htrack in Hr. simpl in Hr. subst r.
    pose proof (track_frame sv (snapshots sv (round w) buildIds) w1) as [Hc2 Hr2].
    rewrite Htrack in Hc2, Hr2. simpl in Hc2, Hr2.
    set (w3 := snd (sleepAsync sv (I * 1000) w2)).
    assert (Hc3 : clock w3 = roundStart sv I w 1).
    { unfold w3. simpl. rewrite Hc2, Hr2. unfold w1. simpl. rewrite Nat.add_0_r.
      replace (round w + 1)%nat with (S (round w)) by lia. lia. }
    assert (Hr3 : round w3 = S (round w)).
    { unfold w3. simpl. rewrite Hr2. reflexivity. }
    assert (Hread : clock w2 = readingAfter sv I w 0).
    { rewrite Hc2. unfold readingAfter, w1. simpl. rewrite Nat.add_0_r. reflexivity. }
    assert (Hshift : forall k, readingAfter sv I w3 k = readingAfter sv I w (S k)).
    { intros k. unfold readingAfter. rewrite (roundStart_shift sv I w w3 k Hc3 Hr3), Hr3.
      replace (S (round w) + k)%nat with (round w + S k)%nat by lia. reflexivity. }
    destruct (IH (clock w2) w3) as (w' & Hrun & Hrnd & Hclk).
    + rewrite Hread. exact Hread0.
    + intros k Hk. destruct (Hbefore (S k) ltac:(lia)) as [Hf Hrd]. split.
      * intros w0. rewrite Hr3.
        replace (S (round w) + k)%nat with (round w + S k)%nat by lia. apply Hf.
      * rewrite Hshift. exact Hrd.
    + intros w0. rewrite Hr3.
      replace (S (round w) + n)%nat with (round w + S n)%nat by lia. apply Hlast.
    + exists w'. repeat split.
      * intros fuel Hfuel. destruct fuel as [|fuel]; [lia|].
        rewrite pollLoop_step. apply Z.leb_le in Htime. rewrite Htime.
        fold w1. rewrite Htrack. fold w3.
        rewrite (Hrun fuel ltac:(lia)), Hr3.
        replace (S (round w) + n)%nat with (round w + S n)%nat by lia. reflexivity.
      * rewrite Hrnd, Hr3. lia.
      * rewrite Hclk. apply Hshift.
Qed.

End Completion.

(** X7.  If in each of the first [n] rounds some job is still in flight (or
    its fetch fails) while the clock readings stay within the window, and in
    the next round every job reports a terminal status (with an error
    payload where it is [Errored]), then [waitForBuildEndAsync] returns the
    snapshots of that round, after [n] sleeps; a failed fetch in an earlier
    round does not fail the call. *)
Theorem waitForBuildEnd_completes (n : nat) (buildIds : list string) (options : Options)
    (w : World) :
  let T := default 3600 (timeoutSec options) in
  let I := default 30 (intervalSec options) in
  let final := snapshots sv (round w + n) buildIds in
  0 <= T ->
  (forall k, (k < n)%nat ->
     (exists (i : nat) buildId,
        buildIds !! i = Some buildId /\
        pending (byIdAsync sv (round w + k) buildId) = true) /\
     readingAfter sv I w k <= clock w + T * 1000) ->
  allTerminal final = true ->
  forallb wellReported final = true ->
  exists w',
    (forall fuel, (n < fuel)%nat ->
       waitForBuildEndAsync sv fuel buildIds options w = (Returned final, w')) /\
    round w' = (round w + S n)%nat /\
    clock w' = readingAfter sv I w n.
Proof.
  intros T I final HT Hbefore Hall Hwell.
  destruct (pollLoop_completes buildIds I (clock w + T * 1000) n (clock w)
              (started buildIds w)) as (w' & Hrun & Hrnd & Hclk).
  - lia.
  - intros k Hk. destruct (Hbefore k Hk) as [(i & buildId & Hi & Hp) Hread]. split.
    + intros w1. apply (track_in_flight sv buildIds i buildId _ w1 Hi Hp).
    + unfold readingAfter in *.
      rewrite (roundStart_ext sv I (started buildIds w) w k eq_refl eq_refl). exact Hread.
  - intros w1. apply track_terminal; assumption.
  - exists w'. repeat split.
    + intros fuel Hfuel. rewrite waitForBuildEnd_unfold. apply Hrun, Hfuel.
    + exact Hrnd.
    + rewrite Hclk. unfold readingAfter.
      rewrite (roundStart_ext sv I (started buildIds w) w n eq_refl eq_refl). reflexivity.
Qed.

(** The [unknown] of the many-jobs arm is the number of canceled builds plus
    the number of slots without a recognised status. *)
Lemma unknownCount_split (builds : BuildList) :
  unknownCount builds
  = countStatus Canceled builds + Z.of_nat (length (List.filter unrecognised builds)).
Proof.
  unfold unknownCount, countStatus.
  induction builds as [|slot builds IH]; [reflexivity|].
  cbn [List.filter length].
  destruct slot as [b|]; cbn [hasStatus unrecognised].
  - destruct (status b); cbn [BuildStatus_eqb length]; lia.
  - cbn [length]. lia.
Qed.

(** The text of the spinner is built from that count. *)
Lemma summaryText_unknown (builds : BuildList) :
  summaryText sv builds
  = String.concat (String "009" EmptyString)
      (omap (fun i => i)
         [ andText (countStatus New builds)
             ("Builds created: " +:+ pretty (countStatus New builds));
           andText (countStatus InQueue builds)
             ("Builds in queue: " +:+ pretty (countStatus InQueue builds));
           andText (countStatus InProgress builds)
             ("Builds in progress: " +:+ pretty (countStatus InProgress builds));
           andText (countStatus Canceled builds)
             ("Builds canceled: " +:+ pretty (countStatus Canceled builds));
           andText (countStatus Errored builds)
             (red sv ("Builds failed: " +:+ pretty (countStatus Errored builds)));
           andText (countStatus Finished builds)
             (green sv ("Builds finished: " +:+ pretty (countStatus Finished builds)));
           andText (unknownCount builds)
             (red sv ("Builds with unknown status: " +:+ pretty (unknownCount builds))) ]).
Proof. reflexivity. Qed.

(** X8.  In the progress text of several builds, the number shown as
    [Builds with unknown status] is not only the number of slots without a
    recognised status (failed fetches and statuses that are none of the six):
    the canceled builds, which are not subtracted, are counted in it as well,
    besides being shown as [Builds canceled]. *)
Theorem summaryText_counts_canceled_as_unknown (builds : BuildList) :
  let canceled := countStatus Canceled builds in
  let unknown := canceled + Z.of_nat (length (List.filter unrecognised builds)) in
  summaryText sv builds
  = String.concat (String "009" EmptyString)
      (omap (fun i => i)
         [ andText (countStatus New builds)
             ("Builds created: " +:+ pretty (countStatus New builds));
           andText (countStatus InQueue builds)
             ("Builds in queue: " +:+ pretty (countStatus InQueue builds));
           andText (countStatus InProgress builds)
             ("Builds in progress: " +:+ pretty (countStatus InProgress builds));
           andText canceled ("Builds canceled: " +:+ pretty canceled);
           andText (countStatus Errored builds)
             (red sv ("Builds failed: " +:+ pretty (countStatus Errored builds)));
           andText (countStatus Finished builds)
             (green sv ("Builds finished: " +:+ pretty (countStatus Finished builds)));
           andText unknown (red sv ("Builds with unknown status: " +:+ pretty unknown)) ]).
Proof.
  intros canceled unknown. subst canceled unknown.
  rewrite summaryText_unknown, unknownCount_split. reflexivity.
Qed.

End MoreTrackerProperties.

Section MoreTrackerRuns.

Import Build.

Lemma waitForBuildEnd_no_jobs_witness :
  fst (waitForBuildEndAsync stuckService 1 [] oneMinuteEveryHalf freshWorld) = Returned [].
Proof.
  rewrite (waitForBuildEnd_no_jobs stuckService 0 oneMinuteEveryHalf freshWorld); [reflexivity|].
  simpl. lia.
Defined.

Lemma waitForBuildEnd_negative_timeout_witness :
  fst (waitForBuildEndAsync stuckService 1 ["a"]
         {| timeoutSec := Some (-1); intervalSec := None |} freshWorld)
  = Thrown timeoutError /\
  round (snd (waitForBuildEndAsync stuckService 1 ["a"]
                {| timeoutSec := Some (-1); intervalSec := None |} freshWorld)) = 0%nat.
Proof.
  rewrite (waitForBuildEnd_negative_timeout stuckService 0 ["a"]
             {| timeoutSec := Some (-1); intervalSec := None |} freshWorld);
    [split; reflexivity|].
  simpl. lia.
Defined.


Lemma waitForBuildEnd_completes_witness :
  exists w',
    (forall fuel, (1 < fuel)%nat ->
       waitForBuildEndAsync finishingService fuel ["a"; "b"] oneMinuteEveryHalf freshWorld
       = (Returned (snapshots finishingService 1 ["a"; "b"]), w')) /\
    round w' = 2%nat /\
    clock w' = readingAfter finishingService 30 freshWorld 1.
Proof.
  apply (waitForBuildEnd_completes finishingService 1 ["a"; "b"] oneMinuteEveryHalf freshWorld).
  - simpl. lia.
  - intros k Hk. assert (k = 0%nat) as -> by lia. split.
    + exists 0%nat, "a". split; reflexivity.
    + vm_compute. discriminate.
  - reflexivity.
  - reflexivity.
Defined.

End MoreTrackerRuns.

(** * Properties of the build request *)

Section BuildRequestProperties.

Import Build BuildRequest BuildRequestTrace.

#[local] Open Scope list_scope.

Context {Credentials Job Metadata : Type}.

#[local] Abbreviation Event := (@Event Credentials Job Metadata).
#[local] Abbreviation World := (@World Credentials Job Metadata).
#[local] Abbreviation Builder := (@Builder Credentials Job Metadata).

Variable sv : @Services Job Metadata.

Section Steps.

Variable R : World -> World -> Prop.
Hypothesis R_refl : forall w, R w w.
Hypothesis R_trans : forall w1 w2 w3, R w1 w2 -> R w2 w3 -> R w1 w3.

Lemma steps_ret {A} (a : A) : steps R (ret a : M World A).
Proof. intros w. apply R_refl. Qed.

Lemma steps_throw {A} (e : Error) : steps R (throw e : M World A).
Proof. intros w. apply R_refl. Qed.

Lemma steps_settle {A} (r : Error + A) : steps R (settle r : M World A).
Proof. destruct r; [apply steps_throw | apply steps_ret]. Qed.

Lemma steps_bind {A B} (m : M World A) (k : A -> M World B) :
  steps R m -> (forall a, steps R (k a)) -> steps R (bind m k).
Proof.
  intros Hm Hk w. unfold bind. specialize (Hm w).
  destruct (m w) as [[a|e|] w1]; simpl in *; auto.
  eapply R_trans; [exact Hm | apply Hk].
Qed.

Lemma steps_tryCatch {A} (m : M World A) (handler : Error -> M World A) :
  steps R m -> (forall e, steps R (handler e)) -> steps R (tryCatch m handler).
Proof.
  intros Hm Hh w. unfold tryCatch. specialize (Hm w).
  destruct (m w) as [[a|e|] w1]; simpl in *; auto.
  eapply R_trans; [exact Hm | apply Hh].
Qed.

Lemma steps_withAnalytics {A} (fn : M World A) (a s f : AnalyticsEvent) :
  steps R (emit (Tracked a)) -> steps R (emit (Tracked s)) -> steps R (emit (Tracked f)) ->
  steps R fn -> steps R (withAnalyticsAsync fn a s f).
Proof.
  intros Ha Hs Hf Hfn. unfold withAnalyticsAsync.
  apply steps_tryCatch.
  - apply steps_bind; [apply Ha|]. intros _.
    apply steps_bind; [apply Hfn|]. intros r.
    apply steps_bind; [apply Hs|]. intros _. apply steps_ret.
  - intros e. apply steps_bind; [apply Hf|]. intros _. apply steps_throw.
Qed.

(** [prepareBuildRequestForPlatformAsync] step by step: it writes entries that
    do not dispatch (those of the configuration only when the configuration
    is not skipped), and it makes the tarball or uploads the project,
    according to the mode. *)
Lemma steps_prepare (builder : Builder) :
  (forall e, dispatches e = false ->
     (skipProjectConfiguration (ctx builder) = true -> configures e = false) ->
     steps R (emit e)) ->
  (if localBuildEnabled (ctx builder)
   then steps R (makeProjectTarball sv) else steps R (uploadProject sv)) ->
  steps R (prepareBuildRequestForPlatformAsync sv builder).
Proof.
  intros HP Harchive. unfold prepareBuildRequestForPlatformAsync.
  assert (Hplain : forall e, dispatches e = false -> configures e = false -> steps R (emit e))
    by (intros e Hd Hc; apply HP; auto).
  apply steps_bind.
  { apply steps_withAnalytics; try (apply Hplain; reflexivity).
    apply steps_bind; [apply Hplain; reflexivity|].
    intros _. apply steps_settle. }
  intros credentialsResult. apply steps_bind.
  { destruct (skipProjectConfiguration (ctx builder)) eqn:Hskip; simpl.
    - apply steps_ret.
    - apply steps_withAnalytics; try (apply HP; [reflexivity|discriminate]).
      apply steps_bind; [apply HP; [reflexivity|discriminate]|].
      intros _. apply steps_settle. }
  intros _. apply steps_bind.
  { apply steps_bind; [apply Hplain; reflexivity|].
    intros _. apply steps_settle. }
  intros commitRequired. apply steps_bind.
  { destruct commitRequired; [|apply steps_ret].
    apply steps_bind; [apply Hplain; reflexivity|]. intros _.
    apply steps_bind; [apply Hplain; reflexivity|]. intros _.
    apply steps_settle. }
  intros _. apply steps_bind.
  { destruct (localBuildEnabled (ctx builder)).
    - apply steps_bind; [apply Harchive|]. intros t. apply steps_ret.
    - apply steps_bind; [apply Harchive|]. intros k. apply steps_ret. }
  intros archive. apply steps_bind.
  { apply steps_bind; [apply Hplain; reflexivity|].
    intros _. apply steps_settle. }
  intros metadata. apply steps_bind.
  { apply steps_bind; [apply Hplain; reflexivity|].
    intros _. apply steps_settle. }
  intros job. apply steps_ret.
Qed.

End Steps.

(** *** The journal *)

Lemma grown_refl (P : Event -> bool) (w : World) : grown P w w.
Proof. exists []. rewrite app_nil_r. auto. Qed.

Lemma grown_trans (P : Event -> bool) (w1 w2 w3 : World) :
  grown P w1 w2 -> grown P w2 w3 -> grown P w1 w3.
Proof.
  intros (e1 & H1 & F1) (e2 & H2 & F2). exists (e1 ++ e2).
  rewrite H2, H1, app_assoc, forallb_app, F1, F2. auto.
Qed.

Lemma grown_emit (P : Event -> bool) (e : Event) : P e = true -> steps (grown P) (emit e).
Proof. intros He w. exists [e]. simpl. rewrite He. auto. Qed.

Lemma grown_makeProjectTarball (P : Event -> bool) : steps (grown P) (makeProjectTarball sv).
Proof.
  intros w. exists []. unfold makeProjectTarball.
  destruct (makeProjectTarballAsync _ _); simpl; rewrite app_nil_r; auto.
Qed.

Lemma grown_uploadProject (P : Event -> bool) : steps (grown P) (uploadProject sv).
Proof.
  intros w. exists []. unfold uploadProject.
  destruct (uploadProjectAsync _ _); simpl; rewrite app_nil_r; auto.
Qed.

Lemma grown_prepare (P : Event -> bool) (builder : Builder) :
  (forall e, dispatches e = false ->
     (skipProjectConfiguration (ctx builder) = true -> configures e = false) ->
     P e = true) ->
  steps (grown P) (prepareBuildRequestForPlatformAsync sv builder).
Proof.
  intros HP. apply steps_prepare.
  - apply grown_refl.
  - apply grown_trans.
  - intros e Hd Hc. apply grown_emit, HP; assumption.
  - destruct (localBuildEnabled (ctx builder));
      [apply grown_makeProjectTarball | apply grown_uploadProject].
Qed.

(** X9.  Preparing a build request never dispatches the job: however
    [prepareBuildRequestForPlatformAsync] ends (with a sender or with the
    error of any of its steps), the journal has only grown, and none of the
    new entries is a local run or a request to the build service.  Dispatch is
    left to the sender it returns. *)
Theorem prepare_never_dispatches (builder : Builder) (w : World) :
  exists events,
    journal (snd (prepareBuildRequestForPlatformAsync sv builder w)) = journal w ++ events /\
    forallb (fun e => negb (dispatches e)) events = true.
Proof.
  apply (grown_prepare (fun e => negb (dispatches e)) builder).
  intros e Hd _. rewrite Hd. reflexivity.
Qed.

(** X10.  With [skipProjectConfiguration] set, the preparation never touches
    the configuration of the project: no call of
    [ensureProjectConfiguredAsync] and none of the three
    [CONFIGURE_PROJECT_*] analytics events enters the journal, on any path. *)
Theorem prepare_skips_configuration (builder : Builder) (w : World) :
  skipProjectConfiguration (ctx builder) = true ->
  exists events,
    journal (snd (prepareBuildRequestForPlatformAsync sv builder w)) = journal w ++ events /\
    forallb (fun e => negb (configures e)) events = true.
Proof.
  intros Hskip.
  apply (grown_prepare (fun e => negb (configures e)) builder).
  intros e _ Hc. rewrite (Hc Hskip). reflexivity.
Qed.

(** *** The disk *)

Lemma kept_refl (Q : Disk -> Prop) (w : World) : kept Q w w.
Proof. intros H. exact H. Qed.

Lemma kept_trans (Q : Disk -> Prop) (w1 w2 w3 : World) :
  kept Q w1 w2 -> kept Q w2 w3 -> kept Q w1 w3.
Proof. unfold kept. auto. Qed.

Lemma kept_emit (Q : Disk -> Prop) (e : Event) : steps (kept Q) (emit e).
Proof. intros w H. exact H. Qed.

Lemma uploadProject_files (d : Disk) (tarball : Tarball) :
  makeProjectTarballAsync (uploads sv) (files d) = inr tarball ->
  path tarball <> "" ->
  files (snd (uploadProjectAsync (uploads sv) d)) = files d ∖ {[path tarball]}.
Proof.
  intros Hmake Hpath.
  unfold uploadProjectAsync, uploadProjectBody, tryFinally, Build.withAnalyticsAsync, tryCatch,
    bind, Build.makeProjectTarball, upload. simpl.
  rewrite Hmake. simpl.
  assert (Htruthy : negb (String.eqb (path tarball) "") = true).
  { apply negb_true_iff, String.eqb_neq, Hpath. }
  destruct (uploadAsync (uploads sv) (path tarball)) as [e|bucketKey]; simpl;
    rewrite Htruthy; simpl; apply removed_after_added.
Qed.

Lemma awaits_uploadProject (tarball : Tarball) :
  path tarball <> "" ->
  steps (kept (awaits sv tarball)) (uploadProject sv : M World string).
Proof.
  intros Hpath w [Hmake Hfree]. unfold uploadProject.
  pose proof (uploadProject_files (disk w) tarball Hmake Hpath) as Hfiles.
  destruct (uploadProjectAsync (uploads sv) (disk w)) as [r d]. simpl in *.
  assert (Hsame : files d = files (disk w)).
  { rewrite Hfiles. apply set_eq. intros x.
    rewrite elem_of_difference, elem_of_singleton.
    split; [tauto|]. intros Hx. split; [exact Hx|]. intros ->. contradiction. }
  unfold awaits. rewrite Hsame. auto.
Qed.

(** X11.  A remote build never leaves the tarball of the project behind:
    when the path the tarball would take is free, it is free again when
    [prepareBuildRequestForPlatformAsync] settles, whether it returns a sender
    or fails in a step before or after the upload. *)
Theorem prepare_remote_leaves_no_tarball (builder : Builder) (w : World) (tarball : Tarball) :
  localBuildEnabled (ctx builder) = false ->
  makeProjectTarballAsync (uploads sv) (files (disk w)) = inr tarball ->
  path tarball <> "" ->
  path tarball ∉ files (disk w) ->
  path tarball ∉ files (disk (snd (prepareBuildRequestForPlatformAsync sv builder w))).
Proof.
  intros Hremote Hmake Hpath Hfree.
  apply (steps_prepare (kept (awaits sv tarball)) (kept_refl _) (kept_trans _) builder).
  - intros e _ _. apply kept_emit.
  - rewrite Hremote. apply awaits_uploadProject, Hpath.
  - split; assumption.
Qed.

Lemma extends_makeProjectTarball (d : Disk) :
  steps (kept (extends d)) (makeProjectTarball sv : M World Tarball).
Proof.
  intros w [Hsub Han]. unfold makeProjectTarball.
  destruct (makeProjectTarballAsync _ _) as [e|tarball]; simpl; [split; assumption|].
  split; simpl; [|exact Han].
  intros x Hx. apply elem_of_union. right. apply Hsub, Hx.
Qed.

(** X12.  A local build uploads nothing and removes nothing: however the
    preparation ends, every file that was on the disk is still there, and no
    upload was attempted (the upload analytics are as they were). *)
Theorem prepare_local_never_uploads (builder : Builder) (w : World) :
  localBuildEnabled (ctx builder) = true ->
  let w' := snd (prepareBuildRequestForPlatformAsync sv builder w) in
  files (disk w) ⊆ files (disk w') /\ analytics (disk w') = analytics (disk w).
Proof.
  intros Hlocal.
  apply (steps_prepare (kept (extends (disk w))) (kept_refl _) (kept_trans _) builder).
  - intros e _ _. apply kept_emit.
  - rewrite Hlocal. apply extends_makeProjectTarball.
  - split; reflexivity.
Qed.

(** *** The sender *)

Lemma sendBuildRequest_run (builder : Builder) (job : Job) (metadata : Metadata) (w : World) :
  sendBuildRequest sv builder job metadata w =
  let request := SendBuildRequest (projectId (ctx builder)) job metadata in
  match sendBuildRequestAsync builder (projectId (ctx builder)) job metadata with
  | inl error =>
      (Thrown error,
       {| disk := disk w;
          journal := journal w ++ [Tracked BUILD_REQUEST_ATTEMPT] ++ debugLog sv job
                     ++ [request; Tracked BUILD_REQUEST_FAIL] |})
  | inr result =>
      (Returned (build result),
       {| disk := disk w;
          journal := journal w ++ [Tracked BUILD_REQUEST_ATTEMPT] ++ debugLog sv job
                     ++ [request; PrintDeprecationWarnings (deprecationInfo result);
                         Tracked BUILD_REQUEST_SUCCESS] |})
  end.
Proof.
  unfold sendBuildRequest, withAnalyticsAsync, tryCatch, bind, emit, settle, debugLog.
  destruct (isDebug sv), (sendBuildRequestAsync builder _ job metadata); simpl;
    repeat (rewrite <- app_assoc; simpl); reflexivity.
Qed.

Lemma classify_run (job : Job) (error : Error) (w : World) :
  exists logs,
    classify sv job error w =
      (Thrown (if isKnown sv error then requestFailed else error),
       {| disk := disk w; journal := journal w ++ logs |}) /\
    forallb isLogError logs = true /\
    length logs = match graphQLErrors sv error with Some _ => 1%nat | None => 0%nat end.
Proof.
  unfold classify, isKnown, knownCodes, existsb.
  assert (Hnone : graphQLErrors sv error = None ->
                  forall code, firstErrorCodeIs sv error code = false).
  { intros H code. unfold firstErrorCodeIs. rewrite H. reflexivity. }
  destruct (graphQLErrors sv error) as [errors|] eqn:Herrors.
  - repeat (match goal with
            | |- context [if firstErrorCodeIs sv error ?c then _ else _] =>
                destruct (firstErrorCodeIs sv error c)
            end; cbn [orb];
            [eexists [_]; unfold bind, emit, throw; simpl; repeat split; reflexivity|]).
    eexists [_]; unfold bind, emit, throw; simpl; repeat split; reflexivity.
  - rewrite !Hnone by reflexivity. cbn [orb].
    exists []. unfold throw. rewrite app_nil_r. destruct w; auto.
Qed.

(** X13.  How the request sender answers a refusal of the build service.
    When [builder.sendBuildRequestAsync] rejects with [error] in remote mode,
    the sender rejects too: with its own error [Build request failed.] when
    the first GraphQL error carries one of the four known codes, and with
    [error] itself otherwise.  One line is printed to the error log exactly
    when [error] has a [graphQLErrors] property, and the disk is untouched. *)
Theorem sender_failure_classified (builder : Builder) (job : Job) (metadata : Metadata)
    (w : World) (error : Error) :
  localBuildEnabled (ctx builder) = false ->
  sendBuildRequestAsync builder (projectId (ctx builder)) job metadata = inl error ->
  let run := sender sv builder job metadata w in
  fst run = Thrown (if isKnown sv error then requestFailed else error) /\
  disk (snd run) = disk w /\
  exists events,
    journal (snd run) = journal w ++ events /\
    length (List.filter isLogError events) =
      match graphQLErrors sv error with Some _ => 1%nat | None => 0%nat end.
Proof.
  intros Hremote Hsend run. subst run.
  unfold sender. rewrite Hremote.
  unfold tryCatch, bind. rewrite sendBuildRequest_run, Hsend. cbn beta iota zeta.
  match goal with |- context [classify sv job error ?w1] =>
    destruct (classify_run job error w1) as (logs & -> & Hlogs & Hcount) end.
  simpl. split; [reflexivity|]. split; [reflexivity|].
  eexists. split; [rewrite <- app_assoc; reflexivity|].
  rewrite <- Hcount.
  assert (Hall : forall l : list Event, forallb isLogError l = true ->
                 List.filter isLogError l = l).
  { induction l as [|x l IH]; simpl; [reflexivity|].
    intros H. apply andb_prop in H as [Hx Hl]. rewrite Hx, IH by exact Hl. reflexivity. }
  unfold debugLog.
  destruct (isDebug sv); simpl; rewrite Hall by exact Hlogs; reflexivity.
Qed.

(** X14.  The sender dispatches the job once: whatever the outcome, it adds
    to the journal exactly one dispatching entry, the local run in local-build
    mode and the request to the build service otherwise, and never both. *)
Theorem sender_dispatches_once (builder : Builder) (job : Job) (metadata : Metadata)
    (w : World) :
  exists events,
    journal (snd (sender sv builder job metadata w)) = journal w ++ events /\
    List.filter dispatches events = [dispatch builder job metadata].
Proof.
  unfold sender, dispatch.
  destruct (localBuildEnabled (ctx builder)).
  - unfold bind, emit, settle.
    destruct (runLocalBuildAsync sv job); simpl; eexists; split; reflexivity.
  - unfold tryCatch, bind. rewrite sendBuildRequest_run.
    assert (Hdebug : List.filter dispatches (debugLog sv job : list Event) = []).
    { unfold debugLog. destruct (isDebug sv); reflexivity. }
    destruct (sendBuildRequestAsync builder _ job metadata) as [error|result]; cbn beta iota zeta.
    + match goal with |- context [classify sv job error ?w1] =>
        destruct (classify_run job error w1) as (logs & -> & Hlogs & _) end.
      simpl. eexists. split; [rewrite <- app_assoc; reflexivity|].
      simpl. rewrite !List.filter_app, Hdebug. simpl.
      assert (Hnone : forall l : list Event, forallb isLogError l = true ->
                      List.filter dispatches l = []).
      { induction l as [|x l IH]; simpl; [reflexivity|].
        intros H. apply andb_prop in H as [Hx Hl]. destruct x; try discriminate.
        simpl. apply IH, Hl. }
      rewrite Hnone by exact Hlogs. reflexivity.
    + simpl. eexists. split; [reflexivity|].
      simpl. rewrite !List.filter_app, Hdebug. reflexivity.
Qed.

(** X15.  What a sender that returns has done.  In local-build mode it
    returns [undefined] and the local run succeeded; in remote mode it returns
    the build of the answer of the build service. *)
Theorem sender_returns (builder : Builder) (job : Job) (metadata : Metadata)
    (w : World) (sent : option BuildFragment) :
  fst (sender sv builder job metadata w) = Returned sent ->
  if localBuildEnabled (ctx builder)
  then sent = None /\ runLocalBuildAsync sv job = inr tt
  else exists result,
         sendBuildRequestAsync builder (projectId (ctx builder)) job metadata = inr result /\
         sent = Some (build result).
Proof.
  unfold sender.
  destruct (localBuildEnabled (ctx builder)).
  - unfold bind, emit, settle.
    destruct (runLocalBuildAsync sv job) as [e|[]]; simpl; intros H; [discriminate|].
    injection H as <-. auto.
  - unfold tryCatch, bind. rewrite sendBuildRequest_run.
    destruct (sendBuildRequestAsync builder _ job metadata) as [error|result]; cbn beta iota zeta.
    + match goal with |- context [classify sv job error ?w1] =>
        destruct (classify_run job error w1) as (logs & -> & _) end.
      discriminate.
    + simpl. intros H. injection H as <-. eauto.
Qed.

Lemma uploadProject_outcome (d : Disk) :
  fst (uploadProjectAsync (uploads sv) d) =
  match makeProjectTarballAsync (uploads sv) (files d) with
  | inl e => Thrown e
  | inr tarball =>
      match uploadAsync (uploads sv) (path tarball) with
      | inl e => Thrown e
      | inr bucketKey => Returned bucketKey
      end
  end.
Proof.
  unfold uploadProjectAsync, uploadProjectBody, tryFinally, Build.withAnalyticsAsync, tryCatch,
    bind, Build.makeProjectTarball, upload. simpl.
  destruct (makeProjectTarballAsync (uploads sv) (files d)) as [e|tarball]; simpl;
    [reflexivity|].
  destruct (uploadAsync (uploads sv) (path tarball)) as [e|bucketKey]; simpl;
    destruct (negb (String.eqb (path tarball) "")); reflexivity.
Qed.

(** X16.  What a preparation that returns has done.  The tarball of the
    project was made, the metadata collected, and the job prepared from the
    credentials that were gathered and from the archive of the mode: the path
    of the tarball, which stays on the disk, in local-build mode; the bucket
    key of the upload, after which the tarball is removed, in remote mode.
    The sender returned is the one for that job and that metadata. *)
Theorem prepare_returns_sender (builder : Builder) (w : World)
    (send : M World (option BuildFragment)) :
  (forall tarball,
     makeProjectTarballAsync (uploads sv) (files (disk w)) = inr tarball ->
     path tarball <> "") ->
  let run := prepareBuildRequestForPlatformAsync sv builder w in
  fst run = Returned send ->
  exists credentialsResult tarball archive metadata job,
    ensureCredentialsAsync builder = inr credentialsResult /\
    makeProjectTarballAsync (uploads sv) (files (disk w)) = inr tarball /\
    collectMetadataAsync sv = inr metadata /\
    prepareJobAsync builder
      {| jobCredentials := credentials <$> credentialsResult;
         projectArchive := archive |} = inr job /\
    send = sender sv builder job metadata /\
    if localBuildEnabled (ctx builder)
    then archive = PATH (path tarball) /\
         files (disk (snd run)) = {[path tarball]} ∪ files (disk w)
    else exists bucketKey,
           uploadAsync (uploads sv) (path tarball) = inr bucketKey /\
           archive = S3 bucketKey /\
           files (disk (snd run)) = files (disk w) ∖ {[path tarball]}.
Proof.
  intros Hpath run. subst run.
  unfold prepareBuildRequestForPlatformAsync, withAnalyticsAsync, tryCatch, bind, emit, settle,
    makeProjectTarball, uploadProject.
  pose proof (uploadProject_outcome (disk w)) as Houtcome.
  pose proof (fun tarball H => uploadProject_files (disk w) tarball H (Hpath tarball H))
    as Hfiles.
  destruct (ensureCredentialsAsync builder) as [e|credentialsResult]; simpl;
    [discriminate|].
  destruct (skipProjectConfiguration (ctx builder)); simpl;
    [|destruct (ensureProjectConfiguredAsync builder) as [e|[]]; simpl; [discriminate|]];
    (destruct (isCommitRequiredAsync sv) as [e|[|]]; simpl; [discriminate| |]);
    try (destruct (reviewAndCommitChangesAsync sv _ _) as [e|[]]; simpl; [discriminate|]);
    destruct (localBuildEnabled (ctx builder)); simpl.
  all: destruct (makeProjectTarballAsync (uploads sv) (files (disk w)))
         as [e|tarball] eqn:Hmake.
  all: try (destruct (uploadProjectAsync (uploads sv) (disk w)) as [r d];
            simpl in Houtcome; subst r).
  all: simpl; try discriminate.
  all: try match goal with |- context [uploadAsync ?u ?p] =>
         specialize (Hfiles tarball eq_refl); simpl in Hfiles;
         destruct (uploadAsync u p) as [?|bucketKey] eqn:Hupload; simpl; [discriminate|]
       end.
  all: destruct (collectMetadataAsync sv) as [?|metadata]; simpl; [discriminate|].
  all: match goal with |- context [prepareJobAsync ?b ?jobData] =>
         destruct (prepareJobAsync b jobData) as [?|job] eqn:Hjob end;
       simpl; [discriminate|].
  all: intros H; injection H as <-.
  all: eexists credentialsResult, tarball, _, metadata, job.
  all: repeat (split; [first [reflexivity | eassumption]|]).
  all: try (split; reflexivity).
  all: exists bucketKey; split; [exact Hupload|]; split; [reflexivity|exact Hfiles].
Qed.

End BuildRequestProperties.

(** * Worked runs of the build request *)

Section BuildRequestRuns.

Import Build BuildRequest BuildRequestTrace.

#[local] Open Scope list_scope.

Lemma prepare_skips_configuration_witness :
  exists events,
    journal (snd (prepareBuildRequestForPlatformAsync buildServices localBuilder cleanWorld))
    = journal cleanWorld ++ events /\
    forallb (fun e => negb (configures e)) events = true.
Proof.
  apply (prepare_skips_configuration buildServices localBuilder cleanWorld). reflexivity.
Defined.

Lemma prepare_remote_leaves_no_tarball_witness :
  path projectTarball ∉
    files (disk (snd (prepareBuildRequestForPlatformAsync buildServices accepted cleanWorld))).
Proof.
  apply (prepare_remote_leaves_no_tarball buildServices accepted cleanWorld projectTarball).
  - reflexivity.
  - reflexivity.
  - discriminate.
  - simpl. rewrite elem_of_singleton. discriminate.
Defined.

Lemma prepare_local_never_uploads_witness :
  files (disk cleanWorld)
    ⊆ files (disk (snd (prepareBuildRequestForPlatformAsync buildServices localBuilder cleanWorld))) /\
  analytics (disk (snd (prepareBuildRequestForPlatformAsync buildServices localBuilder cleanWorld)))
  = analytics (disk cleanWorld).
Proof.
  apply (prepare_local_never_uploads buildServices localBuilder cleanWorld). reflexivity.
Defined.

Lemma sender_failure_classified_witness :
  fst (sender buildServices refused preparedJob "metadata" cleanWorld) = Thrown requestFailed /\
  disk (snd (sender buildServices refused preparedJob "metadata" cleanWorld)) = disk cleanWorld /\
  exists events,
    journal (snd (sender buildServices refused preparedJob "metadata" cleanWorld))
    = journal cleanWorld ++ events /\
    length (List.filter isLogError events) = 1%nat.
Proof.
  apply (sender_failure_classified buildServices refused preparedJob "metadata" cleanWorld
           tooManyPending); reflexivity.
Defined.

Lemma sender_returns_witness :
  exists result,
    sendBuildRequestAsync accepted (projectId (ctx accepted)) preparedJob "metadata" = inr result /\
    Some finished = Some (build result).
Proof.
  apply (sender_returns buildServices accepted preparedJob "metadata" cleanWorld (Some finished)).
  reflexivity.
Defined.

Lemma prepare_returns_sender_witness :
  exists credentialsResult tarball archive metadata prepared,
    ensureCredentialsAsync accepted = inr credentialsResult /\
    makeProjectTarballAsync (uploads buildServices) (files (disk cleanWorld)) = inr tarball /\
    collectMetadataAsync buildServices = inr metadata /\
    prepareJobAsync accepted
      {| jobCredentials := credentials <$> credentialsResult;
         projectArchive := archive |} = inr prepared /\
    sender buildServices accepted preparedJob "metadata"
    = sender buildServices accepted prepared metadata /\
    exists bucketKey,
      uploadAsync (uploads buildServices) (path tarball) = inr bucketKey /\
      archive = S3 bucketKey /\
      files (disk (snd (prepareBuildRequestForPlatformAsync buildServices accepted cleanWorld)))
      = files (disk cleanWorld) ∖ {[path tarball]}.
Proof.
  apply (prepare_returns_sender buildServices accepted cleanWorld
           (sender buildServices accepted preparedJob "metadata")).
  - intros t H. injection H as <-. discriminate.
  - reflexivity.
Defined.

End BuildRequestRuns.

(** * Properties of the Android build context, credentials and configuration *)

Section AndroidProperties.

Import BuildRequest Android AndroidTrace.

#[local] Open Scope list_scope.
#[local] Arguments String.append : simpl nomatch.

Context {GradleContext Account AndroidCredentials : Type}.

#[local] Abbreviation Event := (@Event GradleContext Account).
#[local] Abbreviation Services := (@Services GradleContext Account AndroidCredentials).

Variable sv : Services.

Lemma prefix_append (needle text : string) :
  String.prefix needle text = true <-> exists after, text = needle +:+ after.
Proof.
  revert text. induction needle as [|c needle IH]; intros text.
  - split; [intros _; exists text; reflexivity | intros _; destruct text; reflexivity].
  - destruct text as [|d text]; simpl.
    + split; [discriminate | intros (after & H); discriminate].
    + destruct (Ascii.ascii_dec c d) as [->|Hcd].
      * rewrite IH. split; intros (after & H); exists after; congruence.
      * split; [discriminate | intros (after & H); congruence].
Qed.

Lemma includes_occurs (needle text : string) :
  includes needle text = true <->
  exists before after, text = before +:+ needle +:+ after.
Proof.
  induction text as [|c text IH]; cbn [includes]; rewrite orb_true_iff, prefix_append.
  - split.
    + intros [(after & H)|H]; [|discriminate]. exists "", after. exact H.
    + intros (before & after & H). left.
      destruct before; simpl in H; [exists after; exact H | discriminate].
  - rewrite IH. split.
    + intros [(after & H)|(before & after & H)].
      * exists "", after. exact H.
      * exists (String c before), after. simpl. rewrite H. reflexivity.
    + intros (before & after & H). destruct before as [|d before]; simpl in H.
      * left. exists after. exact H.
      * right. exists before, after. congruence.
Qed.

Ltac journal_split :=
  split; [repeat (rewrite <- app_assoc; simpl); reflexivity|].

Ltac journal_done := eexists; journal_split.

(** *** createAndroidContextAsync *)

Lemma checkAndResolve_journal (ctx : CommonContext) (w : World) :
  exists events,
    snd (checkAndResolve sv ctx w) = w ++ events /\ forallb checks events = true.
Proof.
  unfold checkAndResolve, call, bind, emit, ret, throw.
  destruct (checkGoogleServicesFileAsync sv) as [?|[]]; simpl; [journal_done; reflexivity|].
  destruct (resolveGradleBuildContextAsync sv) as [?|gradle]; simpl;
    [journal_done; reflexivity|].
  destruct (workflow ctx); simpl;
    [|destruct (ensureApplicationIdIsDefinedForManagedProjectAsync sv) as [?|[]]; simpl;
      [journal_done; reflexivity|]];
    destruct (getApplicationIdAsync sv gradle); simpl; journal_done; reflexivity.
Qed.

Lemma checkAndResolve_returned (ctx : CommonContext) (w : World)
    (ending : Ending AndroidBuildContext) :
  fst (checkAndResolve sv ctx w) = Returned ending ->
  exists context,
    ending = Completed context /\
    checkGoogleServicesFileAsync sv = inr tt /\
    resolveGradleBuildContextAsync sv = inr (gradleContext context) /\
    getApplicationIdAsync sv (gradleContext context) = inr (applicationId context) /\
    (workflow ctx = MANAGED ->
     ensureApplicationIdIsDefinedForManagedProjectAsync sv = inr tt).
Proof.
  unfold checkAndResolve, call, bind, emit, ret, throw.
  destruct (checkGoogleServicesFileAsync sv) as [?|[]]; simpl; [discriminate|].
  destruct (resolveGradleBuildContextAsync sv) as [?|gradle]; simpl; [discriminate|].
  destruct (workflow ctx); simpl;
    [|destruct (ensureApplicationIdIsDefinedForManagedProjectAsync sv) as [?|[]]; simpl;
      [discriminate|]];
    destruct (getApplicationIdAsync sv gradle) as [?|id] eqn:Hid; simpl;
    try discriminate; intros H; injection H as <-;
    eexists; repeat split; simpl; try assumption; discriminate.
Qed.

Lemma checks_not_asks (events : list Event) :
  forallb checks events = true -> existsb asks events = false.
Proof.
  induction events as [|e events IH]; simpl; [reflexivity|].
  intros H. apply andb_prop in H as [He Hrest].
  rewrite (IH Hrest). destruct e; try discriminate; reflexivity.
Qed.

(** X17.  When [createAndroidContextAsync] asks whether to proceed.  The
    question is put exactly when the distribution of the profile is
    [internal] and its Gradle command contains the text [bundle]; a profile
    without a Gradle command is never asked about. *)
Theorem createAndroidContext_asks (ctx : CommonContext) (w : World) :
  exists events,
    snd (createAndroidContextAsync sv ctx w) = w ++ events /\
    (existsb asks events = true <->
     distribution (buildProfile ctx) = "internal" /\
     exists before after,
       gradleCommand (buildProfile ctx) = Some (before +:+ "bundle" +:+ after)).
Proof.
  unfold createAndroidContextAsync.
  destruct (checkAndResolve_journal ctx w) as (quiet & Hquiet & Hchecks).
  apply checks_not_asks in Hchecks.
  assert (Hno : forall P : Prop, ~ P -> existsb asks quiet = true <-> P).
  { intros P HP. rewrite Hchecks. split; [discriminate | contradiction]. }
  destruct (gradleCommand (buildProfile ctx)) as [command|].
  - destruct (String.eqb (distribution (buildProfile ctx)) "internal") eqn:Hinternal.
    + apply String.eqb_eq in Hinternal.
      destruct (includes "bundle" command) eqn:Hbundle; cbn [andb].
      * apply includes_occurs in Hbundle as (before & after & ->).
        unfold call, bind, emit. cbn beta iota.
        destruct (toggleConfirmAsync sv _) as [?|confirmed]; cbn beta iota.
        -- unfold throw. simpl. journal_done.
           split; [intros _|reflexivity]. split; [exact Hinternal|eauto].
        -- unfold ret. cbn beta iota. destruct confirmed; cbn [negb].
           ++ match goal with |- context [checkAndResolve sv ctx ?w1] =>
                destruct (checkAndResolve_journal ctx w1) as (rest & -> & _) end.
              simpl. journal_done.
              split; [intros _|reflexivity]. split; [exact Hinternal|eauto].
           ++ simpl. journal_done.
              split; [intros _|reflexivity]. split; [exact Hinternal|eauto].
      * exists quiet. split; [exact Hquiet|]. apply Hno.
        intros (_ & before & after & H). injection H as ->.
        assert (includes "bundle" (before +:+ "bundle" +:+ after) = true)
          as Hyes by (apply includes_occurs; eauto).
        simpl in Hyes. congruence.
    + exists quiet. split; [exact Hquiet|]. apply Hno.
      intros (H & _). apply String.eqb_neq in Hinternal. contradiction.
  - exists quiet. split; [exact Hquiet|]. apply Hno.
    intros (_ & before & after & H). discriminate.
Qed.

(** X18.  [createAndroidContextAsync] leaves through [process.exit] only
    with code 1, only after the user refused to proceed, and before any check
    of the project has run. *)
Theorem createAndroidContext_exit_is_refusal (ctx : CommonContext) (w : World) (code : Z) :
  fst (createAndroidContextAsync sv ctx w) = Returned (Exited code) ->
  code = 1 /\
  toggleConfirmAsync sv "Would you like to proceed?" = inr false /\
  exists events,
    snd (createAndroidContextAsync sv ctx w) = w ++ events /\
    forallb (fun e => negb (checks e)) events = true.
Proof.
  unfold createAndroidContextAsync.
  assert (Hnever : forall w1, fst (checkAndResolve sv ctx w1) = Returned (Exited code) -> False).
  { intros w1 H. apply checkAndResolve_returned in H as (context & H & _). discriminate. }
  destruct (gradleCommand (buildProfile ctx)) as [command|];
    [|intros H; destruct (Hnever _ H)].
  destruct (String.eqb (distribution (buildProfile ctx)) "internal" && includes "bundle" command);
    [|intros H; destruct (Hnever _ H)].
  unfold call, bind, emit. cbn beta iota.
  destruct (toggleConfirmAsync sv _) as [?|confirmed]; cbn beta iota; [discriminate|].
  unfold ret. cbn beta iota. destruct confirmed; cbn [negb].
  - intros H; destruct (Hnever _ H).
  - simpl. intros H. injection H as <-. split; [reflexivity|]. split; [reflexivity|].
    journal_done. reflexivity.
Qed.

(** X19.  The context that [createAndroidContextAsync] returns: its Gradle
    context is the one that was resolved, its application id is the one
    found under that Gradle context, the Google services file passed its
    check, and for a managed project the application id was ensured to be
    defined. *)
Theorem createAndroidContext_completed (ctx : CommonContext) (w : World)
    (context : AndroidBuildContext) :
  fst (createAndroidContextAsync sv ctx w) = Returned (Completed context) ->
  checkGoogleServicesFileAsync sv = inr tt /\
  resolveGradleBuildContextAsync sv = inr (gradleContext context) /\
  getApplicationIdAsync sv (gradleContext context) = inr (applicationId context) /\
  (workflow ctx = MANAGED ->
   ensureApplicationIdIsDefinedForManagedProjectAsync sv = inr tt).
Proof.
  unfold createAndroidContextAsync.
  assert (Hrest : forall w1, fst (checkAndResolve sv ctx w1) = Returned (Completed context) ->
            checkGoogleServicesFileAsync sv = inr tt /\
            resolveGradleBuildContextAsync sv = inr (gradleContext context) /\
            getApplicationIdAsync sv (gradleContext context) = inr (applicationId context) /\
            (workflow ctx = MANAGED ->
             ensureApplicationIdIsDefinedForManagedProjectAsync sv = inr tt)).
  { intros w1 H. apply checkAndResolve_returned in H as (context' & H & Hfacts).
    injection H as <-. exact Hfacts. }
  destruct (gradleCommand (buildProfile ctx)) as [command|]; [|apply Hrest].
  destruct (String.eqb (distribution (buildProfile ctx)) "internal" && includes "bundle" command);
    [|apply Hrest].
  unfold call, bind, emit. cbn beta iota.
  destruct (toggleConfirmAsync sv _) as [?|confirmed]; cbn beta iota; [discriminate|].
  unfold ret. cbn beta iota. destruct confirmed; cbn [negb]; [apply Hrest|discriminate].
Qed.

(** *** ensureAndroidCredentialsAsync *)

(** X20.  What [ensureAndroidCredentialsAsync] returns.  It returns
    [undefined], having called nothing, exactly for a profile with
    [withoutCredentials] set; otherwise the result carries the credentials
    source of the profile and the credentials that the provider gave for the
    account of the user with the name of the context, the name of the project
    and the application id of the Gradle context. *)
Theorem ensureAndroidCredentials_returned (ctx : AndroidContext) (w : World)
    (result : option (@CredentialsResult AndroidCredentials)) :
  fst (ensureAndroidCredentialsAsync sv ctx w) = Returned result ->
  match result with
  | None =>
      withoutCredentials (profile ctx) = Some true /\
      snd (ensureAndroidCredentialsAsync sv ctx w) = w
  | Some provided =>
      withoutCredentials (profile ctx) <> Some true /\
      source provided = credentialsSource (profile ctx) /\
      exists found identifier,
        findAccountByName sv (accounts ctx) (accountName ctx) = Some found /\
        getApplicationIdAsync sv (gradleContext (android ctx)) = inr identifier /\
        getCredentialsAsync sv
          {| account := found; appProjectName := projectName ctx;
             androidApplicationIdentifier := identifier |}
          (credentialsSource (profile ctx)) = inr (credentials provided)
  end.
Proof.
  unfold ensureAndroidCredentialsAsync, shouldProvideCredentials, call, bind, emit, ret, throw.
  destruct (withoutCredentials (profile ctx)) as [[|]|] eqn:Hwithout; simpl.
  1: { intros H. injection H as <-. auto. }
  all: destruct (getApplicationIdAsync sv _) as [?|identifier] eqn:Hid; simpl;
         [discriminate|].
  all: destruct (findAccountByName sv _ _) as [found|] eqn:Hfound; simpl; [|discriminate].
  all: destruct (getCredentialsAsync sv _ _) as [?|provided] eqn:Hprovided; simpl;
         [discriminate|].
  all: intros H; injection H as <-; simpl.
  all: split; [discriminate|]; split; [reflexivity|]; eauto.
Qed.

(** X21.  Credentials are only ever requested for an account of the user:
    however [ensureAndroidCredentialsAsync] ends, every request for
    credentials in the journal is for the account that [findAccountByName]
    found under the account name of the context, and for the credentials
    source of the profile.  When there is no such account, the call fails with
    [You do not have access to account: <name>] once the application id is
    known. *)
Theorem ensureAndroidCredentials_needs_account (ctx : AndroidContext) (w : World) :
  let run := ensureAndroidCredentialsAsync sv ctx w in
  let found := findAccountByName sv (accounts ctx) (accountName ctx) in
  (exists events,
     snd run = w ++ events /\
     Forall (requestedFor found (credentialsSource (profile ctx))) events) /\
  (withoutCredentials (profile ctx) <> Some true ->
   found = None ->
   forall identifier,
     getApplicationIdAsync sv (gradleContext (android ctx)) = inr identifier ->
     fst run = Thrown (noAccess (accountName ctx))).
Proof.
  intros run found. subst run found.
  unfold ensureAndroidCredentialsAsync, shouldProvideCredentials, call, bind, emit, ret, throw.
  destruct (withoutCredentials (profile ctx)) as [[|]|] eqn:Hwithout; simpl.
  1: { split; [exists []; rewrite app_nil_r; auto | intros H; contradiction]. }
  all: destruct (getApplicationIdAsync sv _) as [?|identifier] eqn:Hid; simpl.
  all: try (split; [journal_done; repeat constructor | intros _ _ ? ?; discriminate]).
  all: destruct (findAccountByName sv _ _) as [found|] eqn:Hfound; simpl.
  all: try (split; [journal_done; repeat constructor | reflexivity]).
  all: destruct (getCredentialsAsync sv _ _) as [?|provided]; simpl.
  all: split; [journal_done; repeat constructor; simpl; auto | intros _ ?; discriminate].
Qed.

(** *** validateAndSyncProjectConfigurationAsync *)

(** X22.  A validation that returns has bumped the version once, with the
    strategy of the profile ([NOOP] when [autoIncrement] is absent): through
    [bumpVersionAsync] for a generic project, which was found configured,
    and through [bumpVersionInAppJsonAsync] otherwise. *)
Theorem validateAndSync_bumps_once (buildProfile : BuildProfile) (w : World) :
  fst (validateAndSyncProjectConfigurationAsync sv buildProfile w) = Returned tt ->
  exists workflow events,
    resolveWorkflowAsync sv = inr workflow /\
    snd (validateAndSyncProjectConfigurationAsync sv buildProfile w) = w ++ events /\
    List.filter bumps events = [bump workflow buildProfile] /\
    (workflow = GENERIC -> isEasBuildGradleConfiguredAsync sv = inr true).
Proof.
  unfold validateAndSyncProjectConfigurationAsync, call, bind, emit, ret, throw, bump.
  destruct (resolveWorkflowAsync sv) as [?|[|]]; simpl; [discriminate| |].
  - destruct (isEasBuildGradleConfiguredAsync sv) as [?|[|]]; simpl; try discriminate.
    destruct (isExpoUpdatesInstalled sv); simpl;
      [destruct (syncUpdatesConfigurationAsync sv) as [?|[]]; simpl; [discriminate|]|];
      destruct (bumpVersionAsync sv _) as [?|[]]; simpl; try discriminate; intros _;
      exists GENERIC; eexists; (split; [reflexivity|]); journal_split; auto.
  - destruct (bumpVersionInAppJsonAsync sv _) as [?|[]]; simpl; try discriminate; intros _.
    exists MANAGED. eexists. split; [reflexivity|]. journal_split. split; [reflexivity|discriminate].
Qed.

(** X23.  A generic project that is not found configured for EAS Build is
    left as it is: the validation fails, with
    [Project is not configured. ...] when the check answers no, and neither
    the updates configuration is synchronised nor the version bumped. *)
Theorem validateAndSync_unconfigured (buildProfile : BuildProfile) (w : World) :
  resolveWorkflowAsync sv = inr GENERIC ->
  isEasBuildGradleConfiguredAsync sv <> inr true ->
  let run := validateAndSyncProjectConfigurationAsync sv buildProfile w in
  (exists error,
     fst run = Thrown error /\
     (isEasBuildGradleConfiguredAsync sv = inr false -> error = notConfigured)) /\
  exists events, snd run = w ++ events /\ forallb (fun e => negb (writes e)) events = true.
Proof.
  intros Hworkflow Hconfigured run. subst run.
  unfold validateAndSyncProjectConfigurationAsync, call, bind, emit, ret, throw.
  rewrite Hworkflow. simpl.
  destruct (isEasBuildGradleConfiguredAsync sv) as [error|[|]]; simpl.
  - split; [exists error; split; [reflexivity|discriminate]|]. journal_done. reflexivity.
  - contradiction.
  - split; [exists notConfigured; split; reflexivity|]. journal_done. reflexivity.
Qed.

(** *** configureAndroidAsync *)

(** X24.  [Android project configured] is only printed after the whole
    native configuration succeeded: the project has a native Android
    directory, EAS Build was configured in it, its Gradle file is tracked, and
    the updates were configured when expo-updates is installed.  Without a
    native directory none of these steps is taken. *)
Theorem configureAndroid_tick (ctx : ConfigureContext) (w : World) :
  exists events,
    snd (configureAndroidAsync sv ctx w) = w ++ events /\
    (hasAndroidNativeProject ctx = false ->
     forallb (fun e => negb (configuresNative e)) events = true) /\
    (forall text, In (Log_withTick text) events ->
       hasAndroidNativeProject ctx = true /\
       fst (configureAndroidAsync sv ctx w) = Returned tt /\
       configureEasBuildAsync sv = inr tt /\
       trackFileAsync sv (getEasBuildGradlePath sv) = inr tt /\
       (isExpoUpdatesInstalled sv = true -> configureUpdatesAsync sv = inr tt)).
Proof.
  unfold configureAndroidAsync, call, bind, emit, ret, throw.
  destruct (hasAndroidNativeProject ctx); simpl.
  - destruct (configureEasBuildAsync sv) as [?|[]]; simpl.
    { journal_done. split; [discriminate|]. intros text H. simpl in H.
      repeat (destruct H as [H|H]; try discriminate). destruct H. }
    destruct (trackFileAsync sv _) as [?|[]]; simpl.
    { journal_done. split; [discriminate|]. intros text H. simpl in H.
      repeat (destruct H as [H|H]; try discriminate). destruct H. }
    destruct (isExpoUpdatesInstalled sv); simpl;
      [destruct (configureUpdatesAsync sv) as [?|[]]; simpl|].
    all: journal_done; (split; [discriminate|]); intros text H; simpl in H;
      repeat (destruct H as [H|H]; try discriminate); try destruct H;
      repeat split; auto; discriminate.
  - destruct (ensureApplicationIdIsDefinedForManagedProjectAsync sv) as [?|[]]; simpl;
      journal_done; (split; [reflexivity|]); intros text H; simpl in H;
      repeat (destruct H as [H|H]; try discriminate); destruct H.
Qed.

End AndroidProperties.

(** * Worked runs of the Android build context, credentials and configuration *)

Section AndroidRuns.

Import BuildRequest Android AndroidTrace.

#[local] Open Scope list_scope.

Lemma createAndroidContext_exit_is_refusal_witness :
  1 = 1 /\
  toggleConfirmAsync (androidServices false true) "Would you like to proceed?" = inr false /\
  exists events,
    snd (createAndroidContextAsync (androidServices false true) managedInternal [])
    = [] ++ events /\
    forallb (fun e => negb (checks e)) events = true.
Proof.
  apply (createAndroidContext_exit_is_refusal (androidServices false true) managedInternal []).
  reflexivity.
Defined.

Lemma createAndroidContext_completed_witness :
  checkGoogleServicesFileAsync (androidServices true true) = inr tt /\
  resolveGradleBuildContextAsync (androidServices true true) = inr (gradleContext resolved) /\
  getApplicationIdAsync (androidServices true true) (gradleContext resolved)
  = inr (applicationId resolved) /\
  (workflow managedInternal = MANAGED ->
   ensureApplicationIdIsDefinedForManagedProjectAsync (androidServices true true) = inr tt).
Proof.
  apply (createAndroidContext_completed (androidServices true true) managedInternal []
           resolved).
  reflexivity.
Defined.

Lemma ensureAndroidCredentials_returned_witness :
  withoutCredentials (profile (ofAccount "team")) <> Some true /\
  REMOTE = credentialsSource (profile (ofAccount "team")) /\
  exists found identifier,
    findAccountByName (androidServices true true) (accounts (ofAccount "team"))
      (accountName (ofAccount "team")) = Some found /\
    getApplicationIdAsync (androidServices true true)
      (gradleContext (android (ofAccount "team"))) = inr identifier /\
    getCredentialsAsync (androidServices true true)
      {| account := found; appProjectName := projectName (ofAccount "team");
         androidApplicationIdentifier := identifier |}
      (credentialsSource (profile (ofAccount "team"))) = inr "keystore".
Proof.
  apply (ensureAndroidCredentials_returned (androidServices true true) (ofAccount "team") []
           (Some {| credentials := "keystore"; source := REMOTE |})).
  reflexivity.
Defined.

Lemma ensureAndroidCredentials_needs_account_witness :
  fst (ensureAndroidCredentialsAsync (androidServices true true) (ofAccount "stranger") [])
  = Thrown (noAccess "stranger").
Proof.
  apply (proj2 (ensureAndroidCredentials_needs_account (androidServices true true)
                  (ofAccount "stranger") []))
    with (identifier := "com.example.app").
  - discriminate.
  - reflexivity.
  - reflexivity.
Defined.

Lemma validateAndSync_bumps_once_witness :
  exists workflow events,
    resolveWorkflowAsync (androidServices true true) = inr workflow /\
    snd (validateAndSyncProjectConfigurationAsync (androidServices true true)
           internalBundle []) = [] ++ events /\
    List.filter bumps events = [bump workflow internalBundle] /\
    (workflow = GENERIC ->
     isEasBuildGradleConfiguredAsync (androidServices true true) = inr true).
Proof.
  apply (validateAndSync_bumps_once (androidServices true true) internalBundle []).
  reflexivity.
Defined.

Lemma validateAndSync_unconfigured_witness :
  (exists error,
     fst (validateAndSyncProjectConfigurationAsync (androidServices true false)
            internalBundle []) = Thrown error /\
     (isEasBuildGradleConfiguredAsync (androidServices true false) = inr false ->
      error = notConfigured)) /\
  exists events,
    snd (validateAndSyncProjectConfigurationAsync (androidServices true false)
           internalBundle []) = [] ++ events /\
    forallb (fun e => negb (writes e)) events = true.
Proof.
  apply (validateAndSync_unconfigured (androidServices true false) internalBundle []).
  - reflexivity.
  - discriminate.
Defined.

End AndroidRuns.
